(** * controle_epi: stock ledger and delivery lifecycle of [app.py]

    A shallow embedding of the Flask/SQLAlchemy routes that move PPE stock
    ([epis], [editar_epi], [deletar_epi], [entregar_epi], [devolver_epi],
    [descartar_epi], [deletar_funcionario], the expired-items loop of
    [dashboard]) and the properties of the ledger they implement.

    Conventions.
    - Python [int] is [Z]; a [str] is the [string] of the bytes of its UTF-8
      encoding, and [ponto] reads its code points; [None]-able columns are
      [option].
    - A table is a [gmap Z row] keyed by the primary key.
    - [db.session] is modelled by a pair (committed rows, rows as the session
      sees them); [commit] may raise, driven by an oracle over the index of
      the commit inside the request.
    - [datetime.utcnow()], [date.today()] and [current_user.nome] are inputs
      of the handlers. *)

From Stdlib Require Import ZArith Lia Ascii String.
From stdpp Require Import gmap strings list fin_maps pretty.

Local Open Scope string_scope.
Local Open Scope Z_scope.

(** ** Text as UTF-8 *)

Definition octeto (c : ascii) : Z := Z.of_N (N_of_ascii c).

(** The six payload bits of a continuation byte [10xxxxxx]. *)
Definition continuacao (c : ascii) : option Z :=
  let n := octeto c in
  if (128 <=? n) && (n <=? 191) then Some (n - 128) else None.

(** The code point at the head of a text, with the rest of the text; [None]
    at the end of the text and where the bytes are not the encoding of a
    code point (a stray continuation byte, an overlong form, a surrogate). *)
Definition ponto (s : string) : option (Z * string) :=
  match s with
  | EmptyString => None
  | String c1 r1 =>
      let n1 := octeto c1 in
      if n1 <? 128 then Some (n1, r1)
      else if (194 <=? n1) && (n1 <=? 223) then
        match r1 with
        | String c2 r2 =>
            match continuacao c2 with
            | Some b => Some ((n1 - 192) * 64 + b, r2)
            | None => None
            end
        | _ => None
        end
      else if (224 <=? n1) && (n1 <=? 239) then
        match r1 with
        | String c2 (String c3 r3) =>
            match continuacao c2, continuacao c3 with
            | Some b, Some c =>
                let p := (n1 - 224) * 4096 + b * 64 + c in
                if (2048 <=? p) && negb ((55296 <=? p) && (p <=? 57343))
                then Some (p, r3) else None
            | _, _ => None
            end
        | _ => None
        end
      else if (240 <=? n1) && (n1 <=? 244) then
        match r1 with
        | String c2 (String c3 (String c4 r4)) =>
            match continuacao c2, continuacao c3, continuacao c4 with
            | Some b, Some c, Some d =>
                let p := (n1 - 240) * 262144 + b * 4096 + c * 64 + d in
                if (65536 <=? p) && (p <=? 1114111)
                then Some (p, r4) else None
            | _, _, _ => None
            end
        | _ => None
        end
      else None
  end.

(** The code points [str.isspace] accepts, which are the ones [str.strip]
    removes: U+0009..000D, U+001C..0020, U+0085, U+00A0, U+1680,
    U+2000..200A, U+2028, U+2029, U+202F, U+205F and U+3000. *)
Definition isspace (p : Z) : bool :=
  ((9 <=? p) && (p <=? 13)) || ((28 <=? p) && (p <=? 32))
  || (p =? 133) || (p =? 160) || (p =? 5760)
  || ((8192 <=? p) && (p <=? 8202))
  || (p =? 8232) || (p =? 8233) || (p =? 8239) || (p =? 8287)
  || (p =? 12288).

(** The zero of every run of ten decimal digits (category Nd) of the Unicode
    database 14.0, the one of CPython 3.11: ASCII, Arabic-Indic, ...,
    fullwidth, ..., the five mathematical alphabets, ..., segmented. *)
Definition zeros_decimais : list Z :=
  [ 48; 1632; 1776; 1984; 2406; 2534; 2662; 2790; 2918; 3046; 3174; 3302;
    3430; 3558; 3664; 3792; 3872; 4160; 4240; 6112; 6160; 6470; 6608; 6784;
    6800; 6992; 7088; 7232; 7248; 42528; 43216; 43264; 43472; 43504; 43600;
    44016; 65296; 66720; 68912; 69734; 69872; 69942; 70096; 70384; 70736;
    70864; 71248; 71360; 71472; 71904; 72016; 72784; 73040; 73120; 92768;
    92864; 93008; 120782; 120792; 120802; 120812; 120822; 123200; 123632;
    125264; 130032 ].

(** [int] of one decimal digit: the place of the code point in its run. *)
Definition decimal_do_ponto (p : Z) : option Z :=
  (λ z, p - z) <$> find (λ z, (z <=? p) && (p <? z + 10)) zeros_decimais.


(** ** Dates and [datetime.strptime] *)

Record data := Data { ano : Z; mes : Z; dia : Z }.

#[global] Instance data_eq_dec : EqDecision data.
Proof. solve_decision. Defined.

(** [date.__lt__]: lexicographic on (year, month, day). *)
Definition data_lt (a b : data) : bool :=
  (ano a <? ano b)
  || ((ano a =? ano b)
      && ((mes a <? mes b) || ((mes a =? mes b) && (dia a <? dia b)))).

(** A [datetime] value is kept abstract: a point on the time line. *)
Definition datahora := Z.

Definition bissexto (y : Z) : bool :=
  (y mod 4 =? 0) && (negb (y mod 100 =? 0) || (y mod 400 =? 0)).

Definition dias_no_mes (y m : Z) : Z :=
  if m =? 2 then (if bissexto y then 29 else 28)
  else if (m =? 4) || (m =? 6) || (m =? 9) || (m =? 11) then 30
  else 31.

(** The value of an ASCII decimal digit. *)
Definition digito (c : ascii) : option Z :=
  let n := Z.of_N (N_of_ascii c) in
  if (48 <=? n) && (n <=? 57) then Some (n - 48) else None.

(** A digit inside the closed range [lo-hi] of a character class. *)
Definition digito_em (lo hi : Z) (c : ascii) : option Z :=
  match digito c with
  | Some v => if (lo <=? v) && (v <=? hi) then Some v else None
  | None => None
  end.

(** The directives used by the two format strings of the application. *)
Inductive diretiva := D_d | D_m | D_Y | D_lit (c : ascii).

(** The alternatives of the regular expression that [_strptime] builds for a
    directive, in the order the regex engine tries them, each with the value
    it reads and the rest of the input.
    - [%d]: [3[0-1]|[1-2]\d|0[1-9]|[1-9]| [1-9]]
    - [%m]: [1[0-2]|0[1-9]|[1-9]]
    - [%Y]: [\d\d\d\d]
    A class such as [[1-9]] holds ASCII digits only; [\d] is any decimal
    digit of Unicode, and [int] reads its value. *)
Definition dois (lo1 hi1 lo2 hi2 : Z) (s : string) : list (Z * string) :=
  match s with
  | String c1 (String c2 r) =>
      match digito_em lo1 hi1 c1, digito_em lo2 hi2 c2 with
      | Some a, Some b => [(10 * a + b, r)]
      | _, _ => []
      end
  | _ => []
  end.

Definition um (lo hi : Z) (s : string) : list (Z * string) :=
  match s with
  | String c r =>
      match digito_em lo hi c with Some a => [(a, r)] | None => [] end
  | _ => []
  end.

Definition espaco_um (s : string) : list (Z * string) :=
  match s with
  | String c r => if decide (c = " "%char) then um 1 9 r else []
  | _ => []
  end.

(** [\d]. *)
Definition decimal (s : string) : list (Z * string) :=
  match ponto s with
  | Some (p, r) =>
      match decimal_do_ponto p with Some v => [(v, r)] | None => [] end
  | None => []
  end.

(** [[lo-hi]\d]. *)
Definition um_decimal (lo hi : Z) (s : string) : list (Z * string) :=
  '(a, r) ← um lo hi s; '(b, r') ← decimal r; [(10 * a + b, r')].

(** [\d\d\d\d]. *)
Definition quatro (s : string) : list (Z * string) :=
  '(a, r1) ← decimal s; '(b, r2) ← decimal r1;
  '(c, r3) ← decimal r2; '(d, r4) ← decimal r3;
  [(1000 * a + 100 * b + 10 * c + d, r4)].

Definition alternativas_d (s : string) : list (Z * string) :=
  dois 3 3 0 1 s ++ um_decimal 1 2 s ++ dois 0 0 1 9 s ++ um 1 9 s
  ++ espaco_um s.

Definition alternativas_m (s : string) : list (Z * string) :=
  dois 1 1 0 2 s ++ dois 0 0 1 9 s ++ um 1 9 s.

(** The groups found by the match; [_strptime] starts from year 1900,
    month 1, day 1. *)
Record campos := Campos { c_Y : Z; c_m : Z; c_d : Z }.

Definition campos_iniciais : campos := Campos 1900 1 1.

(** First alternative for which the continuation succeeds (backtracking). *)
Fixpoint primeiro {A B} (k : A → option B) (l : list A) : option B :=
  match l with
  | [] => None
  | x :: l' => match k x with Some b => Some b | None => primeiro k l' end
  end.

(** [re.match] of the compiled format against the input: the groups and the
    unconsumed rest. *)
Fixpoint casar (fmt : list diretiva) (s : string) (cs : campos)
  : option (campos * string) :=
  match fmt with
  | [] => Some (cs, s)
  | D_lit c :: fmt' =>
      match s with
      | String c' r => if decide (c = c') then casar fmt' r cs else None
      | EmptyString => None
      end
  | D_d :: fmt' =>
      primeiro (λ '(v, r), casar fmt' r (Campos (c_Y cs) (c_m cs) v))
               (alternativas_d s)
  | D_m :: fmt' =>
      primeiro (λ '(v, r), casar fmt' r (Campos (c_Y cs) v (c_d cs)))
               (alternativas_m s)
  | D_Y :: fmt' =>
      primeiro (λ '(v, r), casar fmt' r (Campos v (c_m cs) (c_d cs)))
               (quatro s)
  end.

(** [datetime.strptime(s, fmt).date()]; [None] stands for the [ValueError]
    raised when the text does not match, when unconverted data remains, or
    when the fields are not a calendar date (year 0, 31/02, ...). *)
Definition strptime (fmt : list diretiva) (s : string) : option data :=
  match casar fmt s campos_iniciais with
  | Some (cs, EmptyString) =>
      if (1 <=? c_Y cs) && (1 <=? c_d cs)
         && (c_d cs <=? dias_no_mes (c_Y cs) (c_m cs))
      then Some (Data (c_Y cs) (c_m cs) (c_d cs))
      else None
  | _ => None
  end.

(** ["%d/%m/%Y"] and ["%Y-%m-%d"]. *)
Definition fmt_dmY : list diretiva := [D_d; D_lit "/"; D_m; D_lit "/"; D_Y].
Definition fmt_Ymd : list diretiva := [D_Y; D_lit "-"; D_m; D_lit "-"; D_d].

(** A date of the calendar, as a [datetime.date] holds one. *)
Definition data_valida (d : data) : Prop :=
  1 ≤ ano d ≤ 9999 ∧ 1 ≤ mes d ≤ 12 ∧ 1 ≤ dia d ≤ dias_no_mes (ano d) (mes d).

(** The ASCII digit of a number below ten; a number in two and in four
    digits, with leading zeros. *)
Definition algarismo (n : Z) : ascii := ascii_of_N (Z.to_N (48 + n)).

Definition dois_algarismos (n : Z) : string :=
  String (algarismo (n / 10)) (String (algarismo (n mod 10)) "").

Definition quatro_algarismos (n : Z) : string :=
  String (algarismo (n / 1000))
    (String (algarismo (n / 100 mod 10))
       (String (algarismo (n / 10 mod 10))
          (String (algarismo (n mod 10)) ""))).

(** A date written DD/MM/YYYY, the form the column [validade_ca] is meant
    for ("formato BR DD/MM/YYYY"), and written YYYY-MM-DD, the form a date
    field of a browser sends. *)
Definition texto_dmY (d : data) : string :=
  dois_algarismos (dia d) +:+ "/" +:+ dois_algarismos (mes d) +:+ "/"
  +:+ quatro_algarismos (ano d).

Definition texto_Ymd (d : data) : string :=
  quatro_algarismos (ano d) +:+ "-" +:+ dois_algarismos (mes d) +:+ "-"
  +:+ dois_algarismos (dia d).

(** The same date written D/M/YYYY, day and month without a leading
    zero. *)
Definition sem_zero (n : Z) : string :=
  if n <? 10 then String (algarismo n) "" else dois_algarismos n.

Definition texto_dmY_curto (d : data) : string :=
  sem_zero (dia d) +:+ "/" +:+ sem_zero (mes d) +:+ "/"
  +:+ quatro_algarismos (ano d).


(** ** Text helpers: [str.strip] and Python's [x or y] on strings *)

(** [bool(s)] for a [str]. *)
Definition vazia (s : string) : bool :=
  match s with EmptyString => true | _ => false end.

(** One white-space character taken off the head of a text. *)
Definition corta (s : string) : option string :=
  match ponto s with
  | Some (p, r) => if isspace p then Some r else None
  | None => None
  end.

(** [str.lstrip]: the loop that skips the leading white space; it takes one
    character a turn, so as many turns as the text has bytes are enough. *)
Fixpoint lstrip_ate (n : nat) (s : string) : string :=
  match n with
  | O => s
  | S n' => match corta s with Some r => lstrip_ate n' r | None => s end
  end.

Definition lstrip (s : string) : string := lstrip_ate (String.length s) s.

(** [str.rstrip]: the text up to its last character that is not white
    space, that is, without the longest tail made of white space only. *)
Fixpoint rstrip (s : string) : string :=
  match s with
  | String c r =>
      if vazia (lstrip s) then EmptyString else String c (rstrip r)
  | EmptyString => EmptyString
  end.

Definition strip (s : string) : string := rstrip (lstrip s).

(** [request.form.get(k) or padrao]: [None] and [''] are both falsy. *)
Definition ou (v : option string) (padrao : string) : string :=
  match v with
  | Some s => if vazia s then padrao else s
  | None => padrao
  end.

(** [x or None] on a [str]. *)
Definition ou_None (s : string) : option string :=
  if vazia s then None else Some s.

(** ** The tables *)

Module Epi.
Record t := Novo {
  nome : string;
  numero_ca : string;
  validade_ca : string;   (* DD/MM/YYYY, kept as text *)
  quantidade : Z;
  codigo_produto : string;
  observacao : string
}.
(** [e.quantidade = q] on a loaded row. *)
Definition com_quantidade (e : t) (q : Z) : t :=
  Novo (nome e) (numero_ca e) (validade_ca e) q (codigo_produto e) (observacao e).
End Epi.

Module Funcionario.
Record t := Novo {
  nome : string;
  matricula : string;
  setor : string;
  data_admissao : option data;
  senha_validacao : option string
}.
Definition com_senha_validacao (f : t) (s : option string) : t :=
  Novo (nome f) (matricula f) (setor f) (data_admissao f) s.
End Funcionario.

Module EntregaEpi.
Record t := Novo {
  funcionario_id : Z;
  epi_id : Z;
  quantidade : Z;
  data_entrega : datahora;
  validade_entrega : option data;
  entregue_por : string;
  status : string;         (* entregue / devolvido / descartado *)
  observacao : option string;
  data_devolucao : option datahora;
  data_descarte : option datahora
}.
(** Attribute assignments on a loaded row. *)
Definition com_quantidade (e : t) (q : Z) : t :=
  Novo (funcionario_id e) (epi_id e) q (data_entrega e) (validade_entrega e)
       (entregue_por e) (status e) (observacao e) (data_devolucao e)
       (data_descarte e).
Definition com_status (e : t) (s : string) : t :=
  Novo (funcionario_id e) (epi_id e) (quantidade e) (data_entrega e)
       (validade_entrega e) (entregue_por e) s (observacao e)
       (data_devolucao e) (data_descarte e).
Definition com_data_devolucao (e : t) (d : option datahora) : t :=
  Novo (funcionario_id e) (epi_id e) (quantidade e) (data_entrega e)
       (validade_entrega e) (entregue_por e) (status e) (observacao e)
       d (data_descarte e).
Definition com_data_descarte (e : t) (d : option datahora) : t :=
  Novo (funcionario_id e) (epi_id e) (quantidade e) (data_entrega e)
       (validade_entrega e) (entregue_por e) (status e) (observacao e)
       (data_devolucao e) d.
End EntregaEpi.

Module HistoricoEpi.
Record t := Novo {
  epi_id : Z;
  data : datahora;
  acao : string;           (* Cadastro / Ajuste de Estoque / Entrega / Exclusão *)
  quantidade : Z;
  usuario : string
}.
End HistoricoEpi.

Module Log.
Record t := Novo {
  usuario : string;
  acao : string;
  data_hora : datahora
}.
End Log.

Record DB := Banco {
  epi : gmap Z Epi.t;
  funcionario : gmap Z Funcionario.t;
  entrega_epi : gmap Z EntregaEpi.t;
  historico_epi : gmap Z HistoricoEpi.t;
  log : gmap Z Log.t
}.

(** The key an [INTEGER PRIMARY KEY] column receives on insert: one more
    than the largest key of the table, 1 in an empty table. *)
Definition proximo_id {A} (m : gmap Z A) : Z :=
  1 + map_fold (λ k _ acc, Z.max k acc) 0 m.

(** ** The session: an exception-and-state monad *)

Inductive excecao :=
  | NotFound   (* [abort(404)] of [get_or_404] *)
  | Erro.      (* any other [Exception] *)

Inductive saida (A : Type) :=
  | Retorna (a : A)
  | Levanta (e : excecao).
Arguments Retorna {A} a.
Arguments Levanta {A} e.

(** [gravado]: what the database holds; [sessao]: the rows as the open
    session sees them (pending changes included); [commits]: how many
    commits this request has attempted. *)
Record Mundo := MkMundo {
  gravado : DB;
  sessao : DB;
  commits : nat
}.

Definition M (A : Type) : Type := Mundo → saida A * Mundo.

Definition ret {A} (a : A) : M A := λ w, (Retorna a, w).

Definition bind {A B} (m : M A) (k : A → M B) : M B :=
  λ w, match m w with
       | (Retorna a, w') => k a w'
       | (Levanta e, w') => (Levanta e, w')
       end.

Notation "x <- m ;; k" := (bind m (λ x, k))
  (at level 100, m at next level, right associativity).
Notation "m ;;; k" := (bind m (λ _, k))
  (at level 100, right associativity).

Definition levanta {A} (e : excecao) : M A := λ w, (Levanta e, w).

(** [try: m except Exception: h]. [abort] raises an [HTTPException], which
    is an [Exception] too. *)
Definition tenta {A} (m : M A) (h : M A) : M A :=
  λ w, match m w with
       | (Retorna a, w') => (Retorna a, w')
       | (Levanta _, w') => h w'
       end.

Definition le {A} (f : DB → A) : M A := λ w, (Retorna (f (sessao w)), w).

Definition muda (f : DB → DB) : M unit :=
  λ w, (Retorna tt, MkMundo (gravado w) (f (sessao w)) (commits w)).

(** The ambient values a request reads: the logged-in user, the clocks, and
    which of its commits the database refuses. *)
Record Contexto := MkContexto {
  current_user_nome : string;
  current_user_role : string;
  utcnow : datahora;
  now : datahora;
  falha : nat → bool
}.

(** [db.session.commit()]: the pending rows become the stored ones, unless
    the database raises. *)
Definition commit (ctx : Contexto) : M unit :=
  λ w, if falha ctx (commits w)
       then (Levanta Erro, MkMundo (gravado w) (sessao w) (S (commits w)))
       else (Retorna tt, MkMundo (sessao w) (sessao w) (S (commits w))).

(** [db.session.rollback()]. *)
Definition rollback : M unit :=
  λ w, (Retorna tt, MkMundo (gravado w) (gravado w) (commits w)).

(** [Model.query.get(id)] and [Model.query.get_or_404(id)]. *)
Definition get {A} (tabela : DB → gmap Z A) (id : Z) : M (option A) :=
  le (λ db, tabela db !! id).

Definition get_or_404 {A} (tabela : DB → gmap Z A) (id : Z) : M A :=
  o <- get tabela id ;;
  match o with Some a => ret a | None => levanta NotFound end.

(** Row writes, by table. [add_*] is [db.session.add] of a new object and
    returns the key the flush gives it. *)
Definition put_epi (id : Z) (e : Epi.t) : M unit :=
  muda (λ db, Banco (<[id := e]> (epi db)) (funcionario db) (entrega_epi db)
                    (historico_epi db) (log db)).

Definition put_funcionario (id : Z) (f : Funcionario.t) : M unit :=
  muda (λ db, Banco (epi db) (<[id := f]> (funcionario db)) (entrega_epi db)
                    (historico_epi db) (log db)).

Definition put_entrega (id : Z) (e : EntregaEpi.t) : M unit :=
  muda (λ db, Banco (epi db) (funcionario db) (<[id := e]> (entrega_epi db))
                    (historico_epi db) (log db)).

Definition add_epi (e : Epi.t) : M Z :=
  id <- le (λ db, proximo_id (epi db)) ;;
  put_epi id e ;;; ret id.

Definition add_entrega (e : EntregaEpi.t) : M Z :=
  id <- le (λ db, proximo_id (entrega_epi db)) ;;
  put_entrega id e ;;; ret id.

Definition add_historico (h : HistoricoEpi.t) : M unit :=
  muda (λ db, Banco (epi db) (funcionario db) (entrega_epi db)
                    (<[proximo_id (historico_epi db) := h]> (historico_epi db))
                    (log db)).

Definition add_log (l : Log.t) : M unit :=
  muda (λ db, Banco (epi db) (funcionario db) (entrega_epi db)
                    (historico_epi db)
                    (<[proximo_id (log db) := l]> (log db))).

(** Form and JSON fields read through [int(...)]: the field is absent or
    empty, holds text [int] converts, or holds text on which [int] raises. *)
Inductive campo_int :=
  | Vazio
  | Inteiro (z : Z)
  | Invalido.

(** The value of [int(campo or padrao)], [None] when [int] raises. *)
Definition valor_ou (c : campo_int) (padrao : Z) : option Z :=
  match c with
  | Vazio => Some padrao
  | Inteiro z => Some z
  | Invalido => None
  end.

(** [int(campo or padrao)]. *)
Definition int_ou (c : campo_int) (padrao : Z) : M Z :=
  match valor_ou c padrao with
  | Some z => ret z
  | None => levanta Erro
  end.

(** ** Responses *)

(** The texts the routes flash or return, by meaning. *)
Inductive mensagem :=
  | PreenchaCamposEpi        (* 'Preencha corretamente os campos do EPI.' *)
  | EpiCadastrado            (* 'EPI cadastrado com sucesso!' *)
  | EpiAtualizado            (* 'EPI atualizado com sucesso!' *)
  | EpiRemovido              (* 'EPI removido com sucesso!' *)
  | FuncionarioOuEpiInvalido (* 'Funcionário ou EPI inválido!' *)
  | SenhaIncorreta           (* 'Senha de validação incorreta!' *)
  | InformeQuantidade        (* 'Informe uma quantidade válida.' *)
  | EstoqueInsuficiente      (* 'Estoque insuficiente!' *)
  | Entregue                 (* '{quantidade}x {epi.nome} entregue a {funcionario.nome}.' *)
  | ErroEntrega              (* 'Erro ao registrar entrega: {e}' *)
  | JaFinalizada             (* 'Esta entrega já foi finalizada.' *)
  | QuantidadeInvalida       (* 'Quantidade inválida.' *)
  | SenhaCadastrada          (* 'Senha de validação cadastrada com sucesso!' *)
  | FuncionarioRemovido.     (* 'Funcionário e entregas associadas removidos com sucesso!' *)

Inductive resposta :=
  | Redireciona (flash : mensagem)   (* [flash(...)] then [redirect(...)] *)
  | Json200                          (* [{"status": "ok"}], 200 *)
  | Json400 (m : mensagem)           (* [{"status": "erro", "mensagem": m}], 400 *)
  | Aborta404
  | Erro500.

#[global] Instance mensagem_eq_dec : EqDecision mensagem.
Proof. solve_decision. Defined.
#[global] Instance resposta_eq_dec : EqDecision resposta.
Proof. solve_decision. Defined.

(** One request against the stored database: a fresh session is opened on
    it, the view function runs, and what was not committed is dropped when
    the session is removed. An [abort(404)] becomes the 404 page and any
    other uncaught exception the 500 page. *)
Definition servir (m : M resposta) (db : DB) : resposta * DB :=
  match m (MkMundo db db 0) with
  | (Retorna r, w) => (r, gravado w)
  | (Levanta NotFound, w) => (Aborta404, gravado w)
  | (Levanta Erro, w) => (Erro500, gravado w)
  end.

(** ** [registrar_log] and [registrar_historico] *)

Definition registrar_log (ctx : Contexto) (usuario acao : string) : M unit :=
  add_log (Log.Novo usuario acao (now ctx)) ;;;
  commit ctx.

Definition registrar_historico (ctx : Contexto)
    (epi_id : Z) (acao : string) (quantidade : Z) (usuario : string) : M unit :=
  add_historico (HistoricoEpi.Novo epi_id (utcnow ctx) acao quantidade usuario) ;;;
  commit ctx.

(** ** [/epis] (POST), [/editar_epi/<id>], [/deletar_epi/<id>] *)

Record FormEpi := MkFormEpi {
  f_nome : option string;
  f_codigo_produto : option string;
  f_numero_ca : option string;
  f_validade_ca : option string;
  f_quantidade : campo_int;
  f_observacao : option string
}.

Definition epis (ctx : Contexto) (form : FormEpi) : M resposta :=
  let nome := strip (ou (f_nome form) "") in
  let codigo_produto := strip (ou (f_codigo_produto form) "") in
  let numero_ca := strip (ou (f_numero_ca form) "") in
  let validade_ca := strip (ou (f_validade_ca form) "") in
  quantidade <- int_ou (f_quantidade form) 0 ;;
  let observacao := strip (ou (f_observacao form) "") in
  if vazia nome || vazia validade_ca || (quantidade <? 0) then
    ret (Redireciona PreenchaCamposEpi)
  else
    id <- add_epi (Epi.Novo nome numero_ca validade_ca quantidade
                            codigo_produto observacao) ;;
    commit ctx ;;;
    registrar_historico ctx id "Cadastro" quantidade (current_user_nome ctx) ;;;
    registrar_log ctx (current_user_nome ctx) ("Cadastrou novo EPI: " +:+ nome) ;;;
    ret (Redireciona EpiCadastrado).

Definition editar_epi (ctx : Contexto) (id : Z) (form : FormEpi) : M resposta :=
  e <- get_or_404 epi id ;;
  let quantidade_antiga := Epi.quantidade e in
  let nome := strip (ou (f_nome form) (Epi.nome e)) in
  let codigo_produto := strip (ou (f_codigo_produto form) (Epi.codigo_produto e)) in
  let numero_ca := strip (ou (f_numero_ca form) (Epi.numero_ca e)) in
  let validade_ca := strip (ou (f_validade_ca form) (Epi.validade_ca e)) in
  quantidade <- int_ou (f_quantidade form) (Epi.quantidade e) ;;
  let observacao := ou (f_observacao form) (Epi.observacao e) in
  put_epi id (Epi.Novo nome numero_ca validade_ca quantidade
                       codigo_produto observacao) ;;;
  commit ctx ;;;
  (if bool_decide (quantidade ≠ quantidade_antiga) then
     let ajuste := quantidade - quantidade_antiga in
     registrar_historico ctx id "Ajuste de Estoque" ajuste (current_user_nome ctx)
   else ret tt) ;;;
  registrar_log ctx (current_user_nome ctx) ("Editou EPI: " +:+ nome) ;;;
  ret (Redireciona EpiAtualizado).

(** [db.session.delete(epi)]: the relationships [entregas] and [historico]
    cascade ('all, delete-orphan'). *)
Definition delete_epi (id : Z) : M unit :=
  muda (λ db,
    Banco (delete id (epi db))
          (funcionario db)
          (filter (λ kv, EntregaEpi.epi_id kv.2 ≠ id) (entrega_epi db))
          (filter (λ kv, HistoricoEpi.epi_id kv.2 ≠ id) (historico_epi db))
          (log db)).

Definition deletar_epi (ctx : Contexto) (id : Z) : M resposta :=
  e <- get_or_404 epi id ;;
  registrar_historico ctx id "Exclusão" 0 (current_user_nome ctx) ;;;
  registrar_log ctx (current_user_nome ctx) ("Excluiu EPI: " +:+ Epi.nome e) ;;;
  delete_epi id ;;;
  commit ctx ;;;
  ret (Redireciona EpiRemovido).

(** ** [/entregar_epi] (POST) *)

Record FormEntrega := MkFormEntrega {
  fe_funcionario_id : campo_int;
  fe_epi_id : campo_int;
  fe_quantidade : campo_int;
  fe_validade_entrega : option string;
  fe_senha_validacao : option string;
  fe_observacao : option string
}.

(** [datetime.strptime(s, "%Y-%m-%d").date() if s else None]; the outer
    [None] is the [ValueError] of [strptime]. *)
Definition validade_data (validade_str : option string) : option (option data) :=
  match validade_str with
  | Some s => if vazia s then Some None else Some <$> strptime fmt_Ymd s
  | None => Some None
  end.

Definition validade_da_entrega (validade_str : option string) : M (option data) :=
  match validade_data validade_str with
  | Some d => ret d
  | None => levanta Erro
  end.

Definition entregar_epi (ctx : Contexto) (form : FormEntrega) : M resposta :=
  tenta
    (funcionario_id <- int_ou (fe_funcionario_id form) 0 ;;
     epi_id <- int_ou (fe_epi_id form) 0 ;;
     quantidade <- int_ou (fe_quantidade form) 0 ;;
     let validade_str := fe_validade_entrega form in
     let senha := ou (fe_senha_validacao form) "" in
     let observacao := strip (ou (fe_observacao form) "") in
     f <- get funcionario funcionario_id ;;
     e <- get epi epi_id ;;
     match f, e with
     | Some f, Some e =>
         if bool_decide (ou (Funcionario.senha_validacao f) "" ≠ senha) then
           ret (Redireciona SenhaIncorreta)
         else if quantidade <=? 0 then
           ret (Redireciona InformeQuantidade)
         else if Epi.quantidade e <? quantidade then
           ret (Redireciona EstoqueInsuficiente)
         else
           validade_data <- validade_da_entrega validade_str ;;
           let nova_entrega :=
             EntregaEpi.Novo funcionario_id epi_id quantidade (utcnow ctx)
                             validade_data (current_user_nome ctx) "entregue"
                             (ou_None observacao) None None in
           (* diminui quantidade *)
           put_epi epi_id
             (Epi.com_quantidade e (Z.max (Epi.quantidade e - quantidade) 0)) ;;;
           add_entrega nova_entrega ;;;
           commit ctx ;;;
           registrar_historico ctx epi_id "Entrega" quantidade
                               (current_user_nome ctx) ;;;
           registrar_log ctx (current_user_nome ctx)
             ("Entregou " +:+ pretty quantidade +:+ "x " +:+ Epi.nome e
              +:+ " a " +:+ Funcionario.nome f) ;;;
           ret (Redireciona Entregue)
     | _, _ => ret (Redireciona FuncionarioOuEpiInvalido)
     end)
    (rollback ;;;
     ret (Redireciona ErroEntrega)).

(** ** [/devolver_epi/<entrega_id>] and [/descartar_epi/<entrega_id>] *)

(** [entrega.status in ("devolvido", "descartado")]. *)
Definition finalizada (e : EntregaEpi.t) : bool :=
  bool_decide (EntregaEpi.status e = "devolvido")
  || bool_decide (EntregaEpi.status e = "descartado").

Definition devolver_epi (ctx : Contexto) (entrega_id : Z) (quantidade : campo_int)
  : M resposta :=
  qtd <- int_ou quantidade 0 ;;
  entrega <- get_or_404 entrega_epi entrega_id ;;
  e <- get epi (EntregaEpi.epi_id entrega) ;;
  if finalizada entrega then ret (Json400 JaFinalizada)
  else if (qtd <=? 0) || (EntregaEpi.quantidade entrega <? qtd) then
    ret (Json400 QuantidadeInvalida)
  else
    (* devolução total *)
    let entrega1 :=
      if qtd =? EntregaEpi.quantidade entrega then
        EntregaEpi.com_data_devolucao
          (EntregaEpi.com_status entrega "devolvido") (Some (utcnow ctx))
      else entrega in
    put_entrega entrega_id (EntregaEpi.com_quantidade entrega1 qtd) ;;;
    match e with
    | Some e =>
        put_epi (EntregaEpi.epi_id entrega)
          (Epi.com_quantidade e (Epi.quantidade e + qtd))
    | None => levanta Erro   (* attribute access on [None] *)
    end ;;;
    commit ctx ;;;
    ret Json200.

Definition descartar_epi (ctx : Contexto) (entrega_id : Z) (quantidade : campo_int)
  : M resposta :=
  qtd <- int_ou quantidade 0 ;;
  entrega <- get_or_404 entrega_epi entrega_id ;;
  e <- get epi (EntregaEpi.epi_id entrega) ;;
  if finalizada entrega then ret (Json400 JaFinalizada)
  else if (qtd <=? 0) || (EntregaEpi.quantidade entrega <? qtd) then
    ret (Json400 QuantidadeInvalida)
  else
    (* descarte total *)
    let entrega1 :=
      if qtd =? EntregaEpi.quantidade entrega then
        EntregaEpi.com_data_descarte
          (EntregaEpi.com_status entrega "descartado") (Some (utcnow ctx))
      else entrega in
    put_entrega entrega_id (EntregaEpi.com_quantidade entrega1 qtd) ;;;
    (* epi.quantidade is not changed *)
    commit ctx ;;;
    ret Json200.

(** ** [/definir_senha_funcionario/<id>] and [/deletar_funcionario/<id>] *)

Definition definir_senha_funcionario (ctx : Contexto) (id : Z)
    (senha_validacao : option string) : M resposta :=
  func <- get_or_404 funcionario id ;;
  put_funcionario id
    (Funcionario.com_senha_validacao func (Some (ou senha_validacao ""))) ;;;
  commit ctx ;;;
  registrar_log ctx (current_user_nome ctx)
    ("Definiu senha de validação para " +:+ Funcionario.nome func) ;;;
  ret (Redireciona SenhaCadastrada).

(** [EntregaEpi.query.filter_by(funcionario_id=id).delete()] followed by
    [db.session.delete(func)]. *)
Definition delete_funcionario (id : Z) : M unit :=
  muda (λ db,
    Banco (epi db)
          (delete id (funcionario db))
          (filter (λ kv, EntregaEpi.funcionario_id kv.2 ≠ id) (entrega_epi db))
          (historico_epi db)
          (log db)).

Definition deletar_funcionario (ctx : Contexto) (id : Z) : M resposta :=
  func <- get_or_404 funcionario id ;;
  delete_funcionario id ;;;
  commit ctx ;;;
  registrar_log ctx (current_user_nome ctx)
    ("Excluiu funcionário: " +:+ Funcionario.nome func) ;;;
  ret (Redireciona FuncionarioRemovido).

(** ** The expired items of [dashboard] *)

(** The body of [for e in Epi.query.all(): try: ... except Exception: pass],
    with [vencidos] as the accumulator. *)
Fixpoint laco_vencidos (hoje : data) (todos : list (Z * Epi.t))
    (vencidos : list (Z * Epi.t)) : list (Z * Epi.t) :=
  match todos with
  | [] => vencidos
  | e :: resto =>
      laco_vencidos hoje resto
        match strptime fmt_dmY (Epi.validade_ca e.2) with
        | Some validade =>
            if data_lt validade hoje then vencidos ++ [e] else vencidos
        | None => vencidos
        end
  end.

(** [Epi.query.all()] gives every row once, in an order SQL leaves open. *)
Definition vencidos (hoje : data) (db : DB) : list (Z * Epi.t) :=
  laco_vencidos hoje (map_to_list (epi db)) [].

(** ** Sequences of requests *)

Inductive operacao :=
  | OpCadastrar (form : FormEpi)
  | OpEditar (id : Z) (form : FormEpi)
  | OpDeletar (id : Z)
  | OpEntregar (form : FormEntrega)
  | OpDevolver (entrega_id : Z) (quantidade : campo_int)
  | OpDescartar (entrega_id : Z) (quantidade : campo_int)
  | OpDefinirSenha (id : Z) (senha : option string)
  | OpDeletarFuncionario (id : Z).

Definition rota (ctx : Contexto) (op : operacao) : M resposta :=
  match op with
  | OpCadastrar form => epis ctx form
  | OpEditar id form => editar_epi ctx id form
  | OpDeletar id => deletar_epi ctx id
  | OpEntregar form => entregar_epi ctx form
  | OpDevolver id q => devolver_epi ctx id q
  | OpDescartar id q => descartar_epi ctx id q
  | OpDefinirSenha id s => definir_senha_funcionario ctx id s
  | OpDeletarFuncionario id => deletar_funcionario ctx id
  end.

(** The database after a sequence of requests, each with its own context. *)
Fixpoint executar (ops : list (Contexto * operacao)) (db : DB) : DB :=
  match ops with
  | [] => db
  | (ctx, op) :: ops' => executar ops' (servir (rota ctx op) db).2
  end.

(** Every item of the stock has a non-negative quantity. *)
Definition estoque_nao_negativo (db : DB) : Prop :=
  ∀ id e, epi db !! id = Some e → 0 ≤ Epi.quantidade e.

(** A context in which no commit fails. *)
Definition sem_falhas (usuario : string) (t : datahora) : Contexto :=
  MkContexto usuario "admin" t t (λ _, false).

(** ** Stored states a delivery goes through *)

(** The row a successful delivery inserts. *)
Definition nova_entrega (ctx : Contexto) (fid eid q : Z) (vd : option data)
    (obs : option string) : EntregaEpi.t :=
  EntregaEpi.Novo fid eid q (utcnow ctx) vd (current_user_nome ctx) "entregue"
                  (ou_None (strip (ou obs ""))) None None.

(** The stored database after the first commit of a delivery: the new row
    and the lowered stock. *)
Definition apos_entrega (ctx : Contexto) (db : DB) (fid eid q : Z) (e : Epi.t)
    (vd : option data) (obs : option string) : DB :=
  Banco (<[eid := Epi.com_quantidade e (Z.max (Epi.quantidade e - q) 0)]> (epi db))
        (funcionario db)
        (<[proximo_id (entrega_epi db) := nova_entrega ctx fid eid q vd obs]>
           (entrega_epi db))
        (historico_epi db)
        (log db).

(** The same after the commit of [registrar_historico]. *)
Definition apos_historico (ctx : Contexto) (db : DB) (eid q : Z) : DB :=
  Banco (epi db) (funcionario db) (entrega_epi db)
        (<[proximo_id (historico_epi db) :=
             HistoricoEpi.Novo eid (utcnow ctx) "Entrega" q (current_user_nome ctx)]>
           (historico_epi db))
        (log db).

Definition apos_log (ctx : Contexto) (db : DB) (acao : string) : DB :=
  Banco (epi db) (funcionario db) (entrega_epi db) (historico_epi db)
        (<[proximo_id (log db) := Log.Novo (current_user_nome ctx) acao (now ctx)]>
           (log db)).

(** ** Rows after a return and after a discard *)

(** The delivery row [devolver_epi] writes for an accepted quantity. *)
Definition devolvida (ctx : Contexto) (entrega : EntregaEpi.t) (qtd : Z)
  : EntregaEpi.t :=
  EntregaEpi.com_quantidade
    (if qtd =? EntregaEpi.quantidade entrega then
       EntregaEpi.com_data_devolucao
         (EntregaEpi.com_status entrega "devolvido") (Some (utcnow ctx))
     else entrega)
    qtd.

(** The delivery row [descartar_epi] writes for an accepted quantity. *)
Definition descartada (ctx : Contexto) (entrega : EntregaEpi.t) (qtd : Z)
  : EntregaEpi.t :=
  EntregaEpi.com_quantidade
    (if qtd =? EntregaEpi.quantidade entrega then
       EntregaEpi.com_data_descarte
         (EntregaEpi.com_status entrega "descartado") (Some (utcnow ctx))
     else entrega)
    qtd.

Definition apos_devolucao (ctx : Contexto) (db : DB) (id : Z)
    (entrega : EntregaEpi.t) (e : Epi.t) (qtd : Z) : DB :=
  Banco (<[EntregaEpi.epi_id entrega :=
             Epi.com_quantidade e (Epi.quantidade e + qtd)]> (epi db))
        (funcionario db)
        (<[id := devolvida ctx entrega qtd]> (entrega_epi db))
        (historico_epi db)
        (log db).

Definition apos_descarte (ctx : Contexto) (db : DB) (id : Z)
    (entrega : EntregaEpi.t) (qtd : Z) : DB :=
  Banco (epi db)
        (funcionario db)
        (<[id := descartada ctx entrega qtd]> (entrega_epi db))
        (historico_epi db)
        (log db).

(** ** Stored state after an employee is deleted *)

Definition apos_delete_funcionario (db : DB) (id : Z) : DB :=
  Banco (epi db)
        (delete id (funcionario db))
        (filter (λ kv, EntregaEpi.funcionario_id kv.2 ≠ id) (entrega_epi db))
        (historico_epi db)
        (log db).

(** An edit that does not type a negative quantity into the form. *)
Definition edicao_sem_negativo (op : operacao) : Prop :=
  match op with
  | OpEditar _ form =>
      match f_quantidade form with
      | Inteiro z => 0 ≤ z
      | _ => True
      end
  | _ => True
  end.

(** What a discard may change in a delivery row: the quantity, the status
    and the discard timestamp, nothing else. *)
Definition so_descarte (a b : EntregaEpi.t) : Prop :=
  EntregaEpi.funcionario_id b = EntregaEpi.funcionario_id a
  ∧ EntregaEpi.epi_id b = EntregaEpi.epi_id a
  ∧ EntregaEpi.data_entrega b = EntregaEpi.data_entrega a
  ∧ EntregaEpi.validade_entrega b = EntregaEpi.validade_entrega a
  ∧ EntregaEpi.entregue_por b = EntregaEpi.entregue_por a
  ∧ EntregaEpi.observacao b = EntregaEpi.observacao a
  ∧ EntregaEpi.data_devolucao b = EntregaEpi.data_devolucao a.

(** ** The expired items, as a filter *)

(** [validade < hoje] for a parsable [validade_ca], false otherwise. *)
Definition vencido (hoje : data) (e : Epi.t) : bool :=
  match strptime fmt_dmY (Epi.validade_ca e) with
  | Some validade => data_lt validade hoje
  | None => false
  end.

(** ** A small warehouse, for the scenarios *)

Definition ana : Funcionario.t :=
  Funcionario.Novo "Ana" "M-001" "Obras" (Some (Data 2020 2 1)) (Some "s3nha").

(** An employee as [cadastro_funcionarios] leaves her: no secret yet. *)
Definition bia : Funcionario.t :=
  Funcionario.Novo "Bia" "M-002" "Solda" (Some (Data 2021 7 15)) None.

Definition db_inicial : DB := Banco ∅ {[1 := ana; 2 := bia]} ∅ ∅ ∅.

Definition admin : Contexto := sem_falhas "admin" 1700000000.

Definition form_capacete (q : Z) : FormEpi :=
  MkFormEpi (Some "Helmet") (Some "H-01") (Some "12345") (Some "31/12/2030")
            (Inteiro q) None.

Definition form_entrega (fid eid q : Z) (senha : option string) : FormEntrega :=
  MkFormEntrega (Inteiro fid) (Inteiro eid) (Inteiro q) None senha None.

(** The context of a request whose second commit the database refuses. *)
Definition falha_no_segundo : Contexto :=
  MkContexto "admin" "admin" 1700000000 1700000000 (λ n, Nat.eqb n 1).

(** The warehouse after the helmet is registered with 20 units. *)
Definition db_capacete : DB := executar [(admin, OpCadastrar (form_capacete 20))] db_inicial.

(** ... and after 5 of them are delivered to Ana. *)
Definition db_entregue : DB :=
  executar [(admin, OpEntregar (form_entrega 1 1 5 (Some "s3nha")))] db_capacete.

(** ** Stored states, table by table *)

(** The changes a commit can carry, as functions on the stored database. *)
Definition com_epi (db : DB) (k : Z) (e : Epi.t) : DB :=
  Banco (<[k := e]> (epi db)) (funcionario db) (entrega_epi db)
        (historico_epi db) (log db).

Definition com_funcionario (db : DB) (k : Z) (f : Funcionario.t) : DB :=
  Banco (epi db) (<[k := f]> (funcionario db)) (entrega_epi db)
        (historico_epi db) (log db).

Definition com_historico (db : DB) (h : HistoricoEpi.t) : DB :=
  Banco (epi db) (funcionario db) (entrega_epi db)
        (<[proximo_id (historico_epi db) := h]> (historico_epi db)) (log db).

Definition com_log (db : DB) (l : Log.t) : DB :=
  Banco (epi db) (funcionario db) (entrega_epi db) (historico_epi db)
        (<[proximo_id (log db) := l]> (log db)).

(** The item deleted, with the deliveries and the history rows that point
    at it. *)
Definition sem_epi (db : DB) (id : Z) : DB :=
  Banco (delete id (epi db))
        (funcionario db)
        (filter (λ kv, EntregaEpi.epi_id kv.2 ≠ id) (entrega_epi db))
        (filter (λ kv, HistoricoEpi.epi_id kv.2 ≠ id) (historico_epi db))
        (log db).

(** The row [/epis] builds from the form. *)
Definition epi_do_form (form : FormEpi) (q : Z) : Epi.t :=
  Epi.Novo (strip (ou (f_nome form) ""))
           (strip (ou (f_numero_ca form) ""))
           (strip (ou (f_validade_ca form) ""))
           q
           (strip (ou (f_codigo_produto form) ""))
           (strip (ou (f_observacao form) "")).

(** The row [/editar_epi] leaves in place of [e]. *)
Definition epi_editado (e : Epi.t) (form : FormEpi) (q : Z) : Epi.t :=
  Epi.Novo (strip (ou (f_nome form) (Epi.nome e)))
           (strip (ou (f_numero_ca form) (Epi.numero_ca e)))
           (strip (ou (f_validade_ca form) (Epi.validade_ca e)))
           q
           (strip (ou (f_codigo_produto form) (Epi.codigo_produto e)))
           (ou (f_observacao form) (Epi.observacao e)).

(** The history and log rows of a request. *)
Definition linha_historico (ctx : Contexto) (epi_id : Z) (acao : string) (q : Z)
  : HistoricoEpi.t :=
  HistoricoEpi.Novo epi_id (utcnow ctx) acao q (current_user_nome ctx).

Definition linha_log (ctx : Contexto) (acao : string) : Log.t :=
  Log.Novo (current_user_nome ctx) acao (now ctx).

(** A form that leaves every field empty. *)
Definition form_vazio : FormEpi := MkFormEpi None None None None Vazio None.

(** ** Well-formedness of the stored rows *)

(** A text [strip] leaves alone. *)
Definition aparado (s : string) : Prop := strip s = s.

(** The texts of every item are stripped (the note apart, which
    [/editar_epi] stores as typed). *)
Definition textos_aparados (db : DB) : Prop :=
  ∀ id e, epi db !! id = Some e →
    aparado (Epi.nome e) ∧ aparado (Epi.numero_ca e)
    ∧ aparado (Epi.validade_ca e) ∧ aparado (Epi.codigo_produto e).

(** Every delivery row holds a positive quantity. *)
Definition quantidades_positivas (db : DB) : Prop :=
  ∀ k d, entrega_epi db !! k = Some d → 0 < EntregaEpi.quantidade d.

(** Status and timestamps of a delivery row agree. *)
Definition situacao_coerente_linha (d : EntregaEpi.t) : Prop :=
  (EntregaEpi.status d = "entregue"
   ∧ EntregaEpi.data_devolucao d = None ∧ EntregaEpi.data_descarte d = None)
  ∨ (EntregaEpi.status d = "devolvido"
     ∧ is_Some (EntregaEpi.data_devolucao d) ∧ EntregaEpi.data_descarte d = None)
  ∨ (EntregaEpi.status d = "descartado"
     ∧ EntregaEpi.data_devolucao d = None ∧ is_Some (EntregaEpi.data_descarte d)).

Definition situacao_coerente (db : DB) : Prop :=
  ∀ k d, entrega_epi db !! k = Some d → situacao_coerente_linha d.

(** Every delivery row points at a stored employee and a stored item. *)
Definition referencias_validas (db : DB) : Prop :=
  ∀ k d, entrega_epi db !! k = Some d →
    is_Some (funcionario db !! EntregaEpi.funcionario_id d)
    ∧ is_Some (epi db !! EntregaEpi.epi_id d).

(** Two item rows with the same stripped-on-write texts. *)
Definition mesmos_textos (e e' : Epi.t) : Prop :=
  Epi.nome e' = Epi.nome e ∧ Epi.numero_ca e' = Epi.numero_ca e
  ∧ Epi.validade_ca e' = Epi.validade_ca e
  ∧ Epi.codigo_produto e' = Epi.codigo_produto e.

(** Where a row of the item table can come from after a request: the row
    of the same key before it, texts intact, or a registration, or an
    edit. *)
Definition origem_linha (db : DB) (id : Z) (e' : Epi.t) : Prop :=
  (∃ e, epi db !! id = Some e ∧ mesmos_textos e e')
  ∨ (∃ form q, e' = epi_do_form form q)
  ∨ (∃ e0 form q, e' = epi_editado e0 form q).

(** ** The ledger as a transition system *)

(** The moves of the three ledger tables (items, employees, deliveries).
    Each constructor is one commit of one route. *)
Inductive transicao (db db' : DB) : Prop :=
  | t_nada :
      epi db' = epi db →
      funcionario db' = funcionario db →
      entrega_epi db' = entrega_epi db →
      transicao db db'
  | t_cadastro (k : Z) (e : Epi.t) :
      epi db !! k = None →
      0 ≤ Epi.quantidade e →
      epi db' = <[k := e]> (epi db) →
      funcionario db' = funcionario db →
      entrega_epi db' = entrega_epi db →
      transicao db db'
  | t_edicao (id : Z) (e0 e : Epi.t) :
      epi db !! id = Some e0 →
      epi db' = <[id := e]> (epi db) →
      funcionario db' = funcionario db →
      entrega_epi db' = entrega_epi db →
      transicao db db'
  | t_exclusao (id : Z) :
      is_Some (epi db !! id) →
      epi db' = delete id (epi db) →
      funcionario db' = funcionario db →
      entrega_epi db' = filter (λ kv, EntregaEpi.epi_id kv.2 ≠ id) (entrega_epi db) →
      transicao db db'
  | t_entrega (k q : Z) (d : EntregaEpi.t) (e : Epi.t) :
      entrega_epi db !! k = None →
      is_Some (funcionario db !! EntregaEpi.funcionario_id d) →
      epi db !! EntregaEpi.epi_id d = Some e →
      0 < q → q ≤ Epi.quantidade e →
      EntregaEpi.quantidade d = q →
      EntregaEpi.status d = "entregue" →
      EntregaEpi.data_devolucao d = None →
      EntregaEpi.data_descarte d = None →
      epi db' = <[EntregaEpi.epi_id d :=
                    Epi.com_quantidade e (Epi.quantidade e - q)]> (epi db) →
      funcionario db' = funcionario db →
      entrega_epi db' = <[k := d]> (entrega_epi db) →
      transicao db db'
  | t_devolucao (ctx : Contexto) (id r : Z) (d : EntregaEpi.t) (e : Epi.t) :
      entrega_epi db !! id = Some d →
      finalizada d = false →
      epi db !! EntregaEpi.epi_id d = Some e →
      0 < r → r ≤ EntregaEpi.quantidade d →
      epi db' = <[EntregaEpi.epi_id d :=
                    Epi.com_quantidade e (Epi.quantidade e + r)]> (epi db) →
      funcionario db' = funcionario db →
      entrega_epi db' = <[id := devolvida ctx d r]> (entrega_epi db) →
      transicao db db'
  | t_descarte (ctx : Contexto) (id r : Z) (d : EntregaEpi.t) :
      entrega_epi db !! id = Some d →
      finalizada d = false →
      0 < r → r ≤ EntregaEpi.quantidade d →
      epi db' = epi db →
      funcionario db' = funcionario db →
      entrega_epi db' = <[id := descartada ctx d r]> (entrega_epi db) →
      transicao db db'
  | t_senha (id : Z) (f : Funcionario.t) (s : string) :
      funcionario db !! id = Some f →
      epi db' = epi db →
      funcionario db'
      = <[id := Funcionario.com_senha_validacao f (Some s)]> (funcionario db) →
      entrega_epi db' = entrega_epi db →
      transicao db db'
  | t_demissao (id : Z) :
      is_Some (funcionario db !! id) →
      epi db' = epi db →
      funcionario db' = delete id (funcionario db) →
      entrega_epi db'
      = filter (λ kv, EntregaEpi.funcionario_id kv.2 ≠ id) (entrega_epi db) →
      transicao db db'.

(** ** [/cadastro_funcionarios] (POST) *)

(** A request whose answers are of any type: the outcome of the view
    function and what is stored afterwards. *)
Definition correr {A} (m : M A) (db : DB) : saida A * DB :=
  let (s, w) := m (MkMundo db db 0) in (s, gravado w).

Record FormFuncionario := MkFormFuncionario {
  ff_nome : option string;
  ff_matricula : option string;
  ff_setor : option string;
  ff_data_admissao : option string
}.

Inductive resposta_funcionario :=
  | AcessoRestrito           (* 'Acesso restrito.' *)
  | PreenchaObrigatorios     (* 'Preencha todos os campos obrigatórios!' *)
  | FuncionarioCadastrado.   (* 'Funcionário cadastrado com sucesso!' *)

(** [current_user.role not in ['admin', 'supervisor']]. *)
Definition sem_acesso (ctx : Contexto) : bool :=
  negb (bool_decide (current_user_role ctx = "admin")
        || bool_decide (current_user_role ctx = "supervisor")).

(** Some stored employee already holds the registration number. *)
Definition matricula_em_uso (db : DB) (m : string) : bool :=
  negb (bool_decide (map_Forall (λ _ f, Funcionario.matricula f ≠ m) (funcionario db))).

Definition add_funcionario (f : Funcionario.t) : M Z :=
  id <- le (λ db, proximo_id (funcionario db)) ;;
  put_funcionario id f ;;; ret id.

(** The commit of a new employee: the database enforces
    [matricula ... unique=True] and raises when the number is taken. *)
Definition commit_matricula_unica (ctx : Contexto) (em_uso : bool) : M unit :=
  if em_uso then levanta Erro else commit ctx.

Definition cadastro_funcionarios (ctx : Contexto) (form : FormFuncionario)
  : M resposta_funcionario :=
  if sem_acesso ctx then ret AcessoRestrito
  else
    let nome := strip (ou (ff_nome form) "") in
    let matricula := strip (ou (ff_matricula form) "") in
    let setor := strip (ou (ff_setor form) "") in
    let data_admissao := ou (ff_data_admissao form) "" in
    if vazia nome || vazia matricula || vazia setor || vazia data_admissao then
      ret PreenchaObrigatorios
    else
      match strptime fmt_Ymd data_admissao with
      | None => levanta Erro
      | Some d =>
          em_uso <- le (λ db, matricula_em_uso db matricula) ;;
          add_funcionario (Funcionario.Novo nome matricula setor (Some d) None) ;;;
          commit_matricula_unica ctx em_uso ;;;
          registrar_log ctx (current_user_nome ctx)
            ("Cadastrou funcionário: " +:+ nome) ;;;
          ret FuncionarioCadastrado
      end.

(** The row a registration stores. *)
Definition funcionario_do_form (form : FormFuncionario) (d : data) : Funcionario.t :=
  Funcionario.Novo (strip (ou (ff_nome form) "")) (strip (ou (ff_matricula form) ""))
                   (strip (ou (ff_setor form) "")) (Some d) None.

Definition form_caio : FormFuncionario :=
  MkFormFuncionario (Some "Caio") (Some " M-003 ") (Some "Pintura") (Some "2024-03-01").

(** ** [dashboard]: date filter and counters *)

(** A [datetime] by its fields. *)
Record datetime := Datetime {
  dt_data : data;
  dt_hora : Z;
  dt_minuto : Z;
  dt_segundo : Z;
  dt_micro : Z
}.

(** [date.toordinal()]: day 1 is 0001-01-01. *)
Definition dias_antes_do_ano (y : Z) : Z :=
  (y - 1) * 365 + (y - 1) / 4 - (y - 1) / 100 + (y - 1) / 400.

Definition dias_antes_do_mes (y m : Z) : Z :=
  nth (Z.to_nat (m - 1)) [0; 31; 59; 90; 120; 151; 181; 212; 243; 273; 304; 334] 0
  + (if (2 <? m) && bissexto y then 1 else 0).

Definition ordinal (d : data) : Z :=
  dias_antes_do_ano (ano d) + dias_antes_do_mes (ano d) (mes d) + dia d.

(** The point of the time line of a [datetime], in microseconds; the order
    of these numbers is the order of naive [datetime] values. *)
Definition instante (t : datetime) : datahora :=
  (((ordinal (dt_data t) * 24 + dt_hora t) * 60 + dt_minuto t) * 60
   + dt_segundo t) * 1000000 + dt_micro t.

(** [datetime.strptime(s, fmt)]: the date read, at 00:00:00. *)
Definition strptime_datetime (fmt : list diretiva) (s : string) : option datetime :=
  (λ d, Datetime d 0 0 0 0) <$> strptime fmt s.

(** The local [parse_data] of [dashboard]. *)
Definition parse_data (s : string) : option datetime :=
  if vazia s then None
  else match strptime_datetime fmt_Ymd s with
       | Some t => Some t
       | None =>
           match strptime_datetime fmt_dmY s with
           | Some t => Some t
           | None => None
           end
       end.

(** [dt.replace(hour=23, minute=59, second=59)]. *)
Definition fim_do_dia (t : datetime) : datetime :=
  Datetime (dt_data t) 23 59 59 (dt_micro t).

(** The pair ([dt_inicio], [dt_fim]) when [filtro_ativo], from the two
    query arguments as [request.args.get(k, '')] reads them. *)
Definition filtro_datas (data_inicio data_fim : option string)
  : option (datetime * datetime) :=
  let data_inicio_str := strip (default "" data_inicio) in
  let data_fim_str := strip (default "" data_fim) in
  if vazia data_inicio_str || vazia data_fim_str then None
  else match parse_data data_inicio_str, parse_data data_fim_str with
       | Some dt_inicio, Some dt_fim => Some (dt_inicio, fim_do_dia dt_fim)
       | _, _ => None
       end.

(** [EntregaEpi.data_entrega >= dt_inicio, EntregaEpi.data_entrega <= dt_fim]
    when the filter is on. *)
Definition no_periodo (f : option (datetime * datetime)) (d : EntregaEpi.t) : bool :=
  match f with
  | Some (dt_inicio, dt_fim) =>
      (instante dt_inicio <=? EntregaEpi.data_entrega d)
      && (EntregaEpi.data_entrega d <=? instante dt_fim)
  | None => true
  end.

(** [base_entregas]: the deliveries in status 'entregue', inside the period
    when the filter is on. *)
Definition base_entregas (f : option (datetime * datetime)) (db : DB)
  : gmap Z EntregaEpi.t :=
  filter (λ kv, Is_true (bool_decide (EntregaEpi.status kv.2 = "entregue")
                         && no_periodo f kv.2))
         (entrega_epi db).

(** [base_entregas.count()] and
    [base_entregas.filter(EntregaEpi.quantidade > 0).count()]. *)
Definition total_entregas (f : option (datetime * datetime)) (db : DB) : nat :=
  size (base_entregas f db).

Definition pendencias (f : option (datetime * datetime)) (db : DB) : nat :=
  size (filter (λ kv, 0 < EntregaEpi.quantidade kv.2) (base_entregas f db)).

(** ** [_sqlite_path_from_uri] *)

(** [s.replace(old, new)] for a non-empty [old]: the occurrences of [old]
    are found from the left, without overlap; [pular] counts the
    characters of a found occurrence still to be skipped. *)
Fixpoint substitui (old new : string) (pular : nat) (s : string) : string :=
  match s with
  | EmptyString => EmptyString
  | String c r =>
      match pular with
      | S n => substitui old new n r
      | O =>
          if String.prefix old s
          then new +:+ substitui old new (String.length old - 1) r
          else String c (substitui old new 0 r)
      end
  end.

Definition replace (s old new : string) : string := substitui old new 0 s.

(** [old in s]. *)
Fixpoint contem (old s : string) : bool :=
  match s with
  | EmptyString => String.prefix old EmptyString
  | String _ r => String.prefix old s || contem old r
  end.

(** The function, with the configured URI as its argument. *)
Definition _sqlite_path_from_uri (uri : string) : string :=
  if String.prefix "sqlite:///" uri then replace uri "sqlite:///" ""
  else if String.prefix "sqlite:////" uri then replace uri "sqlite:////" "/"
  else "".

(** ** Users: [/usuarios] (POST), [/editar_usuario], [/deletar_usuario],
    [criar_admin_padrao] *)

Module User.
Record t := Novo {
  nome : string;
  login : string;
  senha : string;
  role : string            (* admin / supervisor / user *)
}.
End User.

(** The database with the user table beside the tables of the ledger. *)
Record BD := MkBD {
  user : gmap Z User.t;
  dados : DB
}.

Record MundoU := MkMundoU {
  gravado_u : BD;
  sessao_u : BD;
  commits_u : nat
}.

(** The session monad again, over the larger database. *)
Definition MU (A : Type) : Type := MundoU → saida A * MundoU.

Definition ret_u {A} (a : A) : MU A := λ w, (Retorna a, w).

Definition bind_u {A B} (m : MU A) (k : A → MU B) : MU B :=
  λ w, match m w with
       | (Retorna a, w') => k a w'
       | (Levanta e, w') => (Levanta e, w')
       end.

Notation "x <~ m ;; k" := (bind_u m (λ x, k))
  (at level 100, m at next level, right associativity).
Notation "m ;;~ k" := (bind_u m (λ _, k))
  (at level 100, right associativity).

Definition levanta_u {A} (e : excecao) : MU A := λ w, (Levanta e, w).

Definition le_u {A} (f : BD → A) : MU A := λ w, (Retorna (f (sessao_u w)), w).

Definition muda_u (f : BD → BD) : MU unit :=
  λ w, (Retorna tt, MkMundoU (gravado_u w) (f (sessao_u w)) (commits_u w)).

Definition commit_u (ctx : Contexto) : MU unit :=
  λ w, if falha ctx (commits_u w)
       then (Levanta Erro, MkMundoU (gravado_u w) (sessao_u w) (S (commits_u w)))
       else (Retorna tt, MkMundoU (sessao_u w) (sessao_u w) (S (commits_u w))).

Definition correr_u {A} (m : MU A) (bd : BD) : saida A * BD :=
  let (s, w) := m (MkMundoU bd bd 0) in (s, gravado_u w).

Definition registrar_log_u (ctx : Contexto) (usuario acao : string) : MU unit :=
  muda_u (λ bd, MkBD (user bd) (com_log (dados bd) (Log.Novo usuario acao (now ctx)))) ;;~
  commit_u ctx.

Definition get_or_404_u (id : Z) : MU User.t :=
  o <~ le_u (λ bd, user bd !! id) ;;
  match o with Some u => ret_u u | None => levanta_u NotFound end.

Definition put_user (id : Z) (u : User.t) : MU unit :=
  muda_u (λ bd, MkBD (<[id := u]> (user bd)) (dados bd)).

Definition add_user (u : User.t) : MU unit :=
  muda_u (λ bd, MkBD (<[proximo_id (user bd) := u]> (user bd)) (dados bd)).

(** [User.query.filter_by(login=l).first()] finds a row. *)
Definition login_em_uso (t : gmap Z User.t) (l : string) : bool :=
  negb (bool_decide (map_Forall (λ _ u, User.login u ≠ l) t)).

(** A row other than [id] holds the login: what the unique index on
    [login] refuses when row [id] is written with it. *)
Definition login_de_outro (t : gmap Z User.t) (id : Z) (l : string) : bool :=
  login_em_uso (delete id t) l.

Definition commit_login_unico (ctx : Contexto) (em_uso : bool) : MU unit :=
  if em_uso then levanta_u Erro else commit_u ctx.

Record FormUsuario := MkFormUsuario {
  fu_nome : option string;
  fu_login : option string;
  fu_senha : option string;
  fu_role : option string
}.

Inductive resposta_usuario :=
  | RestritoAdministradores  (* 'Acesso restrito a administradores.' *)
  | Restrito                 (* 'Acesso restrito.' *)
  | PreenchaTodos            (* 'Preencha todos os campos!' *)
  | LoginJaExiste            (* 'Já existe um usuário com este login.' *)
  | UsuarioCadastrado        (* 'Usuário cadastrado com sucesso!' *)
  | UsuarioAtualizado        (* 'Usuário atualizado com sucesso!' *)
  | AdminPadrao              (* 'Não é possível excluir o usuário administrador padrão.' *)
  | UsuarioExcluido.         (* 'Usuário excluído com sucesso!' *)

(** [current_user.role != 'admin']. *)
Definition nao_admin (ctx : Contexto) : bool :=
  negb (bool_decide (current_user_role ctx = "admin")).

Definition usuarios (ctx : Contexto) (form : FormUsuario) : MU resposta_usuario :=
  if nao_admin ctx then ret_u RestritoAdministradores
  else
    let nome := strip (ou (fu_nome form) "") in
    let login_usuario := strip (ou (fu_login form) "") in
    let senha := ou (fu_senha form) "" in
    let role := ou (fu_role form) "user" in
    if vazia nome || vazia login_usuario || vazia senha then ret_u PreenchaTodos
    else
      existe <~ le_u (λ bd, login_em_uso (user bd) login_usuario) ;;
      if existe then ret_u LoginJaExiste
      else
        add_user (User.Novo nome login_usuario senha role) ;;~
        commit_u ctx ;;~
        registrar_log_u ctx (current_user_nome ctx) ("Cadastrou usuário: " +:+ nome) ;;~
        ret_u UsuarioCadastrado.

Definition editar_usuario (ctx : Contexto) (id : Z) (form : FormUsuario)
  : MU resposta_usuario :=
  if nao_admin ctx then ret_u Restrito
  else
    usuario <~ get_or_404_u id ;;
    let login := strip (ou (fu_login form) (User.login usuario)) in
    let role := ou (fu_role form) (User.role usuario) in
    em_uso <~ le_u (λ bd, login_de_outro (user bd) id login) ;;
    put_user id (User.Novo (User.nome usuario) login (User.senha usuario) role) ;;~
    commit_login_unico ctx em_uso ;;~
    registrar_log_u ctx (current_user_nome ctx)
      ("Editou usuário: " +:+ User.nome usuario) ;;~
    ret_u UsuarioAtualizado.

Definition deletar_usuario (ctx : Contexto) (id : Z) : MU resposta_usuario :=
  if nao_admin ctx then ret_u Restrito
  else
    usuario <~ get_or_404_u id ;;
    if bool_decide (User.login usuario = "admin") then ret_u AdminPadrao
    else
      muda_u (λ bd, MkBD (delete id (user bd)) (dados bd)) ;;~
      commit_u ctx ;;~
      registrar_log_u ctx (current_user_nome ctx)
        ("Excluiu usuário: " +:+ User.nome usuario) ;;~
      ret_u UsuarioExcluido.

Definition criar_admin_padrao (ctx : Contexto) : MU unit :=
  n <~ le_u (λ bd, size (user bd)) ;;
  if bool_decide (n = 0%nat) then
    add_user (User.Novo "Administrador" "admin" "1234" "admin") ;;~
    commit_u ctx
  else ret_u tt.

(** No two users share a login. *)
Definition logins_unicos (t : gmap Z User.t) : Prop :=
  ∀ i j a b, t !! i = Some a → t !! j = Some b →
             User.login a = User.login b → i = j.

(** The requests on the user table, each with the stored database it
    leaves. *)
Inductive operacao_usuario :=
  | OpUsuarios (form : FormUsuario)
  | OpEditarUsuario (id : Z) (form : FormUsuario)
  | OpDeletarUsuario (id : Z)
  | OpCriarAdmin.

Definition rota_usuario (ctx : Contexto) (op : operacao_usuario) (bd : BD) : BD :=
  match op with
  | OpUsuarios form => (correr_u (usuarios ctx form) bd).2
  | OpEditarUsuario id form => (correr_u (editar_usuario ctx id form) bd).2
  | OpDeletarUsuario id => (correr_u (deletar_usuario ctx id) bd).2
  | OpCriarAdmin => (correr_u (criar_admin_padrao ctx) bd).2
  end.

Definition bd_admin : BD :=
  MkBD {[1 := User.Novo "Administrador" "admin" "1234" "admin";
         2 := User.Novo "Rui" "rui" "abc" "user"]} db_inicial.

(** * Properties *)

(** ** [strptime] on a few texts *)

Example strptime_ok : strptime fmt_dmY "05/03/2024" = Some (Data 2024 3 5).
Proof. reflexivity. Qed.

Example strptime_sem_zeros : strptime fmt_dmY "5/3/2024" = Some (Data 2024 3 5).
Proof. reflexivity. Qed.

Example strptime_30_fev : strptime fmt_dmY "30/02/2024" = None.
Proof. reflexivity. Qed.

Example strptime_29_fev : strptime fmt_dmY "29/02/2024" = Some (Data 2024 2 29).
Proof. reflexivity. Qed.

Example strptime_29_fev_1900 : strptime fmt_dmY "29/02/1900" = None.
Proof. reflexivity. Qed.

Example strptime_mes_13 : strptime fmt_dmY "01/13/2024" = None.
Proof. reflexivity. Qed.

Example strptime_ano_zero : strptime fmt_dmY "01/01/0000" = None.
Proof. reflexivity. Qed.

Example strptime_iso_em_br : strptime fmt_dmY "2024-03-05" = None.
Proof. reflexivity. Qed.

Example strptime_resto : strptime fmt_dmY "05/03/20245" = None.
Proof. reflexivity. Qed.

Example strptime_iso : strptime fmt_Ymd "2024-03-05" = Some (Data 2024 3 5).
Proof. reflexivity. Qed.

(** Decimal digits of other scripts are digits to [\d] and to [int]. *)
Example strptime_largura_total :
  strptime fmt_dmY "01/01/２０２０" = Some (Data 2020 1 1).
Proof. reflexivity. Qed.

Example strptime_dia_arabe : strptime fmt_dmY "1٣/02/2020" = Some (Data 2020 2 13).
Proof. reflexivity. Qed.

(** The classes [[0-1]], [[1-9]] hold ASCII digits only. *)
Example strptime_classe_ascii : strptime fmt_dmY "3１/01/2020" = None.
Proof. reflexivity. Qed.

Example strptime_iso_largura_total :
  strptime fmt_Ymd "２０２４-03-05" = Some (Data 2024 3 5).
Proof. reflexivity. Qed.

(** A superscript two is a digit but no decimal digit. *)
Example strptime_expoente : strptime fmt_dmY "01/01/202²" = None.
Proof. reflexivity. Qed.

Example strip_ok : strip "  Luva nitrílica 	" = "Luva nitrílica".
Proof. reflexivity. Qed.

(** U+00A0, U+2003 and U+3000 are white space; U+200B is not. *)
Example strip_unicode :
  strip (String "194" (String "160" "")
         +:+ String "226" (String "128" (String "131" ""))
         +:+ "Capacete　") = "Capacete".
Proof. reflexivity. Qed.

Example strip_so_espacos : strip (String "194" (String "160" "")) = "".
Proof. reflexivity. Qed.

Example strip_largura_zero :
  strip (String "226" (String "128" (String "139" "")))
  = String "226" (String "128" (String "139" "")).
Proof. reflexivity. Qed.

(** ** Keys *)

Lemma proximo_id_acima {A} (m : gmap Z A) k :
  is_Some (m !! k) → k < proximo_id m.
Proof.
  unfold proximo_id.
  revert k.
  apply (map_fold_weak_ind
           (λ r (m : gmap Z A), ∀ k, is_Some (m !! k) → k < 1 + r)).
  - intros k [x Hx]. by rewrite lookup_empty in Hx.
  - intros i x m' r Hi IH k Hk.
    destruct (decide (i = k)) as [->|Hne]; [lia|].
    rewrite lookup_insert_ne in Hk by done.
    specialize (IH k Hk). lia.
Qed.

Lemma proximo_id_livre {A} (m : gmap Z A) : m !! proximo_id m = None.
Proof.
  destruct (m !! proximo_id m) as [x|] eqn:H; [|done].
  assert (proximo_id m < proximo_id m) by (apply proximo_id_acima; eauto).
  lia.
Qed.

(** ** [/entregar_epi] *)

Ltac desmonta :=
  unfold servir, registrar_historico, registrar_log, validade_da_entrega,
    add_historico, add_log, add_entrega, add_epi, put_epi, put_entrega,
    put_funcionario, get_or_404, get, int_ou, tenta, le, muda, commit,
    rollback, levanta, bind, ret; simpl.

(** What a request does once every check has passed, for each way the three
    commits can go. *)
Lemma entregar_epi_passos ctx db form fid eid q f e vd :
  valor_ou (fe_funcionario_id form) 0 = Some fid →
  valor_ou (fe_epi_id form) 0 = Some eid →
  valor_ou (fe_quantidade form) 0 = Some q →
  funcionario db !! fid = Some f →
  epi db !! eid = Some e →
  ou (Funcionario.senha_validacao f) "" = ou (fe_senha_validacao form) "" →
  0 < q → q ≤ Epi.quantidade e →
  validade_data (fe_validade_entrega form) = Some vd →
  servir (entregar_epi ctx form) db
  = if falha ctx 0%nat then (Redireciona ErroEntrega, db)
    else
      let db1 := apos_entrega ctx db fid eid q e vd (fe_observacao form) in
      if falha ctx 1%nat then (Redireciona ErroEntrega, db1)
      else
        let db2 := apos_historico ctx db1 eid q in
        if falha ctx 2%nat then (Redireciona ErroEntrega, db2)
        else (Redireciona Entregue,
              apos_log ctx db2
                ("Entregou " +:+ pretty q +:+ "x " +:+ Epi.nome e
                 +:+ " a " +:+ Funcionario.nome f)).
Proof.
  intros Hfid Hid Hq Hf He Hs Hq0 Hqn Hv.
  unfold entregar_epi. desmonta.
  rewrite Hfid, Hid, Hq. simpl. rewrite Hf, He. simpl.
  rewrite bool_decide_eq_false_2 by (intros H; apply H; exact Hs).
  destruct (Z.leb_spec q 0); [lia|].
  destruct (Z.ltb_spec (Epi.quantidade e) q); [lia|].
  rewrite Hv. simpl.
  destruct (falha ctx 0%nat); [destruct db; reflexivity|]. simpl.
  destruct (falha ctx 1%nat); [reflexivity|]. simpl.
  destruct (falha ctx 2%nat); reflexivity.
Qed.

(** A request that does not reach the first commit, or whose first commit
    fails, leaves the stored database as it was. *)
Lemma entregar_epi_casos ctx db form :
  (servir (entregar_epi ctx form) db).2 = db
  ∨ ∃ fid eid q f e vd,
      valor_ou (fe_funcionario_id form) 0 = Some fid
      ∧ valor_ou (fe_epi_id form) 0 = Some eid
      ∧ valor_ou (fe_quantidade form) 0 = Some q
      ∧ funcionario db !! fid = Some f
      ∧ epi db !! eid = Some e
      ∧ ou (Funcionario.senha_validacao f) "" = ou (fe_senha_validacao form) ""
      ∧ 0 < q ∧ q ≤ Epi.quantidade e
      ∧ validade_data (fe_validade_entrega form) = Some vd
      ∧ falha ctx 0%nat = false.
Proof.
  unfold entregar_epi. desmonta.
  destruct (valor_ou (fe_funcionario_id form) 0) as [fid|]; simpl;
    [|left; by destruct db].
  destruct (valor_ou (fe_epi_id form) 0) as [eid|]; simpl;
    [|left; by destruct db].
  destruct (valor_ou (fe_quantidade form) 0) as [q|]; simpl;
    [|left; by destruct db].
  destruct (funcionario db !! fid) as [f|] eqn:Hf; simpl;
    [|left; by destruct (epi db !! eid)].
  destruct (epi db !! eid) as [e|] eqn:He; simpl; [|by left].
  case_bool_decide as Hs; simpl; [by left|].
  destruct (Z.leb_spec q 0); [by left|].
  destruct (Z.ltb_spec (Epi.quantidade e) q); [by left|].
  destruct (validade_data (fe_validade_entrega form)) as [vd|] eqn:Hv; simpl;
    [|left; by destruct db].
  destruct (falha ctx 0%nat) eqn:Hc0; simpl; [left; by destruct db|].
  right. exists fid, eid, q, f, e, vd. repeat split; try done.
Qed.

(** With the item present and less stock than requested the stored database
    is left as it was, whatever else the form holds and whichever commits
    would fail. *)
Lemma entregar_epi_sem_estoque ctx db form eid q e :
  valor_ou (fe_epi_id form) 0 = Some eid →
  valor_ou (fe_quantidade form) 0 = Some q →
  epi db !! eid = Some e →
  Epi.quantidade e < q →
  (servir (entregar_epi ctx form) db).2 = db
  ∧ (servir (entregar_epi ctx form) db).1 ≠ Redireciona Entregue.
Proof.
  intros Hid Hq He Hlt.
  unfold entregar_epi. desmonta. rewrite Hid, Hq.
  destruct (valor_ou (fe_funcionario_id form) 0) as [fid|]; simpl;
    [|split; [by destruct db | done]].
  rewrite He. destruct (funcionario db !! fid) as [f|]; simpl; [|done].
  case_bool_decide; [done|].
  destruct (Z.leb_spec q 0); [done|].
  destruct (Z.ltb_spec (Epi.quantidade e) q); [done|lia].
Qed.

Lemma entregar_epi_estoque_insuficiente ctx db form fid eid q f e :
  valor_ou (fe_funcionario_id form) 0 = Some fid →
  valor_ou (fe_epi_id form) 0 = Some eid →
  valor_ou (fe_quantidade form) 0 = Some q →
  funcionario db !! fid = Some f →
  epi db !! eid = Some e →
  ou (Funcionario.senha_validacao f) "" = ou (fe_senha_validacao form) "" →
  0 < q →
  Epi.quantidade e < q →
  servir (entregar_epi ctx form) db = (Redireciona EstoqueInsuficiente, db).
Proof.
  intros Hfid Hid Hq Hf He Hs Hq0 Hlt.
  unfold entregar_epi. desmonta. rewrite Hfid, Hid, Hq. simpl.
  rewrite Hf, He. simpl.
  rewrite bool_decide_eq_false_2 by (intros H; apply H; exact Hs).
  destruct (Z.leb_spec q 0); [lia|].
  destruct (Z.ltb_spec (Epi.quantidade e) q); [done|lia].
Qed.

(** The answer is the wrong-secret message exactly when the stored secret,
    with [None] read as the empty string, differs from the supplied one. *)
Lemma entregar_epi_senha ctx db form fid eid q f e :
  valor_ou (fe_funcionario_id form) 0 = Some fid →
  valor_ou (fe_epi_id form) 0 = Some eid →
  valor_ou (fe_quantidade form) 0 = Some q →
  funcionario db !! fid = Some f →
  epi db !! eid = Some e →
  (servir (entregar_epi ctx form) db).1 = Redireciona SenhaIncorreta
  ↔ ou (Funcionario.senha_validacao f) "" ≠ ou (fe_senha_validacao form) "".
Proof.
  intros Hfid Hid Hq Hf He.
  unfold entregar_epi. desmonta.
  rewrite Hfid, Hid, Hq. simpl. rewrite Hf, He. simpl.
  case_bool_decide as Hs; simpl; [done|].
  split; [|done]. intros Hr. exfalso.
  destruct (q <=? 0); [done|].
  destruct (Epi.quantidade e <? q); [done|].
  destruct (validade_data (fe_validade_entrega form)); simpl in Hr; [|done].
  destruct (falha ctx 0%nat); simpl in Hr; [done|].
  destruct (falha ctx 1%nat); simpl in Hr; [done|].
  destruct (falha ctx 2%nat); simpl in Hr; done.
Qed.

(** What a delivery request can leave stored, over every form and every
    way the commits can fail: either none of the Delivery row, the stock
    decrement and the history row, or the row and the decrement together,
    with or without the history row. *)
Lemma entregar_epi_gravado ctx db form :
  let db' := (servir (entregar_epi ctx form) db).2 in
  (entrega_epi db' = entrega_epi db
   ∧ epi db' = epi db
   ∧ historico_epi db' = historico_epi db)
  ∨ ∃ fid eid q e vd,
      epi db !! eid = Some e
      ∧ entrega_epi db'
        = <[proximo_id (entrega_epi db) :=
              nova_entrega ctx fid eid q vd (fe_observacao form)]> (entrega_epi db)
      ∧ epi db'
        = <[eid := Epi.com_quantidade e (Z.max (Epi.quantidade e - q) 0)]> (epi db)
      ∧ (historico_epi db' = historico_epi db ∧ falha ctx 1%nat = true
         ∨ historico_epi db'
           = <[proximo_id (historico_epi db) :=
                 HistoricoEpi.Novo eid (utcnow ctx) "Entrega" q
                                   (current_user_nome ctx)]> (historico_epi db)
           ∧ falha ctx 1%nat = false).
Proof.
  intros db'. subst db'.
  destruct (entregar_epi_casos ctx db form)
    as [H|(fid & eid & q & f & e & vd & Hfid & Hid & Hq & Hf & He & Hs & H0 & Hn & Hv & Hc)].
  - left. by rewrite H.
  - right. exists fid, eid, q, e, vd.
    erewrite entregar_epi_passos by done. rewrite Hc.
    split; [done|].
    destruct (falha ctx 1%nat); simpl.
    + repeat split. by left.
    + destruct (falha ctx 2%nat); simpl; repeat split; by right.
Qed.

(** ** [/devolver_epi] and [/descartar_epi] *)

(** A finalized delivery is refused before anything is written. *)
Lemma devolver_epi_finalizada ctx db id qc entrega :
  entrega_epi db !! id = Some entrega →
  finalizada entrega = true →
  servir (devolver_epi ctx id qc) db
  = (match valor_ou qc 0 with
     | Some _ => Json400 JaFinalizada
     | None => Erro500
     end, db).
Proof.
  intros He Hfin. unfold devolver_epi. desmonta.
  destruct (valor_ou qc 0); simpl; rewrite ?He; simpl; rewrite ?Hfin; done.
Qed.

Lemma descartar_epi_finalizada ctx db id qc entrega :
  entrega_epi db !! id = Some entrega →
  finalizada entrega = true →
  servir (descartar_epi ctx id qc) db
  = (match valor_ou qc 0 with
     | Some _ => Json400 JaFinalizada
     | None => Erro500
     end, db).
Proof.
  intros He Hfin. unfold descartar_epi. desmonta.
  destruct (valor_ou qc 0); simpl; rewrite ?He; simpl; rewrite ?Hfin; done.
Qed.

(** An accepted return: one commit carries the delivery row and the stock. *)
Lemma devolver_epi_passos ctx db id qc entrega e r :
  valor_ou qc 0 = Some r →
  entrega_epi db !! id = Some entrega →
  finalizada entrega = false →
  epi db !! EntregaEpi.epi_id entrega = Some e →
  0 < r → r ≤ EntregaEpi.quantidade entrega →
  servir (devolver_epi ctx id qc) db
  = if falha ctx 0%nat then (Erro500, db)
    else (Json200, apos_devolucao ctx db id entrega e r).
Proof.
  intros Hr He Hfin Hepi H0 Hm. unfold devolver_epi. desmonta.
  rewrite Hr. simpl. rewrite He. simpl. rewrite Hepi, Hfin.
  destruct (Z.leb_spec r 0); [lia|].
  destruct (Z.ltb_spec (EntregaEpi.quantidade entrega) r); [lia|]. simpl.
  destruct (falha ctx 0%nat); reflexivity.
Qed.

(** Every way a return request can end. *)
Lemma devolver_epi_casos ctx db id qc :
  (servir (devolver_epi ctx id qc) db).2 = db
  ∨ ∃ entrega e r,
      valor_ou qc 0 = Some r
      ∧ entrega_epi db !! id = Some entrega
      ∧ finalizada entrega = false
      ∧ epi db !! EntregaEpi.epi_id entrega = Some e
      ∧ 0 < r ∧ r ≤ EntregaEpi.quantidade entrega
      ∧ servir (devolver_epi ctx id qc) db
        = (Json200, apos_devolucao ctx db id entrega e r).
Proof.
  destruct (valor_ou qc 0) as [r|] eqn:Hr;
    [|left; unfold devolver_epi; desmonta; by rewrite Hr].
  destruct (entrega_epi db !! id) as [entrega|] eqn:He;
    [|left; unfold devolver_epi; desmonta; rewrite Hr; simpl; by rewrite He].
  destruct (finalizada entrega) eqn:Hfin;
    [left; by erewrite devolver_epi_finalizada|].
  destruct (decide (0 < r ∧ r ≤ EntregaEpi.quantidade entrega)) as [[H0 Hm]|Hn].
  - destruct (epi db !! EntregaEpi.epi_id entrega) as [e|] eqn:Hepi.
    + destruct (falha ctx 0%nat) eqn:Hf.
      * left. erewrite devolver_epi_passos by done. by rewrite Hf.
      * right. exists entrega, e, r. repeat split; try done.
        erewrite devolver_epi_passos by done. by rewrite Hf.
    + left. unfold devolver_epi. desmonta. rewrite Hr. simpl. rewrite He. simpl.
      rewrite Hepi, Hfin.
      destruct (r <=? 0); [done|].
      destruct (EntregaEpi.quantidade entrega <? r); done.
  - left. unfold devolver_epi. desmonta. rewrite Hr. simpl. rewrite He. simpl. rewrite Hfin.
    destruct (Z.leb_spec r 0); [by destruct (epi db !! _)|].
    destruct (Z.ltb_spec (EntregaEpi.quantidade entrega) r);
      [by destruct (epi db !! _)|]. lia.
Qed.

(** An accepted discard. *)
Lemma descartar_epi_passos ctx db id qc entrega r :
  valor_ou qc 0 = Some r →
  entrega_epi db !! id = Some entrega →
  finalizada entrega = false →
  0 < r → r ≤ EntregaEpi.quantidade entrega →
  servir (descartar_epi ctx id qc) db
  = if falha ctx 0%nat then (Erro500, db)
    else (Json200, apos_descarte ctx db id entrega r).
Proof.
  intros Hr He Hfin H0 Hm. unfold descartar_epi. desmonta.
  rewrite Hr. simpl. rewrite He. simpl. rewrite Hfin.
  destruct (Z.leb_spec r 0); [lia|].
  destruct (Z.ltb_spec (EntregaEpi.quantidade entrega) r); [lia|]. simpl.
  destruct (falha ctx 0%nat); reflexivity.
Qed.

(** Every way a discard request can end. *)
Lemma descartar_epi_casos ctx db id qc :
  (servir (descartar_epi ctx id qc) db).2 = db
  ∨ ∃ entrega r,
      valor_ou qc 0 = Some r
      ∧ entrega_epi db !! id = Some entrega
      ∧ finalizada entrega = false
      ∧ 0 < r ∧ r ≤ EntregaEpi.quantidade entrega
      ∧ servir (descartar_epi ctx id qc) db
        = (Json200, apos_descarte ctx db id entrega r).
Proof.
  destruct (valor_ou qc 0) as [r|] eqn:Hr;
    [|left; unfold descartar_epi; desmonta; by rewrite Hr].
  destruct (entrega_epi db !! id) as [entrega|] eqn:He;
    [|left; unfold descartar_epi; desmonta; rewrite Hr; simpl; by rewrite He].
  destruct (finalizada entrega) eqn:Hfin;
    [left; by erewrite descartar_epi_finalizada|].
  destruct (decide (0 < r ∧ r ≤ EntregaEpi.quantidade entrega)) as [[H0 Hm]|Hn].
  - destruct (falha ctx 0%nat) eqn:Hf.
    + left. erewrite descartar_epi_passos by done. by rewrite Hf.
    + right. exists entrega, r. repeat split; try done.
      erewrite descartar_epi_passos by done. by rewrite Hf.
  - left. unfold descartar_epi. desmonta. rewrite Hr. simpl. rewrite He. simpl. rewrite Hfin.
    destruct (Z.leb_spec r 0); [done|].
    destruct (Z.ltb_spec (EntregaEpi.quantidade entrega) r); [done|]. lia.
Qed.

(** ** [/deletar_funcionario] and [/definir_senha_funcionario] *)

Lemma deletar_funcionario_passos ctx db id func :
  funcionario db !! id = Some func →
  servir (deletar_funcionario ctx id) db
  = if falha ctx 0%nat then (Erro500, db)
    else
      let db1 := apos_delete_funcionario db id in
      if falha ctx 1%nat then (Erro500, db1)
      else (Redireciona FuncionarioRemovido,
            apos_log ctx db1 ("Excluiu funcionário: " +:+ Funcionario.nome func)).
Proof.
  intros Hf. unfold deletar_funcionario, delete_funcionario. desmonta.
  rewrite Hf. simpl.
  destruct (falha ctx 0%nat); [reflexivity|]. simpl.
  destruct (falha ctx 1%nat); reflexivity.
Qed.

Lemma deletar_funcionario_404 ctx db id :
  funcionario db !! id = None →
  servir (deletar_funcionario ctx id) db = (Aborta404, db).
Proof.
  intros Hf. unfold deletar_funcionario. desmonta. by rewrite Hf.
Qed.

Lemma definir_senha_funcionario_estoque ctx db id senha :
  epi (servir (definir_senha_funcionario ctx id senha) db).2 = epi db.
Proof.
  unfold definir_senha_funcionario. desmonta.
  destruct (funcionario db !! id) as [func|]; simpl; [|done].
  destruct (falha ctx 0%nat); [done|]. simpl.
  destruct (falha ctx 1%nat); done.
Qed.

(** An empty or absent field stores the empty string as the secret. *)
Lemma definir_senha_funcionario_vazia ctx db id func senha :
  funcionario db !! id = Some func →
  falha ctx 0%nat = false →
  ou senha "" = "" →
  Funcionario.senha_validacao
    <$> funcionario (servir (definir_senha_funcionario ctx id senha) db).2 !! id
  = Some (Some "").
Proof.
  intros Hf Hc Hs. unfold definir_senha_funcionario. desmonta.
  rewrite Hf. simpl. rewrite Hc. simpl.
  destruct (falha ctx 1%nat); simpl; rewrite lookup_insert_eq; simpl; by rewrite Hs.
Qed.

(** ** [/epis], [/editar_epi], [/deletar_epi]: what happens to the stock *)

Lemma epis_estoque ctx db form :
  epi (servir (epis ctx form) db).2 = epi db
  ∨ ∃ e, 0 ≤ Epi.quantidade e
         ∧ epi (servir (epis ctx form) db).2 = <[proximo_id (epi db) := e]> (epi db).
Proof.
  unfold epis. desmonta.
  destruct (valor_ou (f_quantidade form) 0) as [q|]; simpl; [|by left].
  destruct (vazia (strip (ou (f_nome form) ""))
            || vazia (strip (ou (f_validade_ca form) ""))
            || (q <? 0)) eqn:Hc; simpl; [by left|].
  apply orb_false_elim in Hc as [_ Hq]. apply Z.ltb_ge in Hq.
  destruct (falha ctx 0%nat); [by left|]. simpl.
  right. eexists. split; [|destruct (falha ctx 1%nat); simpl;
                            [reflexivity|destruct (falha ctx 2%nat); reflexivity]].
  done.
Qed.

Lemma editar_epi_estoque ctx db id form :
  epi (servir (editar_epi ctx id form) db).2 = epi db
  ∨ ∃ e0 e q,
      epi db !! id = Some e0
      ∧ valor_ou (f_quantidade form) (Epi.quantidade e0) = Some q
      ∧ Epi.quantidade e = q
      ∧ epi (servir (editar_epi ctx id form) db).2 = <[id := e]> (epi db).
Proof.
  unfold editar_epi. desmonta.
  destruct (epi db !! id) as [e0|] eqn:He; simpl; [|by left].
  destruct (valor_ou (f_quantidade form) (Epi.quantidade e0)) as [q|] eqn:Hq;
    simpl; [|by left].
  destruct (falha ctx 0%nat); [by left|]. simpl.
  right. eexists e0, _, q. split; [done|]. split; [done|].
  split; [|case_bool_decide; simpl;
           destruct (falha ctx 1%nat); simpl; try reflexivity;
           destruct (falha ctx 2%nat); reflexivity].
  done.
Qed.

Lemma deletar_epi_estoque ctx db id :
  epi (servir (deletar_epi ctx id) db).2 = epi db
  ∨ epi (servir (deletar_epi ctx id) db).2 = delete id (epi db).
Proof.
  unfold deletar_epi, delete_epi. desmonta.
  destruct (epi db !! id) as [e0|] eqn:He; simpl; [|by left].
  destruct (falha ctx 0%nat); [by left|]. simpl.
  destruct (falha ctx 1%nat); [by left|]. simpl.
  destruct (falha ctx 2%nat); [by left|]. by right.
Qed.

(** ** Non-negative stock *)

Lemma estoque_nao_negativo_insert db db' id e :
  estoque_nao_negativo db →
  0 ≤ Epi.quantidade e →
  epi db' = <[id := e]> (epi db) →
  estoque_nao_negativo db'.
Proof.
  intros Hinv He Heq k x Hk. rewrite Heq in Hk.
  destruct (decide (id = k)) as [->|Hne].
  - rewrite lookup_insert_eq in Hk. by simplify_eq.
  - rewrite lookup_insert_ne in Hk by done. eauto.
Qed.

Lemma estoque_nao_negativo_mesmo db db' :
  estoque_nao_negativo db → epi db' = epi db → estoque_nao_negativo db'.
Proof. intros Hinv Heq k x Hk. rewrite Heq in Hk. eauto. Qed.

(** Every route keeps the stock non-negative, an edit provided the form
    does not carry a negative quantity. *)
Lemma rota_estoque_nao_negativo ctx op db :
  edicao_sem_negativo op →
  estoque_nao_negativo db →
  estoque_nao_negativo (servir (rota ctx op) db).2.
Proof.
  intros Hop Hinv. destruct op as [form|id form|id|form|id q|id q|id s|id]; simpl.
  - destruct (epis_estoque ctx db form) as [H|(e & He & H)].
    + by eapply estoque_nao_negativo_mesmo.
    + by eapply estoque_nao_negativo_insert.
  - destruct (editar_epi_estoque ctx db id form) as [H|(e0 & e & q & H0 & Hq & He & H)].
    + by eapply estoque_nao_negativo_mesmo.
    + eapply estoque_nao_negativo_insert; [done| |done].
      simpl in Hop. specialize (Hinv _ _ H0).
      destruct (f_quantidade form); simpl in Hq; simplify_eq; lia.
  - destruct (deletar_epi_estoque ctx db id) as [H|H].
    + by eapply estoque_nao_negativo_mesmo.
    + intros k x Hk. rewrite H in Hk.
      apply lookup_delete_Some in Hk as [_ Hk]. eauto.
  - destruct (entregar_epi_casos ctx db form)
      as [H|(fid & eid & q & f & e & vd & Hfid & Hid & Hq & Hf & He & Hs & H0 & Hn & Hv & Hc)].
    + rewrite H. done.
    + erewrite entregar_epi_passos by done. rewrite Hc.
      eapply (estoque_nao_negativo_insert db _ eid
                (Epi.com_quantidade e (Z.max (Epi.quantidade e - q) 0)));
        [done|simpl; lia|].
      destruct (falha ctx 1%nat); [done|].
      destruct (falha ctx 2%nat); done.
  - destruct (devolver_epi_casos ctx db id q)
      as [H|(entrega & e & r & Hr & Hent & Hfin & He & H0 & Hm & H)].
    + rewrite H. done.
    + rewrite H. simpl.
      eapply (estoque_nao_negativo_insert db _ (EntregaEpi.epi_id entrega)
                (Epi.com_quantidade e (Epi.quantidade e + r))); [done| |done].
      simpl. specialize (Hinv _ _ He). lia.
  - destruct (descartar_epi_casos ctx db id q)
      as [H|(entrega & r & Hr & Hent & Hfin & H0 & Hm & H)].
    + rewrite H. done.
    + rewrite H. by eapply estoque_nao_negativo_mesmo.
  - eapply estoque_nao_negativo_mesmo; [done|].
    apply definir_senha_funcionario_estoque.
  - destruct (funcionario db !! id) as [func|] eqn:Hf.
    + erewrite deletar_funcionario_passos by done.
      destruct (falha ctx 0%nat); [done|].
      destruct (falha ctx 1%nat); by eapply estoque_nao_negativo_mesmo.
    + by erewrite deletar_funcionario_404.
Qed.

Lemma executar_estoque_nao_negativo ops db :
  Forall (λ co, edicao_sem_negativo co.2) ops →
  estoque_nao_negativo db →
  estoque_nao_negativo (executar ops db).
Proof.
  intros Hops. revert db.
  induction Hops as [|[ctx op] ops Hop Hops IH]; intros db Hinv; simpl; [done|].
  apply IH. by apply rota_estoque_nao_negativo.
Qed.

(** * The claims *)

(** ** C1 *)

(** C1 (the code departs from it). The claim: after any sequence of
    register, edit, deliver, return, discard and delete the quantity of an
    item is never negative. [/epis] refuses a negative quantity and
    [/entregar_epi] clamps at zero, but [/editar_epi] stores whatever integer
    the form carries: registering 5 helmets and then editing the quantity to
    -5 leaves the item with -5 on hand. *)
Theorem C1_editar_epi_quantidade_negativa :
  let db := executar [(admin, OpCadastrar (form_capacete 5));
                      (admin, OpEditar 1 (form_capacete (-5)))] db_inicial in
  Epi.quantidade <$> epi db !! 1 = Some (-5)
  ∧ ¬ estoque_nao_negativo db.
Proof.
  assert (Epi.quantidade <$>
            epi (executar [(admin, OpCadastrar (form_capacete 5));
                           (admin, OpEditar 1 (form_capacete (-5)))] db_inicial)
              !! 1 = Some (-5)) as H by (by vm_compute).
  split; [exact H|].
  intros Hinv.
  destruct (epi _ !! 1) as [e|] eqn:He; [|done].
  specialize (Hinv 1 e He). simpl in H. injection H as H. lia.
Qed.

(** ** C2 *)

(** C2 (the code departs from it). The claim: the Delivery row, the stock
    decrement and the Delivery history entry are applied as one atomic unit.
    [entregar_epi] commits the row and the decrement first and
    [registrar_historico] commits the history entry on its own afterwards;
    the [rollback] of the [except] branch cannot undo the first commit. When
    the database refuses the second commit, the route answers the generic
    failure message while the Delivery row and the lowered stock (20 to 15)
    stay stored and the history has no Delivery entry. *)
Theorem C2_entrega_sem_historico :
  let r := servir (entregar_epi falha_no_segundo
                     (form_entrega 1 1 5 (Some "s3nha"))) db_capacete in
  r.1 = Redireciona ErroEntrega
  ∧ entrega_epi db_capacete = ∅
  ∧ (λ d, (EntregaEpi.quantidade d, EntregaEpi.status d)) <$> entrega_epi r.2 !! 1
    = Some (5, "entregue")
  ∧ Epi.quantidade <$> epi db_capacete !! 1 = Some 20
  ∧ Epi.quantidade <$> epi r.2 !! 1 = Some 15
  ∧ historico_epi r.2 = historico_epi db_capacete
  ∧ map_Forall (λ _ h, HistoricoEpi.acao h ≠ "Entrega") (historico_epi r.2).
Proof.
  split; [by vm_compute|].
  split; [by vm_compute|].
  split; [by vm_compute|].
  split; [by vm_compute|].
  split; [by vm_compute|].
  split; [by vm_compute|].
  intros k h Hk.
  assert (historico_epi
            (servir (entregar_epi falha_no_segundo
                       (form_entrega 1 1 5 (Some "s3nha"))) db_capacete).2
          = {[1 := HistoricoEpi.Novo 1 1700000000 "Cadastro" 20 "admin"]}) as Heq
    by (by vm_compute).
  rewrite Heq in Hk. apply lookup_singleton_Some in Hk as [_ <-]. done.
Qed.

(** ** C3 *)

(** C3. A return of [r] units, [0 < r ≤ m], against a delivery in status
    "entregue" holding [m]: the request succeeds, the delivery's quantity is
    overwritten with [r], the item's stock grows by [r], and exactly when
    [r = m] the status becomes "devolvido" and the return timestamp is set.
    And the end-to-end scenario: 20 helmets registered, 5 delivered (15 on
    hand), 2 returned (delivery still "entregue" with quantity 2, 17 on
    hand), 2 returned again (delivery "devolvido" with quantity 2, 19 on
    hand). *)
Theorem C3_devolucao :
  (∀ ctx db id entrega e r,
     falha ctx 0%nat = false →
     entrega_epi db !! id = Some entrega →
     EntregaEpi.status entrega = "entregue" →
     epi db !! EntregaEpi.epi_id entrega = Some e →
     0 < r → r ≤ EntregaEpi.quantidade entrega →
     ∃ entrega' db',
       servir (devolver_epi ctx id (Inteiro r)) db = (Json200, db')
       ∧ entrega_epi db' = <[id := entrega']> (entrega_epi db)
       ∧ epi db' = <[EntregaEpi.epi_id entrega :=
                       Epi.com_quantidade e (Epi.quantidade e + r)]> (epi db)
       ∧ EntregaEpi.quantidade entrega' = r
       ∧ EntregaEpi.status entrega'
         = (if bool_decide (r = EntregaEpi.quantidade entrega)
            then "devolvido" else "entregue")
       ∧ EntregaEpi.data_devolucao entrega'
         = (if bool_decide (r = EntregaEpi.quantidade entrega)
            then Some (utcnow ctx) else EntregaEpi.data_devolucao entrega))
  ∧ (let resumo (db : DB) :=
       (Epi.quantidade <$> epi db !! 1,
        (λ d, (EntregaEpi.quantidade d, EntregaEpi.status d,
               EntregaEpi.data_devolucao d)) <$> entrega_epi db !! 1) in
     let db1 := executar [(admin, OpCadastrar (form_capacete 20))] db_inicial in
     let db2 := executar [(admin, OpEntregar (form_entrega 1 1 5 (Some "s3nha")))] db1 in
     let db3 := executar [(admin, OpDevolver 1 (Inteiro 2))] db2 in
     let db4 := executar [(admin, OpDevolver 1 (Inteiro 2))] db3 in
     resumo db1 = (Some 20, None)
     ∧ resumo db2 = (Some 15, Some (5, "entregue", None))
     ∧ resumo db3 = (Some 17, Some (2, "entregue", None))
     ∧ resumo db4 = (Some 19, Some (2, "devolvido", Some (utcnow admin)))).
Proof.
  split.
  - intros ctx db id entrega e r Hc He Hst Hepi H0 Hm.
    exists (devolvida ctx entrega r), (apos_devolucao ctx db id entrega e r).
    erewrite devolver_epi_passos; [| done | done | | done | done | done].
    + rewrite Hc. repeat split; try done; unfold devolvida; simpl.
      * case_bool_decide as Hr.
        -- by rewrite (proj2 (Z.eqb_eq _ _) Hr).
        -- by rewrite (proj2 (Z.eqb_neq _ _) Hr).
      * case_bool_decide as Hr.
        -- by rewrite (proj2 (Z.eqb_eq _ _) Hr).
        -- by rewrite (proj2 (Z.eqb_neq _ _) Hr).
    + unfold finalizada. by rewrite Hst.
  - by vm_compute.
Qed.

Lemma C3_devolucao_witness :
  ∃ entrega' db',
    servir (devolver_epi admin 1 (Inteiro 2)) db_entregue = (Json200, db')
    ∧ entrega_epi db' = <[1 := entrega']> (entrega_epi db_entregue)
    ∧ epi db' = <[1 := Epi.com_quantidade
                         (Epi.Novo "Helmet" "12345" "31/12/2030" 15 "H-01" "")
                         (15 + 2)]> (epi db_entregue)
    ∧ EntregaEpi.quantidade entrega' = 2
    ∧ EntregaEpi.status entrega' = "entregue"
    ∧ EntregaEpi.data_devolucao entrega' = None.
Proof.
  exact (proj1 C3_devolucao admin db_entregue 1
           (nova_entrega admin 1 1 5 None None)
           (Epi.Novo "Helmet" "12345" "31/12/2030" 15 "H-01" "") 2
           eq_refl eq_refl eq_refl eq_refl eq_refl
           (λ H : (2 ?= 5) = Gt, eq_ind Lt (λ c, match c with Gt => False | _ => True end) I Gt H)).
Defined.

(** ** C4 *)

(** C4. A delivery of [q] units, [0 < q ≤ n], from an item holding [n], the
    employee and the item existing, the secret matching, the optional
    expiry date well formed and no commit failing: the item holds exactly
    [n - q] afterwards, exactly one Delivery row is created (at a fresh key,
    status "entregue", quantity [q]) and exactly one history row is
    appended (at a fresh key, action "Entrega", quantity [q]). *)
Theorem C4_entrega_bem_sucedida ctx db form fid eid q f e vd :
  (∀ n, falha ctx n = false) →
  valor_ou (fe_funcionario_id form) 0 = Some fid →
  valor_ou (fe_epi_id form) 0 = Some eid →
  valor_ou (fe_quantidade form) 0 = Some q →
  funcionario db !! fid = Some f →
  epi db !! eid = Some e →
  ou (Funcionario.senha_validacao f) "" = ou (fe_senha_validacao form) "" →
  0 < q → q ≤ Epi.quantidade e →
  validade_data (fe_validade_entrega form) = Some vd →
  let r := servir (entregar_epi ctx form) db in
  let k := proximo_id (entrega_epi db) in
  let h := proximo_id (historico_epi db) in
  r.1 = Redireciona Entregue
  ∧ epi r.2 = <[eid := Epi.com_quantidade e (Epi.quantidade e - q)]> (epi db)
  ∧ entrega_epi db !! k = None
  ∧ entrega_epi r.2
    = <[k := nova_entrega ctx fid eid q vd (fe_observacao form)]> (entrega_epi db)
  ∧ EntregaEpi.status (nova_entrega ctx fid eid q vd (fe_observacao form)) = "entregue"
  ∧ EntregaEpi.quantidade (nova_entrega ctx fid eid q vd (fe_observacao form)) = q
  ∧ size (entrega_epi r.2) = S (size (entrega_epi db))
  ∧ historico_epi db !! h = None
  ∧ historico_epi r.2
    = <[h := HistoricoEpi.Novo eid (utcnow ctx) "Entrega" q (current_user_nome ctx)]>
        (historico_epi db)
  ∧ size (historico_epi r.2) = S (size (historico_epi db))
  ∧ funcionario r.2 = funcionario db.
Proof.
  intros Hc Hfid Hid Hq Hf He Hs H0 Hn Hv r k h. subst r k h.
  erewrite entregar_epi_passos by done.
  rewrite !Hc. simpl.
  rewrite Z.max_l by lia.
  repeat split; try done.
  - apply proximo_id_livre.
  - apply map_size_insert_None, proximo_id_livre.
  - apply proximo_id_livre.
  - apply map_size_insert_None, proximo_id_livre.
Qed.

Lemma C4_entrega_bem_sucedida_witness :
  let r := servir (entregar_epi admin (form_entrega 1 1 5 (Some "s3nha"))) db_capacete in
  r.1 = Redireciona Entregue
  ∧ Epi.quantidade <$> epi r.2 !! 1 = Some 15
  ∧ size (entrega_epi r.2) = 1%nat
  ∧ size (historico_epi r.2) = 2%nat.
Proof.
  pose proof (C4_entrega_bem_sucedida admin db_capacete
                (form_entrega 1 1 5 (Some "s3nha")) 1 1 5 ana
                (Epi.Novo "Helmet" "12345" "31/12/2030" 20 "H-01" "") None) as H.
  destruct H as (Hr & Hepi & _ & _ & _ & _ & Hn & _ & _ & Hh & _);
    [reflexivity | reflexivity | reflexivity | reflexivity | reflexivity
    | reflexivity | reflexivity | lia | simpl; lia | reflexivity |].
  split; [exact Hr|].
  split; [rewrite Hepi; reflexivity|].
  split; [rewrite Hn; reflexivity | rewrite Hh; reflexivity].
Defined.

(** ** C5 *)

(** C5. A delivery request for [q] units against an item holding [n < q]
    is refused and changes nothing: the stored database (items, deliveries,
    history, log) is exactly what it was, whatever the rest of the form and
    whichever commits would fail. The message is the insufficient-stock one
    whenever the request passes the checks the route makes first (the
    employee exists, the secret matches, [q > 0]). *)
Theorem C5_estoque_insuficiente ctx db form eid q e :
  valor_ou (fe_epi_id form) 0 = Some eid →
  valor_ou (fe_quantidade form) 0 = Some q →
  epi db !! eid = Some e →
  Epi.quantidade e < q →
  (servir (entregar_epi ctx form) db).2 = db
  ∧ (servir (entregar_epi ctx form) db).1 ≠ Redireciona Entregue
  ∧ ∀ fid f,
      valor_ou (fe_funcionario_id form) 0 = Some fid →
      funcionario db !! fid = Some f →
      ou (Funcionario.senha_validacao f) "" = ou (fe_senha_validacao form) "" →
      0 < q →
      (servir (entregar_epi ctx form) db).1 = Redireciona EstoqueInsuficiente.
Proof.
  intros Hid Hq He Hlt.
  destruct (entregar_epi_sem_estoque ctx db form eid q e) as [Hdb Hr]; try done.
  repeat split; try done.
  intros fid f Hfid Hf Hs H0.
  by erewrite entregar_epi_estoque_insuficiente.
Qed.

Lemma C5_estoque_insuficiente_witness :
  (servir (entregar_epi admin (form_entrega 1 1 21 (Some "s3nha"))) db_capacete).2
  = db_capacete
  ∧ (servir (entregar_epi admin (form_entrega 1 1 21 (Some "s3nha"))) db_capacete).1
    = Redireciona EstoqueInsuficiente.
Proof.
  pose proof (C5_estoque_insuficiente admin db_capacete
                (form_entrega 1 1 21 (Some "s3nha")) 1 21
                (Epi.Novo "Helmet" "12345" "31/12/2030" 20 "H-01" "")) as H.
  destruct H as (Hdb & _ & Hr);
    [reflexivity | reflexivity | reflexivity | simpl; lia |].
  split; [exact Hdb|].
  apply (Hr 1 ana); [reflexivity | reflexivity | reflexivity | lia].
Defined.

(** ** C6 *)

(** C6. Against a delivery whose status is "devolvido" or "descartado", a
    return and a discard both leave the stored database exactly as it was
    (so the delivery's status, quantity and timestamps and the item's stock
    are unchanged), and both answer the already-finalized error for every
    quantity [int] can read, the absent one included. *)
Theorem C6_entrega_finalizada ctx db id qc entrega :
  entrega_epi db !! id = Some entrega →
  EntregaEpi.status entrega = "devolvido" ∨ EntregaEpi.status entrega = "descartado" →
  (servir (devolver_epi ctx id qc) db).2 = db
  ∧ (servir (descartar_epi ctx id qc) db).2 = db
  ∧ (qc ≠ Invalido →
     servir (devolver_epi ctx id qc) db = (Json400 JaFinalizada, db)
     ∧ servir (descartar_epi ctx id qc) db = (Json400 JaFinalizada, db)).
Proof.
  intros He Hst.
  assert (finalizada entrega = true) as Hfin.
  { unfold finalizada. destruct Hst as [-> | ->]; done. }
  rewrite (devolver_epi_finalizada ctx db id qc entrega He Hfin).
  rewrite (descartar_epi_finalizada ctx db id qc entrega He Hfin).
  repeat split; try done; destruct qc; done.
Qed.

Lemma C6_entrega_finalizada_witness :
  let db := executar [(admin, OpDevolver 1 (Inteiro 5))] db_entregue in
  servir (devolver_epi admin 1 (Inteiro 1)) db = (Json400 JaFinalizada, db)
  ∧ servir (descartar_epi admin 1 (Inteiro 1)) db = (Json400 JaFinalizada, db).
Proof.
  refine (proj2 (proj2 (C6_entrega_finalizada admin
            (executar [(admin, OpDevolver 1 (Inteiro 5))] db_entregue) 1 (Inteiro 1)
            (devolvida admin (nova_entrega admin 1 1 5 None None) 5) _ _)) _).
  - reflexivity.
  - left. reflexivity.
  - discriminate.
Defined.

(** ** C7 *)

(** C7. A discard, partial or full, accepted or refused, never touches the
    items: the stock table after the request is the stock table before it.
    Employees and history are untouched too, and among the deliveries at
    most the addressed row changes, and only in its quantity, status and
    discard timestamp. *)
Theorem C7_descarte_nao_mexe_no_estoque ctx db id qc :
  let db' := (servir (descartar_epi ctx id qc) db).2 in
  epi db' = epi db
  ∧ funcionario db' = funcionario db
  ∧ historico_epi db' = historico_epi db
  ∧ (entrega_epi db' = entrega_epi db
     ∨ ∃ entrega entrega',
         entrega_epi db !! id = Some entrega
         ∧ entrega_epi db' = <[id := entrega']> (entrega_epi db)
         ∧ so_descarte entrega entrega').
Proof.
  intros db'. subst db'.
  destruct (descartar_epi_casos ctx db id qc)
    as [H|(entrega & r & Hr & Hent & Hfin & H0 & Hm & H)]; rewrite H.
  - repeat split; try done. by left.
  - simpl. repeat split; try done.
    right. exists entrega, (descartada ctx entrega r).
    repeat split; try done;
      unfold descartada; destruct (r =? EntregaEpi.quantidade entrega); done.
Qed.

(** ** C8 *)

(** [date.__lt__] is a strict order: a date is not before itself, and of two
    dates at most one is before the other. *)
Lemma data_lt_irrefl a : data_lt a a = false.
Proof.
  unfold data_lt. rewrite !Z.ltb_irrefl, !Z.eqb_refl. reflexivity.
Qed.

Lemma data_lt_asym a b : data_lt a b = true → data_lt b a = false.
Proof.
  unfold data_lt. intros H.
  destruct (Z.ltb_spec (ano a) (ano b)), (Z.ltb_spec (ano b) (ano a)),
    (Z.eqb_spec (ano a) (ano b)), (Z.eqb_spec (ano b) (ano a)),
    (Z.ltb_spec (mes a) (mes b)), (Z.ltb_spec (mes b) (mes a)),
    (Z.eqb_spec (mes a) (mes b)), (Z.eqb_spec (mes b) (mes a)),
    (Z.ltb_spec (dia a) (dia b)), (Z.ltb_spec (dia b) (dia a));
    simpl in *; try done; lia.
Qed.

(** The loop appends to its accumulator the rows the filter keeps. *)
Lemma laco_vencidos_filter hoje todos acc :
  laco_vencidos hoje todos acc
  = (acc ++ filter (λ kv, Is_true (vencido hoje kv.2)) todos)%list.
Proof.
  revert acc. induction todos as [|x todos IH]; intros acc; simpl.
  - by rewrite app_nil_r.
  - rewrite IH, filter_cons. unfold vencido.
    destruct (strptime fmt_dmY (Epi.validade_ca x.2)) as [v|]; simpl.
    + destruct (data_lt v hoje); simpl; [|done].
      by rewrite <- app_assoc.
    + done.
Qed.

Lemma data_lt_ordem a b :
  data_lt a b = true
  ↔ ano a < ano b
    ∨ (ano a = ano b ∧ (mes a < mes b ∨ (mes a = mes b ∧ dia a < dia b))).
Proof.
  unfold data_lt.
  destruct (Z.ltb_spec (ano a) (ano b)), (Z.eqb_spec (ano a) (ano b)),
    (Z.ltb_spec (mes a) (mes b)), (Z.eqb_spec (mes a) (mes b)),
    (Z.ltb_spec (dia a) (dia b)); simpl; split; try done; lia.
Qed.

(** ** The two date formats *)

Lemma primeiro_None {A B} (k : A → option B) l :
  Forall (λ x, k x = None) l → primeiro k l = None.
Proof.
  induction 1 as [|x l Hx _ IH]; simpl; [done|]. by rewrite Hx.
Qed.

(** A digit of an ASCII class is a decimal digit. *)
Lemma um_decimal_mesmo lo hi s x : x ∈ um lo hi s → decimal s = [x].
Proof.
  destruct s as [|c r]; [by intros ?%elem_of_nil|].
  unfold um, digito_em, digito, decimal, ponto, octeto.
  set (n := Z.of_N (N_of_ascii c)).
  destruct ((48 <=? n) && (n <=? 57)) eqn:Hn; [|by intros ?%elem_of_nil].
  apply andb_true_iff in Hn as [H1%Z.leb_le H2%Z.leb_le].
  destruct ((lo <=? n - 48) && (n - 48 <=? hi)); [|by intros ?%elem_of_nil].
  intros ->%list_elem_of_singleton.
  destruct (Z.ltb_spec n 128); [|lia].
  unfold decimal_do_ponto, zeros_decimais. simpl find.
  destruct (Z.leb_spec 48 n); [|lia]. destruct (Z.ltb_spec n (48 + 10)); [|lia].
  done.
Qed.

Lemma dois_um lo1 hi1 lo2 hi2 s :
  dois lo1 hi1 lo2 hi2 s
  = '(a, r) ← um lo1 hi1 s; '(b, r') ← um lo2 hi2 r; [(10 * a + b, r')].
Proof.
  destruct s as [|c1 [|c2 r]]; simpl; [done|..].
  - by destruct (digito_em lo1 hi1 c1).
  - destruct (digito_em lo1 hi1 c1); [|done]. simpl.
    by destruct (digito_em lo2 hi2 c2).
Qed.

(** A text that starts with a decimal digit does not start with a bar. *)
Lemma casar_barra_decimal fmt s cs :
  decimal s ≠ [] → casar (D_lit "/" :: fmt) s cs = None.
Proof.
  destruct s as [|c r]; [done|]. simpl. case_decide as Hc; [|done].
  subst c. intros H. by destruct H.
Qed.

(** Before three decimal digits, every way of reading a day leaves a
    decimal digit next. *)
Lemma alternativas_d_resto s a r1 b r2 c r3 :
  decimal s = [(a, r1)] → decimal r1 = [(b, r2)] → decimal r2 = [(c, r3)] →
  Forall (λ x, decimal x.2 ≠ []) (alternativas_d s).
Proof.
  intros H1 H2 H3. unfold alternativas_d, um_decimal.
  rewrite !dois_um.
  assert (∀ lo hi x, x ∈ um lo hi s → x = (a, r1)) as Hs.
  { intros lo hi x Hx%um_decimal_mesmo. congruence. }
  assert (∀ lo hi x, x ∈ um lo hi r1 → x = (b, r2)) as Hr.
  { intros lo hi x Hx%um_decimal_mesmo. congruence. }
  assert (∀ lo1 hi1 lo2 hi2,
            Forall (λ x : Z * string, decimal x.2 ≠ [])
              ('(a, r) ← um lo1 hi1 s; '(b, r') ← um lo2 hi2 r;
               [(10 * a + b, r')])) as Hdois.
  { intros. apply Forall_forall. intros x.
    rewrite list_elem_of_bind. intros ([a' r'] & Hx & Ha).
    apply Hs in Ha as [= -> ->].
    apply list_elem_of_bind in Hx as ([b' r''] & Hx & Hb).
    apply Hr in Hb as [= -> ->].
    apply list_elem_of_singleton in Hx as ->. simpl. by rewrite H3. }
  repeat apply Forall_app_2; try apply Hdois.
  - apply Forall_forall. intros x.
    rewrite list_elem_of_bind. intros ([a' r'] & Hx & Ha).
    apply Hs in Ha as [= -> ->]. rewrite H2 in Hx.
    apply list_elem_of_bind in Hx as ([b' r''] & Hx & Hb).
    apply list_elem_of_singleton in Hb as [= -> ->].
    apply list_elem_of_singleton in Hx as ->. simpl. by rewrite H3.
  - apply Forall_forall. intros x Hx%Hs. subst x. simpl. by rewrite H2.
  - destruct s as [|c' r']; [constructor|]. simpl.
    case_decide as Hc; [|constructor]. subst c'. by vm_compute in H1.
Qed.

Lemma decimal_um_so s : decimal s = [] ∨ ∃ v r, decimal s = [(v, r)].
Proof.
  unfold decimal. destruct (ponto s) as [[p r]|]; [|by left].
  destruct (decimal_do_ponto p); [right; eauto|by left].
Qed.

(** What [%Y] reads: four decimal digits, one after the other. *)
Lemma quatro_decimais s x :
  x ∈ quatro s →
  ∃ a r1 b r2 c r3 d,
    decimal s = [(a, r1)] ∧ decimal r1 = [(b, r2)] ∧ decimal r2 = [(c, r3)]
    ∧ decimal r3 = [(d, x.2)] ∧ x.1 = 1000 * a + 100 * b + 10 * c + d.
Proof.
  unfold quatro.
  destruct (decimal_um_so s) as [->|(a & r1 & Ha)]; [by intros ?%elem_of_nil|].
  rewrite Ha. simpl. rewrite app_nil_r.
  destruct (decimal_um_so r1) as [->|(b & r2 & Hb)]; [by intros ?%elem_of_nil|].
  rewrite Hb. simpl. rewrite app_nil_r.
  destruct (decimal_um_so r2) as [->|(c & r3 & Hc)]; [by intros ?%elem_of_nil|].
  rewrite Hc. simpl. rewrite app_nil_r.
  destruct (decimal_um_so r3) as [->|(d & r4 & Hd)]; [by intros ?%elem_of_nil|].
  rewrite Hd. simpl. intros ->%list_elem_of_singleton.
  by exists a, r1, b, r2, c, r3, d.
Qed.

(** A text that starts with four decimal digits is not a day/month/year
    date. *)
Lemma quatro_nao_dmY s cs : quatro s ≠ [] → casar fmt_dmY s cs = None.
Proof.
  intros Hq. destruct (quatro s) as [|x l] eqn:Hx; [done|].
  destruct (quatro_decimais s x) as (a & r1 & b & r2 & c & r3 & d & Ha & Hb & Hc & _).
  { rewrite Hx. by left. }
  change (casar fmt_dmY s cs)
    with (primeiro
            (λ '(v, r), casar [D_lit "/"; D_m; D_lit "/"; D_Y] r
                              (Campos (c_Y cs) (c_m cs) v))
            (alternativas_d s)).
  apply primeiro_None.
  eapply Forall_impl; [by eapply alternativas_d_resto|].
  intros [v rest] Hd. simpl in Hd. by apply casar_barra_decimal.
Qed.

Lemma formatos_disjuntos s :
  is_Some (strptime fmt_Ymd s) → strptime fmt_dmY s = None.
Proof.
  intros [d Hd]. unfold strptime in *.
  destruct (quatro s) as [|x l] eqn:Hq.
  - simpl in Hd. by rewrite Hq in Hd.
  - rewrite quatro_nao_dmY; [done|]. by rewrite Hq.
Qed.

(** *** Reading back a date written in full *)

Lemma decimal_algarismo n r :
  0 ≤ n ≤ 9 → decimal (String (algarismo n) r) = [(n, r)].
Proof.
  intros Hn.
  assert (n = 0 ∨ n = 1 ∨ n = 2 ∨ n = 3 ∨ n = 4 ∨ n = 5 ∨ n = 6 ∨ n = 7
          ∨ n = 8 ∨ n = 9) as H by lia.
  repeat destruct H as [->|H]; try subst n; reflexivity.
Qed.

Lemma quatro_quatro_algarismos y r :
  0 ≤ y ≤ 9999 → quatro (quatro_algarismos y +:+ r) = [(y, r)].
Proof.
  intros Hy. unfold quatro, quatro_algarismos.
  change (String ?a (String ?b (String ?c (String ?d ""))) +:+ r)
    with (String a (String b (String c (String d r)))).
  assert (0 ≤ y / 1000 ≤ 9) by (Z.div_mod_to_equations; lia).
  assert (0 ≤ y / 100 mod 10 ≤ 9) by (Z.div_mod_to_equations; lia).
  assert (0 ≤ y / 10 mod 10 ≤ 9) by (Z.div_mod_to_equations; lia).
  assert (0 ≤ y mod 10 ≤ 9) by (Z.div_mod_to_equations; lia).
  rewrite decimal_algarismo by done. cbn [mbind list_bind app].
  rewrite decimal_algarismo by done. cbn [mbind list_bind app].
  rewrite decimal_algarismo by done. cbn [mbind list_bind app].
  rewrite decimal_algarismo by done. cbn [mbind list_bind app].
  do 2 f_equal. Z.div_mod_to_equations. lia.
Qed.

Lemma alternativas_d_dois_algarismos d r :
  1 ≤ d ≤ 31 → ∃ l, alternativas_d (dois_algarismos d +:+ r) = (d, r) :: l.
Proof.
  intros Hd. destruct d as [|p|p]; try lia.
  do 5 (try destruct p as [p|p|]); try lia; eexists; reflexivity.
Qed.

Lemma alternativas_m_dois_algarismos m r :
  1 ≤ m ≤ 12 → ∃ l, alternativas_m (dois_algarismos m +:+ r) = (m, r) :: l.
Proof.
  intros Hm. destruct m as [|p|p]; try lia.
  do 4 (try destruct p as [p|p|]); try lia; eexists; reflexivity.
Qed.

Lemma primeiro_cabeca {A B} (k : A → option B) x l b :
  k x = Some b → primeiro k (x :: l) = Some b.
Proof. intros H. simpl. by rewrite H. Qed.

Lemma dias_no_mes_31 y m : dias_no_mes y m ≤ 31.
Proof. unfold dias_no_mes. repeat case_match; lia. Qed.

(** A date written DD/MM/YYYY is read as that date. *)
Lemma strptime_texto_dmY d :
  data_valida d → strptime fmt_dmY (texto_dmY d) = Some d.
Proof.
  destruct d as [y m d]. intros (Hy & Hm & Hd). simpl in *.
  pose proof (dias_no_mes_31 y m).
  unfold strptime, texto_dmY. simpl ano; simpl mes; simpl dia.
  destruct (alternativas_d_dois_algarismos d
              ("/" +:+ dois_algarismos m +:+ "/" +:+ quatro_algarismos y))
    as [ld Hld]; [lia|].
  destruct (alternativas_m_dois_algarismos m ("/" +:+ quatro_algarismos y))
    as [lm Hlm]; [lia|].
  assert (casar fmt_dmY
            (dois_algarismos d +:+ "/" +:+ dois_algarismos m +:+ "/"
             +:+ quatro_algarismos y) campos_iniciais
          = Some (Campos y m d, "")) as ->.
  { change (casar fmt_dmY ?s ?cs)
      with (primeiro
              (λ '(v, r), casar [D_lit "/"; D_m; D_lit "/"; D_Y] r
                                (Campos (c_Y cs) (c_m cs) v))
              (alternativas_d s)).
    rewrite Hld. apply primeiro_cabeca.
    change (casar [D_lit "/"; D_m; D_lit "/"; D_Y] ("/" +:+ ?s) ?cs)
      with (primeiro
              (λ '(v, r), casar [D_lit "/"; D_Y] r (Campos (c_Y cs) v (c_d cs)))
              (alternativas_m s)).
    rewrite Hlm. apply primeiro_cabeca.
    change (casar [D_lit "/"; D_Y] ("/" +:+ ?s) ?cs)
      with (primeiro
              (λ '(v, r), casar [] r (Campos v (c_m cs) (c_d cs)))
              (quatro s)).
    change (quatro_algarismos y) with (quatro_algarismos y +:+ "").
    rewrite quatro_quatro_algarismos by lia. done. }
  simpl c_Y; simpl c_m; simpl c_d.
  destruct (Z.leb_spec 1 y); [|lia]. destruct (Z.leb_spec 1 d); [|lia].
  destruct (Z.leb_spec d (dias_no_mes y m)); [|lia]. done.
Qed.

Lemma alternativas_d_sem_zero d r :
  1 ≤ d ≤ 31 →
  ∃ l, alternativas_d (sem_zero d +:+ String "/" r) = (d, String "/" r) :: l.
Proof.
  intros Hd. destruct d as [|p|p]; try lia.
  do 5 (try destruct p as [p|p|]); try lia; eexists; reflexivity.
Qed.

Lemma alternativas_m_sem_zero m r :
  1 ≤ m ≤ 12 →
  ∃ l, alternativas_m (sem_zero m +:+ String "/" r) = (m, String "/" r) :: l.
Proof.
  intros Hm. destruct m as [|p|p]; try lia.
  do 4 (try destruct p as [p|p|]); try lia; eexists; reflexivity.
Qed.

(** A date written D/M/YYYY is read as that date. *)
Lemma strptime_texto_dmY_curto d :
  data_valida d → strptime fmt_dmY (texto_dmY_curto d) = Some d.
Proof.
  destruct d as [y m d]. intros (Hy & Hm & Hd). simpl in *.
  pose proof (dias_no_mes_31 y m).
  unfold strptime, texto_dmY_curto. simpl ano; simpl mes; simpl dia.
  change (sem_zero d +:+ "/" +:+ sem_zero m +:+ "/" +:+ quatro_algarismos y)
    with (sem_zero d
          +:+ String "/" (sem_zero m
                          +:+ String "/" (quatro_algarismos y +:+ ""))).
  destruct (alternativas_d_sem_zero d
              (sem_zero m +:+ String "/" (quatro_algarismos y +:+ "")))
    as [ld Hld]; [lia|].
  destruct (alternativas_m_sem_zero m (quatro_algarismos y +:+ ""))
    as [lm Hlm]; [lia|].
  assert (casar fmt_dmY
            (sem_zero d
             +:+ String "/" (sem_zero m
                             +:+ String "/" (quatro_algarismos y +:+ "")))
            campos_iniciais
          = Some (Campos y m d, "")) as ->.
  { change (casar fmt_dmY ?s ?cs)
      with (primeiro
              (λ '(v, r), casar [D_lit "/"; D_m; D_lit "/"; D_Y] r
                                (Campos (c_Y cs) (c_m cs) v))
              (alternativas_d s)).
    rewrite Hld. apply primeiro_cabeca.
    change (casar [D_lit "/"; D_m; D_lit "/"; D_Y] (String "/" ?s) ?cs)
      with (primeiro
              (λ '(v, r), casar [D_lit "/"; D_Y] r (Campos (c_Y cs) v (c_d cs)))
              (alternativas_m s)).
    rewrite Hlm. apply primeiro_cabeca.
    change (casar [D_lit "/"; D_Y] (String "/" ?s) ?cs)
      with (primeiro
              (λ '(v, r), casar [] r (Campos v (c_m cs) (c_d cs)))
              (quatro s)).
    rewrite quatro_quatro_algarismos by lia. done. }
  simpl c_Y; simpl c_m; simpl c_d.
  destruct (Z.leb_spec 1 y); [|lia]. destruct (Z.leb_spec 1 d); [|lia].
  destruct (Z.leb_spec d (dias_no_mes y m)); [|lia]. done.
Qed.

(** A date written YYYY-MM-DD is read as that date. *)
Lemma strptime_texto_Ymd d :
  data_valida d → strptime fmt_Ymd (texto_Ymd d) = Some d.
Proof.
  destruct d as [y m d]. intros (Hy & Hm & Hd). simpl in *.
  pose proof (dias_no_mes_31 y m).
  unfold strptime, texto_Ymd. simpl ano; simpl mes; simpl dia.
  destruct (alternativas_d_dois_algarismos d "") as [ld Hld]; [lia|].
  destruct (alternativas_m_dois_algarismos m ("-" +:+ dois_algarismos d))
    as [lm Hlm]; [lia|].
  assert (casar fmt_Ymd
            (quatro_algarismos y +:+ "-" +:+ dois_algarismos m +:+ "-"
             +:+ dois_algarismos d) campos_iniciais
          = Some (Campos y m d, "")) as ->.
  { change (casar fmt_Ymd ?s ?cs)
      with (primeiro
              (λ '(v, r), casar [D_lit "-"; D_m; D_lit "-"; D_d] r
                                (Campos v (c_m cs) (c_d cs)))
              (quatro s)).
    rewrite quatro_quatro_algarismos by lia. apply primeiro_cabeca.
    change (casar [D_lit "-"; D_m; D_lit "-"; D_d] ("-" +:+ ?s) ?cs)
      with (primeiro
              (λ '(v, r), casar [D_lit "-"; D_d] r (Campos (c_Y cs) v (c_d cs)))
              (alternativas_m s)).
    rewrite Hlm. apply primeiro_cabeca.
    change (casar [D_lit "-"; D_d] ("-" +:+ ?s) ?cs)
      with (primeiro
              (λ '(v, r), casar [] r (Campos (c_Y cs) (c_m cs) v))
              (alternativas_d s)).
    change (dois_algarismos d) with (dois_algarismos d +:+ "").
    rewrite Hld. done. }
  simpl c_Y; simpl c_m; simpl c_d.
  destruct (Z.leb_spec 1 y); [|lia]. destruct (Z.leb_spec 1 d); [|lia].
  destruct (Z.leb_spec d (dias_no_mes y m)); [|lia]. done.
Qed.

(** *** The order of dates is the order of their day numbers *)

Lemma dias_antes_do_ano_succ y :
  dias_antes_do_ano (y + 1)
  = dias_antes_do_ano y + 365 + (if bissexto y then 1 else 0).
Proof.
  unfold dias_antes_do_ano, bissexto.
  replace (y + 1 - 1) with y by lia.
  destruct (Z.eqb_spec (y mod 4) 0), (Z.eqb_spec (y mod 100) 0),
    (Z.eqb_spec (y mod 400) 0); simpl; Z.div_mod_to_equations; lia.
Qed.

Lemma dias_antes_do_ano_mono y1 y2 :
  y1 ≤ y2 → dias_antes_do_ano y1 ≤ dias_antes_do_ano y2.
Proof.
  intros H. replace y2 with (y1 + (y2 - y1)) by lia.
  assert (0 ≤ y2 - y1) as Hn by lia. revert Hn.
  generalize (y2 - y1). clear.
  apply (natlike_ind (λ n, dias_antes_do_ano y1 ≤ dias_antes_do_ano (y1 + n)));
    [by rewrite Z.add_0_r|].
  intros n Hn IH. replace (y1 + Z.succ n) with (y1 + n + 1) by lia.
  rewrite dias_antes_do_ano_succ. destruct (bissexto (y1 + n)); lia.
Qed.

Lemma mes_casos m :
  1 ≤ m ≤ 12 →
  m = 1 ∨ m = 2 ∨ m = 3 ∨ m = 4 ∨ m = 5 ∨ m = 6 ∨ m = 7 ∨ m = 8 ∨ m = 9
  ∨ m = 10 ∨ m = 11 ∨ m = 12.
Proof. lia. Qed.

Lemma dias_antes_do_mes_mono y m1 m2 :
  1 ≤ m1 → m1 < m2 → m2 ≤ 12 →
  dias_antes_do_mes y m1 + dias_no_mes y m1 ≤ dias_antes_do_mes y m2.
Proof.
  intros H1 H12 H2.
  pose proof (mes_casos m1 ltac:(lia)) as Hc1.
  pose proof (mes_casos m2 ltac:(lia)) as Hc2.
  unfold dias_antes_do_mes, dias_no_mes.
  repeat destruct Hc1 as [->|Hc1]; try subst m1;
    repeat destruct Hc2 as [->|Hc2]; try subst m2; try lia;
    simpl; destruct (bissexto y); simpl; lia.
Qed.

Lemma dias_do_ano y m :
  1 ≤ m ≤ 12 →
  0 ≤ dias_antes_do_mes y m
  ∧ dias_antes_do_mes y m + dias_no_mes y m
    ≤ 365 + (if bissexto y then 1 else 0).
Proof.
  intros Hm. pose proof (mes_casos m Hm) as Hc.
  unfold dias_antes_do_mes, dias_no_mes.
  repeat destruct Hc as [->|Hc]; try subst m;
    simpl; destruct (bissexto y); simpl; lia.
Qed.

Lemma ordinal_antes a b :
  data_valida a → data_valida b →
  ano a < ano b
  ∨ (ano a = ano b ∧ (mes a < mes b ∨ (mes a = mes b ∧ dia a < dia b))) →
  ordinal a < ordinal b.
Proof.
  destruct a as [y1 m1 d1], b as [y2 m2 d2]. unfold data_valida, ordinal.
  simpl. intros (Hy1 & Hm1 & Hd1) (Hy2 & Hm2 & Hd2) H.
  pose proof (dias_do_ano y1 m1 Hm1). pose proof (dias_do_ano y2 m2 Hm2).
  destruct H as [Hy|[-> [Hm|[-> Hd]]]].
  - pose proof (dias_antes_do_ano_mono (y1 + 1) y2 ltac:(lia)) as Hmono.
    rewrite dias_antes_do_ano_succ in Hmono. lia.
  - pose proof (dias_antes_do_mes_mono y2 m1 m2 ltac:(lia) Hm ltac:(lia)). lia.
  - lia.
Qed.

(** [date.__lt__] compares the day numbers of two calendar dates. *)
Lemma ordinal_ordem a b :
  data_valida a → data_valida b →
  (ano a < ano b
   ∨ (ano a = ano b ∧ (mes a < mes b ∨ (mes a = mes b ∧ dia a < dia b))))
  ↔ ordinal a < ordinal b.
Proof.
  intros Ha Hb. split; [by apply ordinal_antes|]. intros Hlt.
  destruct (decide (ano a < ano b)) as [|Hy]; [by left|].
  destruct (decide (ano b < ano a)) as [Hy'|Hy'].
  { pose proof (ordinal_antes b a Hb Ha ltac:(by left)). lia. }
  right. split; [lia|].
  destruct (decide (mes a < mes b)) as [|Hm]; [by left|].
  destruct (decide (mes b < mes a)) as [Hm'|Hm'].
  { pose proof (ordinal_antes b a Hb Ha ltac:(right; split; [lia|by left])). lia. }
  right. split; [lia|].
  destruct (decide (dia a < dia b)) as [|Hd]; [done|].
  destruct a as [y1 m1 d1], b as [y2 m2 d2]. unfold ordinal in Hlt.
  simpl in *. assert (y1 = y2) as -> by lia. assert (m1 = m2) as -> by lia.
  lia.
Qed.

(** C8. The expired items of the dashboard are exactly the stored items
    whose [validade_ca] reads as a day/month/year date strictly before
    [hoje] (an earlier year, or the same year and an earlier month, or the
    same month and an earlier day), each listed once: an item whose text
    does not parse is left out, and so is an item whose date is [hoje] or
    later. In particular an item whose text is a calendar date written
    DD/MM/YYYY is listed exactly when the day number of that date is below
    the day number of [hoje], and so is one written D/M/YYYY, without the
    leading zeros. *)
Theorem C8_vencidos hoje db :
  NoDup (vencidos hoje db)
  ∧ (∀ id e,
       (id, e) ∈ vencidos hoje db
       ↔ epi db !! id = Some e
         ∧ ∃ validade,
             strptime fmt_dmY (Epi.validade_ca e) = Some validade
             ∧ (ano validade < ano hoje
                ∨ (ano validade = ano hoje
                   ∧ (mes validade < mes hoje
                      ∨ (mes validade = mes hoje
                         ∧ dia validade < dia hoje)))))
  ∧ (∀ id e, strptime fmt_dmY (Epi.validade_ca e) = None →
             (id, e) ∉ vencidos hoje db)
  ∧ (∀ id e validade,
       strptime fmt_dmY (Epi.validade_ca e) = Some validade →
       validade = hoje
       ∨ (ano hoje < ano validade
          ∨ (ano hoje = ano validade
             ∧ (mes hoje < mes validade
                ∨ (mes hoje = mes validade ∧ dia hoje < dia validade)))) →
       (id, e) ∉ vencidos hoje db)
  ∧ (∀ id e d,
       epi db !! id = Some e →
       data_valida d → data_valida hoje →
       Epi.validade_ca e = texto_dmY d
       ∨ Epi.validade_ca e = texto_dmY_curto d →
       ((id, e) ∈ vencidos hoje db ↔ ordinal d < ordinal hoje)).
Proof.
  assert (∀ id e,
            (id, e) ∈ vencidos hoje db
            ↔ epi db !! id = Some e
              ∧ ∃ validade, strptime fmt_dmY (Epi.validade_ca e) = Some validade
                            ∧ data_lt validade hoje = true) as Hiff.
  { intros id e. unfold vencidos. rewrite laco_vencidos_filter. simpl.
    rewrite list_elem_of_filter, elem_of_map_to_list. simpl. unfold vencido.
    split.
    - intros [Hv He]. split; [done|].
      destruct (strptime fmt_dmY (Epi.validade_ca e)) as [v|]; [|done].
      exists v. split; [done|]. by apply Is_true_true.
    - intros [He (v & Hv & Hlt)]. split; [|done].
      rewrite Hv. by apply Is_true_true. }
  split; [|split; [|split; [|split]]].
  - unfold vencidos. rewrite laco_vencidos_filter. simpl.
    apply NoDup_filter, NoDup_map_to_list.
  - intros id e. rewrite Hiff. split.
    + intros [He (v & Hv & Hlt)]. split; [done|]. exists v.
      split; [done|]. by apply data_lt_ordem.
    + intros [He (v & Hv & Hlt)]. split; [done|]. exists v.
      split; [done|]. by apply data_lt_ordem.
  - intros id e Hnone Hin. apply Hiff in Hin as [_ (v & Hv & _)]. congruence.
  - intros id e validade Hv Hnao Hin.
    apply Hiff in Hin as [_ (v & Hv' & Hlt)].
    assert (v = validade) as -> by congruence.
    destruct Hnao as [-> | Hdepois].
    + by rewrite data_lt_irrefl in Hlt.
    + apply data_lt_ordem in Hdepois. apply data_lt_asym in Hdepois.
      congruence.
  - intros id e d He Hd Hhoje Htexto. rewrite Hiff.
    assert (strptime fmt_dmY (Epi.validade_ca e) = Some d) as ->.
    { destruct Htexto as [-> | ->];
        [by apply strptime_texto_dmY | by apply strptime_texto_dmY_curto]. }
    rewrite <- (ordinal_ordem d hoje Hd Hhoje), <- data_lt_ordem. split.
    + by intros [_ (v & [= <-] & Hlt)].
    + intros Hlt. split; [done|]. by exists d.
Qed.

Lemma C8_vencidos_witness :
  let db := executar [(admin, OpCadastrar (form_capacete 20))] db_inicial in
  let luva := Epi.Novo "Luva" "777" "01/01/２０２０" 5 "" "" in
  (1, Epi.Novo "Helmet" "12345" "31/12/2030" 20 "H-01" "") ∈ vencidos (Data 2031 1 1) db
  ∧ ((1, Epi.Novo "Helmet" "12345" "31/12/2030" 20 "H-01" "") ∉ vencidos (Data 2030 12 31) db)
  ∧ ((1, Epi.Novo "Helmet" "12345" "31/12/2030" 20 "H-01" "") ∈ vencidos (Data 2031 1 1) db
     ↔ ordinal (Data 2030 12 31) < ordinal (Data 2031 1 1))
  ∧ (7, luva) ∈ vencidos (Data 2020 1 2) (Banco {[7 := luva]} ∅ ∅ ∅ ∅).
Proof.
  split; [|split; [|split]].
  - apply (proj1 (proj2 (C8_vencidos (Data 2031 1 1) db_capacete))).
    split; [reflexivity|]. exists (Data 2030 12 31).
    split; [reflexivity|]. left. simpl. lia.
  - apply (proj1 (proj2 (proj2 (proj2 (C8_vencidos (Data 2030 12 31) db_capacete))))
             1 _ (Data 2030 12 31)); [reflexivity | left; reflexivity].
  - apply (proj2 (proj2 (proj2 (proj2 (C8_vencidos (Data 2031 1 1) db_capacete))))
             1 _ (Data 2030 12 31)); [reflexivity | | | left; reflexivity];
      (split; [|split]); simpl; vm_compute; split; discriminate.
  - apply (proj1 (proj2 (C8_vencidos (Data 2020 1 2)
                           (Banco {[7 := Epi.Novo "Luva" "777" "01/01/２０２０" 5 "" ""]}
                                  ∅ ∅ ∅ ∅)))).
    split; [reflexivity|]. exists (Data 2020 1 1).
    split; [reflexivity|]. right. split; [reflexivity|]. right.
    split; [reflexivity|]. simpl. lia.
Defined.

(** ** C9 *)

(** C9. For an employee whose stored secret is [None] or the empty string,
    the secret check of a delivery passes exactly when the supplied secret
    is empty (an absent field counts as empty), so such a delivery goes
    through with an empty secret; and for any employee the wrong-secret
    message is the answer if and only if the supplied secret differs from
    the stored one with [None] read as the empty string. *)
Theorem C9_senha_vazia ctx db form fid eid q f e :
  valor_ou (fe_funcionario_id form) 0 = Some fid →
  valor_ou (fe_epi_id form) 0 = Some eid →
  valor_ou (fe_quantidade form) 0 = Some q →
  funcionario db !! fid = Some f →
  epi db !! eid = Some e →
  let r := (servir (entregar_epi ctx form) db).1 in
  (r = Redireciona SenhaIncorreta
   ↔ ou (fe_senha_validacao form) "" ≠ ou (Funcionario.senha_validacao f) "")
  ∧ (Funcionario.senha_validacao f = None ∨ Funcionario.senha_validacao f = Some "" →
     (r ≠ Redireciona SenhaIncorreta ↔ ou (fe_senha_validacao form) "" = "")
     ∧ (ou (fe_senha_validacao form) "" = "" →
        0 < q → q ≤ Epi.quantidade e →
        is_Some (validade_data (fe_validade_entrega form)) →
        (∀ n, falha ctx n = false) →
        r = Redireciona Entregue)).
Proof.
  intros Hfid Hid Hq Hf He r. subst r.
  pose proof (entregar_epi_senha ctx db form fid eid q f e Hfid Hid Hq Hf He) as Hs.
  split.
  - rewrite Hs. split; intros H1 H2; by apply H1.
  - intros Hvazia.
    assert (ou (Funcionario.senha_validacao f) "" = "") as Hou
        by (destruct Hvazia as [-> | ->]; done).
    rewrite Hou in Hs. split.
    + rewrite Hs. split.
      * intros H. destruct (decide (ou (fe_senha_validacao form) "" = "")) as [|Hne];
          [done|]. exfalso. apply H. intros Heq. by apply Hne.
      * intros Heq H. by apply H.
    + intros Hsenha H0 Hn [vd Hvd] Hc.
      erewrite entregar_epi_passos; [|done|done|done|done|done| |done|done|done].
      * by rewrite !Hc.
      * by rewrite Hou, Hsenha.
Qed.

Lemma C9_senha_vazia_witness :
  (servir (entregar_epi admin (form_entrega 2 1 3 None)) db_capacete).1
  = Redireciona Entregue
  ∧ (servir (entregar_epi admin (form_entrega 2 1 3 (Some "x"))) db_capacete).1
    = Redireciona SenhaIncorreta.
Proof.
  split.
  - pose proof (C9_senha_vazia admin db_capacete (form_entrega 2 1 3 None) 2 1 3 bia
                  (Epi.Novo "Helmet" "12345" "31/12/2030" 20 "H-01" "")) as H.
    destruct H as [_ H];
      [reflexivity | reflexivity | reflexivity | reflexivity | reflexivity |].
    destruct H as [_ H]; [left; reflexivity|].
    apply H; [reflexivity | lia | simpl; lia | eexists; reflexivity | reflexivity].
  - pose proof (C9_senha_vazia admin db_capacete (form_entrega 2 1 3 (Some "x")) 2 1 3 bia
                  (Epi.Novo "Helmet" "12345" "31/12/2030" 20 "H-01" "")) as H.
    destruct H as [H _];
      [reflexivity | reflexivity | reflexivity | reflexivity | reflexivity |].
    apply H. discriminate.
Defined.

(** ** C10 *)

(** C10. Deleting an employee (the commit going through) removes exactly
    the Delivery rows of that employee and the employee; every item, with
    its quantity, and every history row is left as it was: units still out
    are not put back on the shelf and nothing is written to the history. *)
Theorem C10_deletar_funcionario ctx db id func :
  funcionario db !! id = Some func →
  falha ctx 0%nat = false →
  let db' := (servir (deletar_funcionario ctx id) db).2 in
  (∀ k entrega,
     entrega_epi db' !! k = Some entrega
     ↔ entrega_epi db !! k = Some entrega ∧ EntregaEpi.funcionario_id entrega ≠ id)
  ∧ funcionario db' = delete id (funcionario db)
  ∧ epi db' = epi db
  ∧ historico_epi db' = historico_epi db.
Proof.
  intros Hf Hc db'. subst db'.
  rewrite (deletar_funcionario_passos ctx db id func Hf), Hc.
  assert (∀ k entrega,
            entrega_epi (apos_delete_funcionario db id) !! k = Some entrega
            ↔ entrega_epi db !! k = Some entrega
              ∧ EntregaEpi.funcionario_id entrega ≠ id) as Hent.
  { intros k entrega. simpl. by rewrite map_lookup_filter_Some. }
  destruct (falha ctx 1%nat); simpl; (split; [exact Hent|done]).
Qed.

Lemma C10_deletar_funcionario_witness :
  let db' := (servir (deletar_funcionario admin 1) db_entregue).2 in
  entrega_epi db' !! 1 = None
  ∧ Epi.quantidade <$> epi db' !! 1 = Some 15
  ∧ historico_epi db' = historico_epi db_entregue.
Proof.
  pose proof (C10_deletar_funcionario admin db_entregue 1 ana) as H.
  destruct H as (Hent & _ & Hepi & Hhist); [reflexivity | reflexivity |].
  split.
  - destruct (entrega_epi _ !! 1) as [x|] eqn:Hx; [|reflexivity].
    apply Hent in Hx as [Hx Hne]. exfalso. apply Hne.
    vm_compute in Hx. injection Hx as <-. reflexivity.
  - split; [rewrite Hepi; reflexivity | exact Hhist].
Defined.

(** * Further properties of the routes *)

(** ** Every stored state a route can leave *)

Lemma epis_estados ctx db form :
  (servir (epis ctx form) db).2 = db
  ∨ ∃ q,
      valor_ou (f_quantidade form) 0 = Some q
      ∧ 0 ≤ q
      ∧ strip (ou (f_nome form) "") ≠ ""
      ∧ strip (ou (f_validade_ca form) "") ≠ ""
      ∧ falha ctx 0%nat = false
      ∧ let k := proximo_id (epi db) in
        let d1 := com_epi db k (epi_do_form form q) in
        let d2 := com_historico d1 (linha_historico ctx k "Cadastro" q) in
        let d3 := com_log d2 (linha_log ctx ("Cadastrou novo EPI: "
                                             +:+ strip (ou (f_nome form) ""))) in
        servir (epis ctx form) db
        = if falha ctx 1%nat then (Erro500, d1)
          else if falha ctx 2%nat then (Erro500, d2)
          else (Redireciona EpiCadastrado, d3).
Proof.
  unfold epis. desmonta.
  destruct (valor_ou (f_quantidade form) 0) as [q|]; simpl; [|by left].
  destruct (vazia (strip (ou (f_nome form) ""))) eqn:Hn; simpl; [by left|].
  destruct (vazia (strip (ou (f_validade_ca form) ""))) eqn:Hv; simpl; [by left|].
  destruct (Z.ltb_spec q 0); simpl; [by left|].
  destruct (falha ctx 0%nat); simpl; [by left|].
  right. exists q. repeat split; try done.
  - intros Heq. by rewrite Heq in Hn.
  - intros Heq. by rewrite Heq in Hv.
  - destruct (falha ctx 1%nat); simpl; [done|].
    destruct (falha ctx 2%nat); simpl; done.
Qed.

Lemma editar_epi_estados ctx db id form :
  match epi db !! id with
  | None => servir (editar_epi ctx id form) db = (Aborta404, db)
  | Some e0 =>
      match valor_ou (f_quantidade form) (Epi.quantidade e0) with
      | None => servir (editar_epi ctx id form) db = (Erro500, db)
      | Some q =>
          let row := epi_editado e0 form q in
          let d1 := com_epi db id row in
          let l := linha_log ctx ("Editou EPI: " +:+ Epi.nome row) in
          servir (editar_epi ctx id form) db
          = if falha ctx 0%nat then (Erro500, db)
            else if bool_decide (q ≠ Epi.quantidade e0) then
              let d2 := com_historico d1
                          (linha_historico ctx id "Ajuste de Estoque"
                                           (q - Epi.quantidade e0)) in
              if falha ctx 1%nat then (Erro500, d1)
              else if falha ctx 2%nat then (Erro500, d2)
              else (Redireciona EpiAtualizado, com_log d2 l)
            else
              if falha ctx 1%nat then (Erro500, d1)
              else (Redireciona EpiAtualizado, com_log d1 l)
      end
  end.
Proof.
  unfold editar_epi. desmonta.
  destruct (epi db !! id) as [e0|]; simpl; [|done].
  destruct (valor_ou (f_quantidade form) (Epi.quantidade e0)) as [q|]; simpl; [|done].
  destruct (falha ctx 0%nat); simpl; [done|].
  case_bool_decide; simpl.
  - destruct (falha ctx 1%nat); simpl; [done|].
    destruct (falha ctx 2%nat); simpl; done.
  - destruct (falha ctx 1%nat); simpl; done.
Qed.

Lemma deletar_epi_estados ctx db id :
  match epi db !! id with
  | None => servir (deletar_epi ctx id) db = (Aborta404, db)
  | Some e =>
      let d1 := com_historico db (linha_historico ctx id "Exclusão" 0) in
      let d2 := com_log d1 (linha_log ctx ("Excluiu EPI: " +:+ Epi.nome e)) in
      servir (deletar_epi ctx id) db
      = if falha ctx 0%nat then (Erro500, db)
        else if falha ctx 1%nat then (Erro500, d1)
        else if falha ctx 2%nat then (Erro500, d2)
        else (Redireciona EpiRemovido, sem_epi d2 id)
  end.
Proof.
  unfold deletar_epi, delete_epi. desmonta.
  destruct (epi db !! id) as [e|]; simpl; [|done].
  destruct (falha ctx 0%nat); simpl; [done|].
  destruct (falha ctx 1%nat); simpl; [done|].
  destruct (falha ctx 2%nat); simpl; done.
Qed.

Lemma definir_senha_funcionario_estados ctx db id senha :
  match funcionario db !! id with
  | None => servir (definir_senha_funcionario ctx id senha) db = (Aborta404, db)
  | Some func =>
      let d1 := com_funcionario db id
                  (Funcionario.com_senha_validacao func (Some (ou senha ""))) in
      servir (definir_senha_funcionario ctx id senha) db
      = if falha ctx 0%nat then (Erro500, db)
        else if falha ctx 1%nat then (Erro500, d1)
        else (Redireciona SenhaCadastrada,
              com_log d1 (linha_log ctx ("Definiu senha de validação para "
                                         +:+ Funcionario.nome func)))
  end.
Proof.
  unfold definir_senha_funcionario. desmonta.
  destruct (funcionario db !! id) as [func|]; simpl; [|done].
  destruct (falha ctx 0%nat); simpl; [done|].
  destruct (falha ctx 1%nat); simpl; done.
Qed.

(** ** X1, X2: [/epis] *)

(** X1. A registration whose name or certificate date is empty once
    stripped (a name of blanks counts as empty), or whose quantity is
    negative, is refused with the fill-in message and stores nothing; a
    quantity [int] cannot read ends in the 500 page, nothing stored either.
    With a readable quantity the fill-in message is given in exactly those
    cases. *)
Theorem X1_epis_recusa ctx db form :
  (valor_ou (f_quantidade form) 0 = None →
   servir (epis ctx form) db = (Erro500, db))
  ∧ ∀ q, valor_ou (f_quantidade form) 0 = Some q →
      ((servir (epis ctx form) db).1 = Redireciona PreenchaCamposEpi
       ↔ strip (ou (f_nome form) "") = ""
         ∨ strip (ou (f_validade_ca form) "") = ""
         ∨ q < 0)
      ∧ ((servir (epis ctx form) db).1 = Redireciona PreenchaCamposEpi →
         (servir (epis ctx form) db).2 = db).
Proof.
  split.
  - intros Hq. unfold epis. desmonta. by rewrite Hq.
  - intros q Hq. unfold epis. desmonta. rewrite Hq. simpl.
    destruct (strip (ou (f_nome form) "")) eqn:Hn; simpl.
    { split; [|done]. split; [|done]. intros _. by left. }
    destruct (strip (ou (f_validade_ca form) "")) eqn:Hv; simpl.
    { split; [|done]. split; [|done]. intros _. right. by left. }
    destruct (Z.ltb_spec q 0); simpl.
    { split; [|done]. split; [|done]. intros _. right. by right. }
    assert (∀ r d, r ≠ Redireciona PreenchaCamposEpi →
              (r = Redireciona PreenchaCamposEpi
                 ↔ String a s = "" ∨ String a0 s0 = "" ∨ q < 0)
              ∧ (r = Redireciona PreenchaCamposEpi → d = db)) as Hnao.
    { intros r d Hr. split; [|done]. split; [done|].
      intros [?|[?|?]]; [done|done|lia]. }
    destruct (falha ctx 0%nat); simpl; [by apply Hnao|].
    destruct (falha ctx 1%nat); simpl; [by apply Hnao|].
    destruct (falha ctx 2%nat); simpl; by apply Hnao.
Qed.

Lemma X1_epis_recusa_witness :
  servir (epis admin (MkFormEpi (Some "   ") None None (Some "31/12/2030")
                                (Inteiro 3) None)) db_inicial
  = (Redireciona PreenchaCamposEpi, db_inicial)
  ∧ servir (epis admin (form_capacete (-1))) db_inicial
    = (Redireciona PreenchaCamposEpi, db_inicial)
  ∧ servir (epis admin (MkFormEpi (Some (String "194" (String "160" "")))
                                  None None (Some "31/12/2030")
                                  (Inteiro 3) None)) db_inicial
    = (Redireciona PreenchaCamposEpi, db_inicial).
Proof.
  split; [|split].
  - destruct (proj2 (X1_epis_recusa admin db_inicial
                       (MkFormEpi (Some "   ") None None (Some "31/12/2030")
                                  (Inteiro 3) None)) 3 eq_refl) as [Hr Hdb].
    apply injective_projections; [apply Hr; left; reflexivity|].
    apply Hdb, Hr. left. reflexivity.
  - destruct (proj2 (X1_epis_recusa admin db_inicial (form_capacete (-1))) (-1) eq_refl)
      as [Hr Hdb].
    apply injective_projections; [apply Hr; right; right; lia|].
    apply Hdb, Hr. right. right. lia.
  - destruct (proj2 (X1_epis_recusa admin db_inicial
                       (MkFormEpi (Some (String "194" (String "160" "")))
                                  None None (Some "31/12/2030")
                                  (Inteiro 3) None)) 3 eq_refl) as [Hr Hdb].
    apply injective_projections; [apply Hr; left; reflexivity|].
    apply Hdb, Hr. left. reflexivity.
Defined.

(** X2. A valid registration whose commits go through stores the item at
    a key no item held, with the form's texts stripped and the typed
    quantity, keeps every item already stored, and writes one history row
    "Cadastro" pointing at the new key with the opening quantity. Deliveries
    and employees are untouched. *)
Theorem X2_epis_cadastra ctx db form q :
  (∀ n, falha ctx n = false) →
  valor_ou (f_quantidade form) 0 = Some q →
  0 ≤ q →
  strip (ou (f_nome form) "") ≠ "" →
  strip (ou (f_validade_ca form) "") ≠ "" →
  let r := servir (epis ctx form) db in
  let k := proximo_id (epi db) in
  r.1 = Redireciona EpiCadastrado
  ∧ epi db !! k = None
  ∧ epi r.2 = <[k := epi_do_form form q]> (epi db)
  ∧ (∀ id e, epi db !! id = Some e → epi r.2 !! id = Some e)
  ∧ historico_epi r.2
    = <[proximo_id (historico_epi db) := linha_historico ctx k "Cadastro" q]>
        (historico_epi db)
  ∧ entrega_epi r.2 = entrega_epi db
  ∧ funcionario r.2 = funcionario db.
Proof.
  intros Hc Hq H0 Hn Hv r k. subst r k.
  destruct (epis_estados ctx db form) as [H|(q' & Hq' & _ & _ & _ & _ & H)].
  - exfalso. revert H. unfold epis. desmonta. rewrite Hq. simpl.
    destruct (strip (ou (f_nome form) "")); [done|].
    destruct (strip (ou (f_validade_ca form) "")); [done|]. simpl.
    destruct (Z.ltb_spec q 0) as [Hlt|Hge]; [lia|]. simpl. rewrite !Hc. simpl.
    intros Heq. apply (f_equal epi) in Heq. simpl in Heq.
    apply (f_equal (λ m, m !! proximo_id (epi db))) in Heq.
    by rewrite lookup_insert_eq, proximo_id_livre in Heq.
  - assert (q' = q) as -> by congruence.
    simpl in H. rewrite H, !Hc. simpl.
    pose proof (proximo_id_livre (epi db)) as Hk.
    repeat split; try done.
    intros id e He. rewrite lookup_insert_ne; [done|]. intros <-. congruence.
Qed.

Lemma X2_epis_cadastra_witness :
  let r := servir (epis admin (form_capacete 20)) db_inicial in
  r.1 = Redireciona EpiCadastrado
  ∧ epi r.2 !! 1 = Some (Epi.Novo "Helmet" "12345" "31/12/2030" 20 "H-01" "")
  ∧ HistoricoEpi.acao <$> historico_epi r.2 !! 1 = Some "Cadastro".
Proof.
  pose proof (X2_epis_cadastra admin db_inicial (form_capacete 20) 20) as H.
  destruct H as (Hr & _ & He & _ & Hh & _);
    [reflexivity | reflexivity | lia | discriminate | discriminate |].
  split; [exact Hr|].
  split; [rewrite He; reflexivity | rewrite Hh; reflexivity].
Defined.

(** ** X3: [/editar_epi] and the history *)

(** X3. An edit of a stored item whose first two commits go through
    leaves the item with the typed quantity, or with the old one when the
    field is empty; it writes a history row exactly when the quantity
    changed, "Ajuste de Estoque" with the signed difference new - old, and
    leaves the history as it was otherwise. *)
Theorem X3_editar_epi_historico ctx db id form e0 q :
  falha ctx 0%nat = false →
  falha ctx 1%nat = false →
  epi db !! id = Some e0 →
  valor_ou (f_quantidade form) (Epi.quantidade e0) = Some q →
  let db' := (servir (editar_epi ctx id form) db).2 in
  epi db' = <[id := epi_editado e0 form q]> (epi db)
  ∧ (f_quantidade form = Vazio → q = Epi.quantidade e0)
  ∧ (q = Epi.quantidade e0 → historico_epi db' = historico_epi db)
  ∧ (q ≠ Epi.quantidade e0 →
     historico_epi db'
     = <[proximo_id (historico_epi db) :=
           linha_historico ctx id "Ajuste de Estoque" (q - Epi.quantidade e0)]>
         (historico_epi db)).
Proof.
  intros Hc0 Hc1 He Hq db'. subst db'.
  pose proof (editar_epi_estados ctx db id form) as H.
  rewrite He, Hq in H. simpl in H. rewrite H, Hc0, Hc1. clear H.
  split; [|split; [|split]].
  - case_bool_decide; [destruct (falha ctx 2%nat)|]; done.
  - intros Hv. rewrite Hv in Hq. simpl in Hq. congruence.
  - intros ->. by rewrite bool_decide_eq_false_2 by (intros H; by apply H).
  - intros Hne. rewrite bool_decide_eq_true_2 by done.
    destruct (falha ctx 2%nat); done.
Qed.

Lemma X3_editar_epi_historico_witness :
  let db' := (servir (editar_epi admin 1 (form_capacete 12)) db_capacete).2 in
  Epi.quantidade <$> epi db' !! 1 = Some 12
  ∧ (λ h, (HistoricoEpi.acao h, HistoricoEpi.quantidade h))
      <$> historico_epi db' !! 2 = Some ("Ajuste de Estoque", -8).
Proof.
  pose proof (X3_editar_epi_historico admin db_capacete 1 (form_capacete 12)
                (Epi.Novo "Helmet" "12345" "31/12/2030" 20 "H-01" "") 12) as H.
  destruct H as (He & _ & _ & Hh);
    [reflexivity | reflexivity | reflexivity | reflexivity |].
  split; [rewrite He; reflexivity|].
  rewrite Hh; [reflexivity | discriminate].
Defined.

(** ** [str.strip] *)

Lemma ponto_menor s p r :
  ponto s = Some (p, r) → (String.length r < String.length s)%nat.
Proof.
  unfold ponto. intros H.
  repeat case_match; simplify_eq; simpl; lia.
Qed.

Lemma ponto_app s p r w :
  ponto s = Some (p, r) → ponto (s +:+ w) = Some (p, r +:+ w).
Proof.
  unfold ponto. intros H.
  destruct s as [|c1 [|c2 [|c3 [|c4 s]]]]; simpl in *;
    repeat case_match; simplify_eq; done.
Qed.

Lemma corta_menor s r :
  corta s = Some r → (String.length r < String.length s)%nat.
Proof.
  unfold corta. destruct (ponto s) as [[p r']|] eqn:Hp; [|done].
  destruct (isspace p); [|done]. intros [= <-]. by eapply ponto_menor.
Qed.

Lemma corta_app s r w : corta s = Some r → corta (s +:+ w) = Some (r +:+ w).
Proof.
  unfold corta. destruct (ponto s) as [[p r']|] eqn:Hp; [|done].
  rewrite (ponto_app _ _ _ w Hp). destruct (isspace p); [|done].
  by intros [= <-].
Qed.

(** More turns than the text has bytes change nothing. *)
Lemma lstrip_ate_basta n m s :
  (String.length s ≤ n)%nat → (String.length s ≤ m)%nat →
  lstrip_ate n s = lstrip_ate m s.
Proof.
  revert m s. induction n as [|n IH]; intros m s Hn Hm.
  - destruct s; [|simpl in Hn; lia]. by destruct m.
  - destruct m as [|m]; [destruct s; [done|simpl in Hm; lia]|].
    simpl. destruct (corta s) as [r|] eqn:Hc; [|done].
    apply corta_menor in Hc. apply IH; lia.
Qed.

(** The loop of [lstrip], one turn unfolded. *)
Lemma lstrip_corta s :
  lstrip s = match corta s with Some r => lstrip r | None => s end.
Proof.
  unfold lstrip. destruct s as [|c s]; [done|].
  change (lstrip_ate (String.length (String c s)) (String c s))
    with (match corta (String c s) with
          | Some r => lstrip_ate (String.length s) r
          | None => String c s
          end).
  destruct (corta (String c s)) as [r|] eqn:Hc; [|done].
  apply corta_menor in Hc. simpl in Hc. apply lstrip_ate_basta; lia.
Qed.

(** [lstrip] runs to the end: no white space is left at the head. *)
Lemma corta_lstrip s : corta (lstrip s) = None.
Proof.
  remember (String.length s) as n eqn:Hn. revert s Hn.
  induction n as [n IH] using lt_wf_ind. intros s ->.
  rewrite lstrip_corta. destruct (corta s) as [r|] eqn:Hc; [|done].
  eapply IH; [|done]. by apply corta_menor.
Qed.

Lemma lstrip_fixo s : corta s = None → lstrip s = s.
Proof. intros H. by rewrite lstrip_corta, H. Qed.

Lemma rstrip_cons c r :
  rstrip (String c r)
  = if vazia (lstrip (String c r)) then "" else String c (rstrip r).
Proof. done. Qed.

Lemma vazia_true s : vazia s = true ↔ s = "".
Proof. by destruct s. Qed.

(** What [rstrip] takes off is white space. *)
Lemma rstrip_resto s : ∃ w, s = rstrip s +:+ w ∧ lstrip w = "".
Proof.
  induction s as [|c r (w & Hw & Hl)]; [by exists ""|].
  rewrite rstrip_cons. destruct (vazia (lstrip (String c r))) eqn:Hv.
  - exists (String c r). split; [done|]. by apply vazia_true.
  - exists w. split; [|done].
    change (String c (rstrip r) +:+ w) with (String c (rstrip r +:+ w)).
    by rewrite <- Hw.
Qed.

Lemma lstrip_app_vazio a w :
  lstrip a = "" → lstrip w = "" → lstrip (a +:+ w) = "".
Proof.
  remember (String.length a) as n eqn:Hn. revert a Hn.
  induction n as [n IH] using lt_wf_ind. intros a -> Ha Hw.
  rewrite lstrip_corta in Ha. destruct (corta a) as [r|] eqn:Hc.
  - rewrite lstrip_corta, (corta_app _ _ w Hc).
    eapply IH; [|done..]. by apply corta_menor.
  - by subst a.
Qed.

Lemma rstrip_idem s : rstrip (rstrip s) = rstrip s.
Proof.
  induction s as [|c r IH]; [done|].
  rewrite rstrip_cons. destruct (vazia (lstrip (String c r))) eqn:Hv; [done|].
  rewrite rstrip_cons, IH.
  destruct (vazia (lstrip (String c (rstrip r)))) eqn:Hv'; [|done].
  apply vazia_true in Hv'. destruct (rstrip_resto r) as (w & Hw & Hl).
  pose proof (lstrip_app_vazio _ w Hv' Hl) as H.
  change (String c (rstrip r) +:+ w) with (String c (rstrip r +:+ w)) in H.
  rewrite <- Hw in H. by rewrite H in Hv.
Qed.

(** [rstrip] leaves the head of a text that has no white space there. *)
Lemma corta_rstrip s : corta s = None → corta (rstrip s) = None.
Proof.
  intros Hs. destruct (rstrip_resto s) as (w & Hw & _).
  destruct (corta (rstrip s)) as [r|] eqn:Hc; [|done].
  apply (corta_app _ _ w) in Hc. rewrite <- Hw in Hc. congruence.
Qed.

(** Stripping twice is stripping once. *)
Lemma strip_idem s : strip (strip s) = strip s.
Proof.
  unfold strip.
  rewrite (lstrip_fixo (rstrip (lstrip s))).
  - apply rstrip_idem.
  - apply corta_rstrip, corta_lstrip.
Qed.

Lemma strip_aparado s : aparado (strip s).
Proof. apply strip_idem. Qed.

(** ** X4, X5: stripped texts *)

(** What a request can do to the item table: nothing, one row written, or
    one row deleted; a written row keeps the texts of the row it replaces
    unless a registration or an edit wrote it. *)
Lemma rota_epi_tabela ctx op db :
  epi (servir (rota ctx op) db).2 = epi db
  ∨ (∃ k row, epi (servir (rota ctx op) db).2 = <[k := row]> (epi db)
              ∧ origem_linha db k row)
  ∨ (∃ k, epi (servir (rota ctx op) db).2 = delete k (epi db)).
Proof.
  destruct op as [form|id form|id|form|id q|id q|id s|id]; simpl.
  - destruct (epis_estados ctx db form) as [H|(q & _ & _ & _ & _ & _ & H)].
    + left. by rewrite H.
    + right. left. exists (proximo_id (epi db)), (epi_do_form form q).
      split; [|right; left; by eexists _, _].
      simpl in H. rewrite H.
      destruct (falha ctx 1%nat); [done|]. by destruct (falha ctx 2%nat).
  - pose proof (editar_epi_estados ctx db id form) as H.
    destruct (epi db !! id) as [e0|]; [|left; by rewrite H].
    destruct (valor_ou (f_quantidade form) (Epi.quantidade e0)) as [q|];
      [|left; by rewrite H].
    simpl in H. rewrite H.
    destruct (falha ctx 0%nat); [by left|].
    right. left. exists id, (epi_editado e0 form q).
    split; [|right; right; by eexists _, _, _].
    case_bool_decide; destruct (falha ctx 1%nat); try done;
      by destruct (falha ctx 2%nat).
  - pose proof (deletar_epi_estados ctx db id) as H.
    destruct (epi db !! id) as [e0|]; [|left; by rewrite H].
    simpl in H. rewrite H.
    destruct (falha ctx 0%nat); [by left|].
    destruct (falha ctx 1%nat); [by left|].
    destruct (falha ctx 2%nat); [by left|].
    right. right. by exists id.
  - destruct (entregar_epi_casos ctx db form)
      as [H|(fid & eid & q & f & e & vd & Hfid & Hid & Hq & Hf & He & Hs & H0 & Hn & Hv & Hc)].
    + left. by rewrite H.
    + right. left.
      exists eid, (Epi.com_quantidade e (Z.max (Epi.quantidade e - q) 0)).
      split; [|left; by exists e].
      erewrite entregar_epi_passos by done. rewrite Hc.
      destruct (falha ctx 1%nat); [done|]. by destruct (falha ctx 2%nat).
  - destruct (devolver_epi_casos ctx db id q)
      as [H|(entrega & e & r & Hr & Hent & Hfin & He & H0 & Hm & H)].
    + left. by rewrite H.
    + right. left. rewrite H.
      exists (EntregaEpi.epi_id entrega), (Epi.com_quantidade e (Epi.quantidade e + r)).
      split; [done|]. left. by exists e.
  - destruct (descartar_epi_casos ctx db id q)
      as [H|(entrega & r & Hr & Hent & Hfin & H0 & Hm & H)]; left; by rewrite H.
  - left. apply definir_senha_funcionario_estoque.
  - left. destruct (funcionario db !! id) as [func|] eqn:Hf.
    + erewrite deletar_funcionario_passos by done.
      destruct (falha ctx 0%nat); [done|]. by destruct (falha ctx 1%nat).
    + by erewrite deletar_funcionario_404.
Qed.

Lemma rota_epi_linhas ctx op db id e' :
  epi (servir (rota ctx op) db).2 !! id = Some e' →
  origem_linha db id e'.
Proof.
  destruct (rota_epi_tabela ctx op db) as [->|[(k & row & -> & Ho)|(k & ->)]].
  - intros He. left. by exists e'.
  - destruct (decide (k = id)) as [->|Hne].
    + rewrite lookup_insert_eq. by intros [= <-].
    + rewrite lookup_insert_ne by done. intros He. left. by exists e'.
  - intros [_ He]%lookup_delete_Some. left. by exists e'.
Qed.

(** X4. Every route keeps the texts of the items stripped: if no stored
    name, code, certificate number or certificate date starts or ends with
    blanks before a request, none does after it, whatever the request and
    whichever commits fail. *)
Theorem X4_textos_aparados ctx op db :
  textos_aparados db →
  textos_aparados (servir (rota ctx op) db).2.
Proof.
  intros Hinv id e' He'.
  destruct (rota_epi_linhas ctx op db id e' He')
    as [(e & He & Hn & Hca & Hv & Hcod)|[(form & q & ->)|(e0 & form & q & ->)]].
  - destruct (Hinv id e He) as (? & ? & ? & ?).
    unfold aparado. by rewrite Hn, Hca, Hv, Hcod.
  - repeat split; apply strip_aparado.
  - repeat split; apply strip_aparado.
Qed.

Lemma X4_textos_aparados_witness :
  textos_aparados
    (servir (rota admin (OpCadastrar
               (MkFormEpi (Some "  Luva  ") None None (Some " 01/02/2031") Vazio None)))
            db_capacete).2.
Proof.
  apply X4_textos_aparados.
  intros id e He.
  assert (epi db_capacete
          = {[1 := Epi.Novo "Helmet" "12345" "31/12/2030" 20 "H-01" ""]}) as Heq
    by reflexivity.
  rewrite Heq in He. apply lookup_singleton_Some in He as [_ <-].
  repeat split; reflexivity.
Defined.

(** X5. An empty field of the edit form keeps the stored value: on a
    database whose item texts are stripped, as the routes keep them,
    submitting the edit form of a stored item with every field empty
    changes no item, no delivery and no history row, whichever commits
    fail. A field of white space is not an empty field: a name made of
    blanks only replaces the stored name by the empty text once the commit
    goes through, although the registration form refuses such a name. *)
Theorem X5_editar_epi_form_vazio ctx db id e :
  textos_aparados db →
  epi db !! id = Some e →
  (let db' := (servir (editar_epi ctx id form_vazio) db).2 in
   epi db' = epi db
   ∧ entrega_epi db' = entrega_epi db
   ∧ historico_epi db' = historico_epi db
   ∧ funcionario db' = funcionario db)
  ∧ ∀ s, s ≠ "" → strip s = "" →
      (falha ctx 0%nat = false →
       epi (servir (editar_epi ctx id
                      (MkFormEpi (Some s) None None None Vazio None)) db).2 !! id
       = Some (Epi.Novo "" (Epi.numero_ca e) (Epi.validade_ca e)
                        (Epi.quantidade e) (Epi.codigo_produto e)
                        (Epi.observacao e)))
      ∧ ∀ form q,
          f_nome form = Some s →
          valor_ou (f_quantidade form) 0 = Some q →
          servir (epis ctx form) db = (Redireciona PreenchaCamposEpi, db).
Proof.
  intros Hinv He.
  destruct (Hinv id e He) as (Hn & Hca & Hv & Hcod).
  unfold aparado in *.
  split.
  - pose proof (editar_epi_estados ctx db id form_vazio) as H.
    rewrite He in H. simpl in H. rewrite H. clear H.
    assert (epi_editado e form_vazio (Epi.quantidade e) = e) as Hrow.
    { unfold epi_editado. simpl. rewrite Hn, Hca, Hv, Hcod. by destruct e. }
    rewrite Hrow.
    rewrite bool_decide_eq_false_2 by (intros Hne; by apply Hne).
    assert (<[id := e]> (epi db) = epi db) as Hid by (by apply insert_id).
    destruct (falha ctx 0%nat); [done|].
    destruct (falha ctx 1%nat); simpl; by rewrite Hid.
  - intros s Hs Hstrip. split.
    + intros H0.
      pose proof (editar_epi_estados ctx db id
                    (MkFormEpi (Some s) None None None Vazio None)) as H.
      rewrite He in H. simpl in H. rewrite H, H0. clear H.
      rewrite bool_decide_eq_false_2 by (intros Hne; by apply Hne).
      assert (epi_editado e (MkFormEpi (Some s) None None None Vazio None)
                          (Epi.quantidade e)
              = Epi.Novo "" (Epi.numero_ca e) (Epi.validade_ca e)
                         (Epi.quantidade e) (Epi.codigo_produto e)
                         (Epi.observacao e)) as ->.
      { unfold epi_editado. simpl. destruct s as [|c s]; [done|]. simpl.
        by rewrite Hstrip, Hca, Hv, Hcod. }
      destruct (falha ctx 1%nat); simpl; by rewrite lookup_insert_eq.
    + intros form q Hnome Hq.
      destruct (epis_estados ctx db form)
        as [Hdb|(q' & _ & _ & Hnao & _)].
      * unfold epis in *. rewrite Hnome in *. revert Hdb. desmonta.
        rewrite Hq. simpl. destruct s as [|c s]; [done|]. simpl.
        rewrite Hstrip. simpl. done.
      * rewrite Hnome in Hnao. destruct s as [|c s]; [done|].
        simpl in Hnao. by rewrite Hstrip in Hnao.
Qed.

Lemma X5_editar_epi_form_vazio_witness :
  (let db' := (servir (editar_epi admin 1 form_vazio) db_capacete).2 in
   epi db' = epi db_capacete
   ∧ entrega_epi db' = entrega_epi db_capacete
   ∧ historico_epi db' = historico_epi db_capacete
   ∧ funcionario db' = funcionario db_capacete)
  ∧ epi (servir (editar_epi admin 1
                   (MkFormEpi (Some "  ") None None None Vazio None))
                db_capacete).2 !! 1
    = Some (Epi.Novo "" "12345" "31/12/2030" 20 "H-01" "").
Proof.
  assert (textos_aparados db_capacete) as Hinv.
  { intros id e He.
    assert (epi db_capacete
            = {[1 := Epi.Novo "Helmet" "12345" "31/12/2030" 20 "H-01" ""]}) as Heq
      by reflexivity.
    rewrite Heq in He. apply lookup_singleton_Some in He as [_ <-].
    repeat split; reflexivity. }
  pose proof (X5_editar_epi_form_vazio admin db_capacete 1
                (Epi.Novo "Helmet" "12345" "31/12/2030" 20 "H-01" "")
                Hinv eq_refl) as [H1 H2].
  split; [exact H1|].
  apply (proj1 (H2 "  " ltac:(discriminate) eq_refl)). reflexivity.
Defined.

(** ** X6, X7: [/deletar_epi] *)

(** X6. Deleting a stored item, every commit going through, removes the
    item together with exactly the delivery rows and the history rows that
    point at it; the "Exclusão" row the route has just written goes with
    them. Rows of other items, and the employees, stay as they were. *)
Theorem X6_deletar_epi_cascata ctx db id e :
  (∀ n, falha ctx n = false) →
  epi db !! id = Some e →
  let r := servir (deletar_epi ctx id) db in
  r.1 = Redireciona EpiRemovido
  ∧ epi r.2 = delete id (epi db)
  ∧ (∀ k d, entrega_epi r.2 !! k = Some d
            ↔ entrega_epi db !! k = Some d ∧ EntregaEpi.epi_id d ≠ id)
  ∧ (∀ k h, historico_epi r.2 !! k = Some h
            ↔ historico_epi db !! k = Some h ∧ HistoricoEpi.epi_id h ≠ id)
  ∧ funcionario r.2 = funcionario db.
Proof.
  intros Hc He r. subst r.
  pose proof (deletar_epi_estados ctx db id) as H.
  rewrite He in H. simpl in H. rewrite H, !Hc. clear H. simpl.
  split; [done|]. split; [done|]. split; [|split; [|done]].
  - intros k d. by rewrite map_lookup_filter_Some.
  - intros k h. rewrite map_lookup_filter_Some. simpl.
    destruct (decide (k = proximo_id (historico_epi db))) as [->|Hne].
    + rewrite lookup_insert_eq, proximo_id_livre. split.
      * intros [[= <-] Hid]. done.
      * intros [? _]. done.
    + by rewrite lookup_insert_ne.
Qed.

Lemma X6_deletar_epi_cascata_witness :
  let r := servir (deletar_epi admin 1) db_entregue in
  r.1 = Redireciona EpiRemovido
  ∧ epi r.2 !! 1 = None
  ∧ entrega_epi r.2 !! 1 = None
  ∧ historico_epi r.2 = ∅.
Proof.
  pose proof (X6_deletar_epi_cascata admin db_entregue 1
                (Epi.Novo "Helmet" "12345" "31/12/2030" 15 "H-01" "")) as H.
  destruct H as (Hr & He & _ & _ & _); [reflexivity | reflexivity |].
  split; [exact Hr|].
  split; [rewrite He; reflexivity|].
  split; reflexivity.
Defined.

(** X7. The route commits the "Exclusão" history row before it deletes:
    when the first two commits go through and the deleting commit is
    refused, the answer is the 500 page, the item and its deliveries are
    still stored, and the history holds an "Exclusão" row for the item. *)
Theorem X7_deletar_epi_sem_exclusao ctx db id e :
  falha ctx 0%nat = false →
  falha ctx 1%nat = false →
  falha ctx 2%nat = true →
  epi db !! id = Some e →
  let r := servir (deletar_epi ctx id) db in
  r.1 = Erro500
  ∧ epi r.2 = epi db
  ∧ entrega_epi r.2 = entrega_epi db
  ∧ historico_epi r.2
    = <[proximo_id (historico_epi db) := linha_historico ctx id "Exclusão" 0]>
        (historico_epi db).
Proof.
  intros Hc0 Hc1 Hc2 He r. subst r.
  pose proof (deletar_epi_estados ctx db id) as H.
  rewrite He in H. simpl in H. by rewrite H, Hc0, Hc1, Hc2.
Qed.

Lemma X7_deletar_epi_sem_exclusao_witness :
  let ctx := MkContexto "admin" "admin" 0 0 (λ n, Nat.eqb n 2) in
  let r := servir (deletar_epi ctx 1) db_capacete in
  r.1 = Erro500
  ∧ epi r.2 = epi db_capacete
  ∧ HistoricoEpi.acao <$> historico_epi r.2 !! 2 = Some "Exclusão".
Proof.
  pose proof (X7_deletar_epi_sem_exclusao
                (MkContexto "admin" "admin" 0 0 (λ n, Nat.eqb n 2)) db_capacete 1
                (Epi.Novo "Helmet" "12345" "31/12/2030" 20 "H-01" "")) as H.
  destruct H as (Hr & He & _ & Hh);
    [reflexivity | reflexivity | reflexivity | reflexivity |].
  split; [exact Hr|]. split; [exact He|]. rewrite Hh. reflexivity.
Defined.

(** ** X8 to X11: returns and discards *)

(** The refusals of the two routes, shared by the statements below. *)
Lemma devolucao_descarte_recusa ctx db id qc r :
  valor_ou qc 0 = Some r →
  (entrega_epi db !! id = None →
   servir (devolver_epi ctx id qc) db = (Aborta404, db)
   ∧ servir (descartar_epi ctx id qc) db = (Aborta404, db))
  ∧ (∀ d, entrega_epi db !! id = Some d →
          finalizada d = false →
          r ≤ 0 ∨ EntregaEpi.quantidade d < r →
          servir (devolver_epi ctx id qc) db = (Json400 QuantidadeInvalida, db)
          ∧ servir (descartar_epi ctx id qc) db = (Json400 QuantidadeInvalida, db)).
Proof.
  intros Hr. split.
  - intros Hnone. unfold devolver_epi, descartar_epi. desmonta.
    rewrite Hr. simpl. by rewrite Hnone.
  - intros d Hd Hfin Hq. unfold devolver_epi, descartar_epi. desmonta.
    rewrite Hr. simpl. rewrite Hd. simpl. rewrite Hfin.
    destruct (epi db !! EntregaEpi.epi_id d); simpl;
      (destruct (Z.leb_spec r 0); simpl; [done|]);
      (destruct (Z.ltb_spec (EntregaEpi.quantidade d) r); [done|lia]).
Qed.


(** X8. A return or a discard against a key no delivery holds ends in the
    404 page; against a delivery still "entregue", a quantity that is zero,
    negative, absent or larger than the quantity the row holds is refused
    with the invalid-quantity error. Nothing is stored in either case. *)
Theorem X8_devolucao_descarte_recusas ctx db id qc r :
  valor_ou qc 0 = Some r →
  (entrega_epi db !! id = None →
   servir (devolver_epi ctx id qc) db = (Aborta404, db)
   ∧ servir (descartar_epi ctx id qc) db = (Aborta404, db))
  ∧ (∀ d, entrega_epi db !! id = Some d →
          finalizada d = false →
          r ≤ 0 ∨ EntregaEpi.quantidade d < r →
          servir (devolver_epi ctx id qc) db = (Json400 QuantidadeInvalida, db)
          ∧ servir (descartar_epi ctx id qc) db = (Json400 QuantidadeInvalida, db)).
Proof. apply devolucao_descarte_recusa. Qed.

Lemma X8_devolucao_descarte_recusas_witness :
  servir (devolver_epi admin 7 Vazio) db_entregue = (Aborta404, db_entregue)
  ∧ servir (devolver_epi admin 1 (Inteiro 6)) db_entregue
    = (Json400 QuantidadeInvalida, db_entregue)
  ∧ servir (descartar_epi admin 1 Vazio) db_entregue
    = (Json400 QuantidadeInvalida, db_entregue).
Proof.
  split; [|split].
  - apply (proj1 (X8_devolucao_descarte_recusas admin db_entregue 7 Vazio 0 eq_refl)).
    reflexivity.
  - apply (proj2 (X8_devolucao_descarte_recusas admin db_entregue 1 (Inteiro 6) 6 eq_refl)
             (nova_entrega admin 1 1 5 None None));
      [reflexivity | reflexivity | right; simpl; lia].
  - apply (proj2 (X8_devolucao_descarte_recusas admin db_entregue 1 Vazio 0 eq_refl)
             (nova_entrega admin 1 1 5 None None));
      [reflexivity | reflexivity | left; lia].
Defined.

(** X9. Delivering [q] units and then returning all [q] of that delivery
    puts the item table back exactly as it was before the delivery, and
    leaves the delivery "devolvido" with quantity [q]. *)
Theorem X9_entrega_e_devolucao_total ctx ctx' db form fid eid q f e vd :
  (∀ n, falha ctx n = false) →
  falha ctx' 0%nat = false →
  valor_ou (fe_funcionario_id form) 0 = Some fid →
  valor_ou (fe_epi_id form) 0 = Some eid →
  valor_ou (fe_quantidade form) 0 = Some q →
  funcionario db !! fid = Some f →
  epi db !! eid = Some e →
  ou (Funcionario.senha_validacao f) "" = ou (fe_senha_validacao form) "" →
  0 < q → q ≤ Epi.quantidade e →
  validade_data (fe_validade_entrega form) = Some vd →
  let k := proximo_id (entrega_epi db) in
  let db1 := (servir (entregar_epi ctx form) db).2 in
  let r := servir (devolver_epi ctx' k (Inteiro q)) db1 in
  r.1 = Json200
  ∧ epi r.2 = epi db
  ∧ (λ d, (EntregaEpi.quantidade d, EntregaEpi.status d, EntregaEpi.data_devolucao d))
      <$> entrega_epi r.2 !! k
    = Some (q, "devolvido", Some (utcnow ctx')).
Proof.
  intros Hc Hc' Hfid Hid Hq Hf He Hs H0 Hn Hv k db1 r. subst k db1 r.
  erewrite entregar_epi_passos by done. rewrite !Hc. simpl.
  erewrite (devolver_epi_passos ctx' _ _ (Inteiro q)
              (nova_entrega ctx fid eid q vd (fe_observacao form))
              (Epi.com_quantidade e (Z.max (Epi.quantidade e - q) 0)) q);
    [|done|simpl; by rewrite lookup_insert_eq|done|simpl; by rewrite lookup_insert_eq
     |done|simpl; lia].
  rewrite Hc'. simpl. split; [done|]. split.
  - rewrite insert_insert_eq. rewrite Z.max_l by lia.
    replace (Epi.com_quantidade
               (Epi.com_quantidade e (Epi.quantidade e - q))
               (Epi.quantidade e - q + q)) with e
      by (destruct e; unfold Epi.com_quantidade; simpl; f_equal; lia).
    by apply insert_id.
  - rewrite lookup_insert_eq. unfold devolvida. simpl.
    by rewrite Z.eqb_refl.
Qed.

Lemma X9_entrega_e_devolucao_total_witness :
  let db1 := (servir (entregar_epi admin (form_entrega 1 1 5 (Some "s3nha")))
                db_capacete).2 in
  let r := servir (devolver_epi admin 1 (Inteiro 5)) db1 in
  r.1 = Json200 ∧ epi r.2 = epi db_capacete.
Proof.
  pose proof (X9_entrega_e_devolucao_total admin admin db_capacete
                (form_entrega 1 1 5 (Some "s3nha")) 1 1 5 ana
                (Epi.Novo "Helmet" "12345" "31/12/2030" 20 "H-01" "") None) as H.
  destruct H as (Hr & He & _);
    [reflexivity | reflexivity | reflexivity | reflexivity | reflexivity
    | reflexivity | reflexivity | reflexivity | lia | simpl; lia | reflexivity |].
  split; [exact Hr | exact He].
Defined.

(** X10. A partial return of [r] out of [m] units overwrites the
    delivery's quantity with [r] and leaves it "entregue": from then on a
    return of more than [r] is refused, so the [m - r] units still out can
    no longer be returned through the route, while a second return of [r]
    is accepted, closes the delivery and credits the stock again, [2 r]
    units in all whatever [m] was. *)
Theorem X10_devolucoes_parciais ctx1 ctx2 db id d e r :
  falha ctx1 0%nat = false →
  falha ctx2 0%nat = false →
  entrega_epi db !! id = Some d →
  EntregaEpi.status d = "entregue" →
  epi db !! EntregaEpi.epi_id d = Some e →
  0 < r → r < EntregaEpi.quantidade d →
  let resumo (x : EntregaEpi.t) := (EntregaEpi.quantidade x, EntregaEpi.status x) in
  let db1 := (servir (devolver_epi ctx1 id (Inteiro r)) db).2 in
  let r2 := servir (devolver_epi ctx2 id (Inteiro r)) db1 in
  resumo <$> entrega_epi db1 !! id = Some (r, "entregue")
  ∧ (∀ ctx r', r < r' →
       servir (devolver_epi ctx id (Inteiro r')) db1
       = (Json400 QuantidadeInvalida, db1))
  ∧ r2.1 = Json200
  ∧ resumo <$> entrega_epi r2.2 !! id = Some (r, "devolvido")
  ∧ Epi.quantidade <$> epi r2.2 !! EntregaEpi.epi_id d
    = Some (Epi.quantidade e + 2 * r).
Proof.
  intros Hc1 Hc2 Hd Hst He H0 Hm resumo db1 r2. subst resumo db1 r2.
  assert (finalizada d = false) as Hfin by (unfold finalizada; by rewrite Hst).
  erewrite (devolver_epi_passos ctx1 db id (Inteiro r) d e r);
    [|done|done|done|done|done|lia].
  rewrite Hc1. cbn [fst snd].
  assert (devolvida ctx1 d r = EntregaEpi.com_quantidade d r) as Hdev.
  { unfold devolvida. by rewrite (proj2 (Z.eqb_neq r (EntregaEpi.quantidade d))) by lia. }
  set (db1 := apos_devolucao ctx1 db id d e r).
  assert (entrega_epi db1 !! id = Some (EntregaEpi.com_quantidade d r)) as Hd1.
  { unfold db1. simpl. by rewrite lookup_insert_eq, Hdev. }
  assert (epi db1 !! EntregaEpi.epi_id d
          = Some (Epi.com_quantidade e (Epi.quantidade e + r))) as He1.
  { unfold db1. simpl. by rewrite lookup_insert_eq. }
  assert (finalizada (EntregaEpi.com_quantidade d r) = false) as Hfin1 by done.
  split; [by rewrite Hd1; simpl; rewrite Hst|].
  split.
  - intros ctx r' Hr'.
    apply (proj2 (devolucao_descarte_recusa ctx db1 id (Inteiro r') r' eq_refl)
             (EntregaEpi.com_quantidade d r)); [done|done|right; simpl; lia].
  - erewrite (devolver_epi_passos ctx2 db1 id (Inteiro r)
                (EntregaEpi.com_quantidade d r)
                (Epi.com_quantidade e (Epi.quantidade e + r)) r);
      [|done|done|done|done|done|simpl; lia].
    rewrite Hc2. cbn [fst snd].
    split; [done|].
    unfold apos_devolucao at 1 2. cbn [epi entrega_epi EntregaEpi.epi_id EntregaEpi.com_quantidade].
    rewrite !lookup_insert_eq.
    unfold devolvida. simpl. rewrite Z.eqb_refl. simpl.
    split; [done|]. f_equal. lia.
Qed.

Lemma X10_devolucoes_parciais_witness :
  let db1 := (servir (devolver_epi admin 1 (Inteiro 3)) db_entregue).2 in
  let r2 := servir (devolver_epi admin 1 (Inteiro 3)) db1 in
  servir (devolver_epi admin 1 (Inteiro 4)) db1 = (Json400 QuantidadeInvalida, db1)
  ∧ r2.1 = Json200
  ∧ Epi.quantidade <$> epi r2.2 !! 1 = Some 21.
Proof.
  pose proof (X10_devolucoes_parciais admin admin db_entregue 1
                (nova_entrega admin 1 1 5 None None)
                (Epi.Novo "Helmet" "12345" "31/12/2030" 15 "H-01" "") 3) as H.
  destruct H as (_ & Hrec & Hr & _ & He);
    [reflexivity | reflexivity | reflexivity | reflexivity | reflexivity
    | lia | simpl; lia |].
  split; [apply Hrec; lia|].
  split; [exact Hr | exact He].
Defined.

(** Neither route writes to the history or the log. *)
Lemma devolucao_sem_registro ctx db id qc :
  historico_epi (servir (devolver_epi ctx id qc) db).2 = historico_epi db
  ∧ log (servir (devolver_epi ctx id qc) db).2 = log db
  ∧ historico_epi (servir (descartar_epi ctx id qc) db).2 = historico_epi db
  ∧ log (servir (descartar_epi ctx id qc) db).2 = log db.
Proof.
  destruct (devolver_epi_casos ctx db id qc)
    as [H|(entrega & e & r & _ & _ & _ & _ & _ & _ & H)]; rewrite H;
  destruct (descartar_epi_casos ctx db id qc)
    as [H'|(entrega' & r' & _ & _ & _ & _ & _ & H')]; rewrite H'; done.
Qed.

(** X11. A return and a discard write nothing to the history and nothing
    to the activity log, whatever the request and its outcome: the stock a
    return puts back on the shelf leaves no trace in either. *)
Theorem X11_devolucao_sem_registro ctx db id qc :
  historico_epi (servir (devolver_epi ctx id qc) db).2 = historico_epi db
  ∧ log (servir (devolver_epi ctx id qc) db).2 = log db
  ∧ historico_epi (servir (descartar_epi ctx id qc) db).2 = historico_epi db
  ∧ log (servir (descartar_epi ctx id qc) db).2 = log db.
Proof. apply devolucao_sem_registro. Qed.

(** ** X12: the routes as moves of the ledger *)

(** Each route is a move of the ledger, or no move. *)
Lemma rota_transicao ctx op db :
  transicao db (servir (rota ctx op) db).2.
Proof.
  destruct op as [form|id form|id|form|id q|id q|id s|id]; simpl.
  - destruct (epis_estados ctx db form) as [H|(q & _ & H0 & _ & _ & _ & H)].
    + rewrite H. by apply t_nada.
    + simpl in H. rewrite H.
      apply (t_cadastro _ _ (proximo_id (epi db)) (epi_do_form form q));
        [apply proximo_id_livre | done | ..];
        destruct (falha ctx 1%nat); try done; by destruct (falha ctx 2%nat).
  - pose proof (editar_epi_estados ctx db id form) as H.
    destruct (epi db !! id) as [e0|] eqn:He; [|rewrite H; by apply t_nada].
    destruct (valor_ou (f_quantidade form) (Epi.quantidade e0)) as [q|];
      [|rewrite H; by apply t_nada].
    simpl in H. rewrite H.
    destruct (falha ctx 0%nat); [by apply t_nada|].
    apply (t_edicao _ _ id e0 (epi_editado e0 form q)); [done|..];
      case_bool_decide; destruct (falha ctx 1%nat); try done;
      by destruct (falha ctx 2%nat).
  - pose proof (deletar_epi_estados ctx db id) as H.
    destruct (epi db !! id) as [e0|] eqn:He; [|rewrite H; by apply t_nada].
    simpl in H. rewrite H.
    destruct (falha ctx 0%nat); [by apply t_nada|].
    destruct (falha ctx 1%nat); [by apply t_nada|].
    destruct (falha ctx 2%nat); [by apply t_nada|].
    by apply (t_exclusao _ _ id).
  - destruct (entregar_epi_casos ctx db form)
      as [H|(fid & eid & q & f & e & vd & Hfid & Hid & Hq & Hf & He & Hs & H0 & Hn & Hv & Hc)].
    + rewrite H. by apply t_nada.
    + erewrite entregar_epi_passos by done. rewrite Hc.
      apply (t_entrega _ _ (proximo_id (entrega_epi db)) q
               (nova_entrega ctx fid eid q vd (fe_observacao form)) e);
        try done; try apply proximo_id_livre; try (by rewrite Hf);
        destruct (falha ctx 1%nat); simpl; rewrite ?Z.max_l by lia; try done;
        destruct (falha ctx 2%nat); simpl; rewrite ?Z.max_l by lia; done.
  - destruct (devolver_epi_casos ctx db id q)
      as [H|(entrega & e & r & Hr & Hent & Hfin & He & H0 & Hm & H)].
    + rewrite H. by apply t_nada.
    + rewrite H. by apply (t_devolucao _ _ ctx id r entrega e).
  - destruct (descartar_epi_casos ctx db id q)
      as [H|(entrega & r & Hr & Hent & Hfin & H0 & Hm & H)].
    + rewrite H. by apply t_nada.
    + rewrite H. by apply (t_descarte _ _ ctx id r entrega).
  - pose proof (definir_senha_funcionario_estados ctx db id s) as H.
    destruct (funcionario db !! id) as [func|] eqn:Hf; [|rewrite H; by apply t_nada].
    simpl in H. rewrite H.
    destruct (falha ctx 0%nat); [by apply t_nada|].
    apply (t_senha _ _ id func (ou s "")); try done;
      by destruct (falha ctx 1%nat).
  - destruct (funcionario db !! id) as [func|] eqn:Hf.
    + erewrite deletar_funcionario_passos by done.
      destruct (falha ctx 0%nat); [by apply t_nada|].
      apply (t_demissao _ _ id); try (by rewrite Hf);
        by destruct (falha ctx 1%nat).
    + erewrite deletar_funcionario_404 by done. by apply t_nada.
Qed.

(** X12. Every request, whatever it carries and whichever of its commits
    fail, moves the three ledger tables by at most one atomic transition:
    nothing; an item registered at a fresh key with a non-negative
    quantity; an item rewritten in place; an item deleted with its
    deliveries; a delivery inserted at a fresh key together with the
    matching stock decrement; a return together with the stock increment;
    a discard; a secret set; an employee deleted with their deliveries. *)
Theorem X12_rota_transicao ctx op db :
  transicao db (servir (rota ctx op) db).2.
Proof. apply rota_transicao. Qed.

(** ** X13 to X15: what the ledger keeps *)

Lemma executar_preserva (P : DB → Prop) :
  (∀ ctx op db, P db → P (servir (rota ctx op) db).2) →
  ∀ ops db, P db → P (executar ops db).
Proof.
  intros Hpasso ops. induction ops as [|[ctx op] ops IH]; intros db Hdb; simpl.
  - done.
  - apply IH. by apply Hpasso.
Qed.

Lemma nao_finalizada_entregue d :
  situacao_coerente_linha d → finalizada d = false →
  EntregaEpi.status d = "entregue"
  ∧ EntregaEpi.data_devolucao d = None ∧ EntregaEpi.data_descarte d = None.
Proof.
  unfold finalizada.
  intros [(Hs & ? & ?)|[(Hs & _)|(Hs & _)]]; rewrite Hs; done.
Qed.

Lemma transicao_quantidades_positivas db db' :
  transicao db db' → quantidades_positivas db → quantidades_positivas db'.
Proof.
  intros Ht Hinv k x Hx.
  destruct Ht as [_ _ Hent|? ? _ _ _ _ Hent|? ? ? _ _ _ Hent|? _ _ _ Hent
                 |k0 q d e _ _ _ Hq _ Hqd _ _ _ _ _ Hent
                 |ctx id r d e Hd _ _ Hr _ _ _ Hent
                 |ctx id r d Hd _ Hr _ _ _ Hent
                 |? ? ? _ _ _ Hent|? _ _ _ Hent];
    rewrite Hent in Hx; try (by eapply Hinv).
  - apply map_lookup_filter_Some in Hx as [Hx _]. by eapply Hinv.
  - destruct (decide (k0 = k)) as [->|Hne].
    + rewrite lookup_insert_eq in Hx. injection Hx as <-. lia.
    + rewrite lookup_insert_ne in Hx by done. by eapply Hinv.
  - destruct (decide (id = k)) as [->|Hne].
    + rewrite lookup_insert_eq in Hx. injection Hx as <-. done.
    + rewrite lookup_insert_ne in Hx by done. by eapply Hinv.
  - destruct (decide (id = k)) as [->|Hne].
    + rewrite lookup_insert_eq in Hx. injection Hx as <-. done.
    + rewrite lookup_insert_ne in Hx by done. by eapply Hinv.
  - apply map_lookup_filter_Some in Hx as [Hx _]. by eapply Hinv.
Qed.

Lemma transicao_situacao_coerente db db' :
  transicao db db' → situacao_coerente db → situacao_coerente db'.
Proof.
  intros Ht Hinv k x Hx.
  destruct Ht as [_ _ Hent|? ? _ _ _ _ Hent|? ? ? _ _ _ Hent|? _ _ _ Hent
                 |k0 q d e _ _ _ _ _ _ Hst Hdev Hdesc _ _ Hent
                 |ctx id r d e Hd Hfin _ _ _ _ _ Hent
                 |ctx id r d Hd Hfin _ _ _ _ Hent
                 |? ? ? _ _ _ Hent|? _ _ _ Hent];
    rewrite Hent in Hx; try (by eapply Hinv).
  - apply map_lookup_filter_Some in Hx as [Hx _]. by eapply Hinv.
  - destruct (decide (k0 = k)) as [->|Hne].
    + rewrite lookup_insert_eq in Hx. injection Hx as <-. by left.
    + rewrite lookup_insert_ne in Hx by done. by eapply Hinv.
  - destruct (decide (id = k)) as [->|Hne].
    + rewrite lookup_insert_eq in Hx. injection Hx as <-.
      destruct (nao_finalizada_entregue d (Hinv _ _ Hd) Hfin) as (Hst & Hdev & Hdesc).
      unfold devolvida. destruct (r =? EntregaEpi.quantidade d).
      * right. left. simpl. by eauto.
      * by left.
    + rewrite lookup_insert_ne in Hx by done. by eapply Hinv.
  - destruct (decide (id = k)) as [->|Hne].
    + rewrite lookup_insert_eq in Hx. injection Hx as <-.
      destruct (nao_finalizada_entregue d (Hinv _ _ Hd) Hfin) as (Hst & Hdev & Hdesc).
      unfold descartada. destruct (r =? EntregaEpi.quantidade d).
      * right. right. simpl. by eauto.
      * by left.
    + rewrite lookup_insert_ne in Hx by done. by eapply Hinv.
  - apply map_lookup_filter_Some in Hx as [Hx _]. by eapply Hinv.
Qed.

Lemma devolvida_ids ctx d r :
  EntregaEpi.funcionario_id (devolvida ctx d r) = EntregaEpi.funcionario_id d
  ∧ EntregaEpi.epi_id (devolvida ctx d r) = EntregaEpi.epi_id d.
Proof. unfold devolvida. by destruct (r =? EntregaEpi.quantidade d). Qed.

Lemma descartada_ids ctx d r :
  EntregaEpi.funcionario_id (descartada ctx d r) = EntregaEpi.funcionario_id d
  ∧ EntregaEpi.epi_id (descartada ctx d r) = EntregaEpi.epi_id d.
Proof. unfold descartada. by destruct (r =? EntregaEpi.quantidade d). Qed.

Lemma is_Some_insert {A} (m : gmap Z A) k x j :
  is_Some (m !! j) → is_Some (<[k := x]> m !! j).
Proof.
  intros H. destruct (decide (k = j)) as [->|Hne].
  - rewrite lookup_insert_eq. by eexists.
  - by rewrite lookup_insert_ne.
Qed.

Lemma transicao_referencias_validas db db' :
  transicao db db' → referencias_validas db → referencias_validas db'.
Proof.
  intros Ht Hinv k x Hx.
  destruct Ht as [Hepi Hfun Hent|k0 e0 _ _ Hepi Hfun Hent|id e0 e _ Hepi Hfun Hent
                 |id _ Hepi Hfun Hent
                 |k0 q d e _ Hf He _ _ _ _ _ _ Hepi Hfun Hent
                 |ctx id r d e Hd _ He _ _ Hepi Hfun Hent
                 |ctx id r d Hd _ _ _ Hepi Hfun Hent
                 |id f s Hf Hepi Hfun Hent|id _ Hepi Hfun Hent];
    rewrite Hent in Hx; rewrite Hepi, Hfun.
  - by eapply Hinv.
  - destruct (Hinv _ _ Hx). split; [done|]. by apply is_Some_insert.
  - destruct (Hinv _ _ Hx). split; [done|]. by apply is_Some_insert.
  - apply map_lookup_filter_Some in Hx as [Hx Hne]. simpl in Hne.
    destruct (Hinv _ _ Hx). split; [done|]. by rewrite lookup_delete_ne.
  - destruct (decide (k0 = k)) as [->|Hne].
    + rewrite lookup_insert_eq in Hx. injection Hx as <-.
      split; [done|]. rewrite lookup_insert_eq. by eexists.
    + rewrite lookup_insert_ne in Hx by done.
      destruct (Hinv _ _ Hx). split; [done|]. by apply is_Some_insert.
  - destruct (decide (id = k)) as [->|Hne].
    + rewrite lookup_insert_eq in Hx. injection Hx as <-.
      destruct (devolvida_ids ctx d r) as [-> ->].
      destruct (Hinv _ _ Hd). split; [done|]. by apply is_Some_insert.
    + rewrite lookup_insert_ne in Hx by done.
      destruct (Hinv _ _ Hx). split; [done|]. by apply is_Some_insert.
  - destruct (decide (id = k)) as [->|Hne].
    + rewrite lookup_insert_eq in Hx. injection Hx as <-.
      destruct (descartada_ids ctx d r) as [-> ->]. by eapply Hinv.
    + rewrite lookup_insert_ne in Hx by done. by eapply Hinv.
  - destruct (Hinv _ _ Hx). split; [|done]. by apply is_Some_insert.
  - apply map_lookup_filter_Some in Hx as [Hx Hne]. simpl in Hne.
    destruct (Hinv _ _ Hx). split; [|done]. by rewrite lookup_delete_ne.
Qed.

(** X13. Every delivery row holds a positive quantity, and no sequence of
    requests changes that, whichever commits fail: deliveries are created
    with a positive quantity and returns and discards overwrite it with a
    positive one. *)
Theorem X13_quantidades_positivas ops db :
  quantidades_positivas db →
  quantidades_positivas (executar ops db).
Proof.
  apply (executar_preserva quantidades_positivas).
  intros ctx op db0. apply transicao_quantidades_positivas, rota_transicao.
Qed.

Lemma db_entregue_entregas :
  entrega_epi db_entregue = {[1 := nova_entrega admin 1 1 5 None None]}.
Proof. reflexivity. Qed.

Lemma X13_quantidades_positivas_witness :
  quantidades_positivas
    (executar [(admin, OpDevolver 1 (Inteiro 2)); (admin, OpDescartar 1 (Inteiro 1))]
              db_entregue).
Proof.
  apply X13_quantidades_positivas.
  intros k d Hd. rewrite db_entregue_entregas in Hd.
  apply lookup_singleton_Some in Hd as [_ <-]. simpl. lia.
Defined.

(** X14. Status and timestamps of every delivery stay in step through
    any sequence of requests: a row is "entregue" with neither timestamp,
    or "devolvido" with the return timestamp only, or "descartado" with
    the discard timestamp only. *)
Theorem X14_situacao_coerente ops db :
  situacao_coerente db →
  situacao_coerente (executar ops db).
Proof.
  apply (executar_preserva situacao_coerente).
  intros ctx op db0. apply transicao_situacao_coerente, rota_transicao.
Qed.

Lemma X14_situacao_coerente_witness :
  situacao_coerente
    (executar [(admin, OpDevolver 1 (Inteiro 2)); (admin, OpDescartar 1 (Inteiro 2))]
              db_entregue).
Proof.
  apply X14_situacao_coerente.
  intros k d Hd. rewrite db_entregue_entregas in Hd.
  apply lookup_singleton_Some in Hd as [_ <-]. left. repeat split; reflexivity.
Defined.

(** On a database whose deliveries point at stored items, a return ends in
    the 500 page only when its quantity is unreadable or its commit fails. *)
Lemma devolver_epi_sem_500 ctx db id qc :
  referencias_validas db →
  valor_ou qc 0 ≠ None →
  falha ctx 0%nat = false →
  (servir (devolver_epi ctx id qc) db).1 ≠ Erro500.
Proof.
  intros Hinv Hq Hc.
  destruct (valor_ou qc 0) as [r|] eqn:Hr; [|done].
  destruct (entrega_epi db !! id) as [d|] eqn:Hd.
  - destruct (finalizada d) eqn:Hfin.
    + erewrite devolver_epi_finalizada by done. by rewrite Hr.
    + destruct (decide (0 < r ∧ r ≤ EntregaEpi.quantidade d)) as [[H0 Hm]|Hn].
      * destruct (Hinv _ _ Hd) as [_ [e He]].
        erewrite devolver_epi_passos by done. by rewrite Hc.
      * rewrite (proj1 (proj2 (devolucao_descarte_recusa ctx db id qc r Hr)
                         d Hd Hfin ltac:(lia))). done.
  - rewrite (proj1 (proj1 (devolucao_descarte_recusa ctx db id qc r Hr) Hd)). done.
Qed.

(** X15. Every delivery row points at a stored employee and a stored
    item, and no sequence of requests breaks that: deleting an item or an
    employee takes their deliveries along. On such a database a return
    whose quantity [int] can read and whose commit goes through never ends
    in the 500 page. *)
Theorem X15_referencias_validas ops db :
  referencias_validas db →
  referencias_validas (executar ops db)
  ∧ ∀ ctx id qc,
      valor_ou qc 0 ≠ None →
      falha ctx 0%nat = false →
      (servir (devolver_epi ctx id qc) (executar ops db)).1 ≠ Erro500.
Proof.
  intros Hinv.
  assert (referencias_validas (executar ops db)) as Hinv'.
  { revert Hinv. apply (executar_preserva referencias_validas).
    intros ctx op db0. apply transicao_referencias_validas, rota_transicao. }
  split; [done|]. intros ctx id qc. by apply devolver_epi_sem_500.
Qed.

Lemma X15_referencias_validas_witness :
  let db := executar [(admin, OpDeletar 1)] db_entregue in
  referencias_validas db
  ∧ (servir (devolver_epi admin 1 (Inteiro 5)) db).1 ≠ Erro500.
Proof.
  pose proof (X15_referencias_validas [(admin, OpDeletar 1)] db_entregue) as H.
  destruct H as [Hinv Hdev].
  - intros k d Hd. rewrite db_entregue_entregas in Hd.
    apply lookup_singleton_Some in Hd as [_ <-].
    split; eexists; reflexivity.
  - split; [exact Hinv|]. apply Hdev; [discriminate | reflexivity].
Defined.

(** ** X16: the log and the history only grow *)

Lemma lookup_insert_proximo {A} (m : gmap Z A) k x y :
  m !! k = Some x → <[proximo_id m := y]> m !! k = Some x.
Proof.
  intros H. rewrite lookup_insert_ne; [done|].
  intros <-. by rewrite proximo_id_livre in H.
Qed.

Lemma rota_registros ctx op db :
  (∀ k l, log db !! k = Some l → log (servir (rota ctx op) db).2 !! k = Some l)
  ∧ (∀ k h, historico_epi db !! k = Some h →
            op ≠ OpDeletar (HistoricoEpi.epi_id h) →
            historico_epi (servir (rota ctx op) db).2 !! k = Some h).
Proof.
  destruct op as [form|id form|id|form|id q|id q|id s|id]; simpl.
  - destruct (epis_estados ctx db form) as [H|(q & _ & _ & _ & _ & _ & H)];
      [by rewrite H|].
    simpl in H. rewrite H.
    destruct (falha ctx 1%nat); [done|].
    destruct (falha ctx 2%nat); simpl; split; intros; try done;
      by apply lookup_insert_proximo.
  - pose proof (editar_epi_estados ctx db id form) as H.
    destruct (epi db !! id) as [e0|]; [|by rewrite H].
    destruct (valor_ou (f_quantidade form) (Epi.quantidade e0)) as [q|];
      [|by rewrite H].
    simpl in H. rewrite H.
    destruct (falha ctx 0%nat); [done|].
    case_bool_decide; (destruct (falha ctx 1%nat); [done|]);
      try destruct (falha ctx 2%nat); simpl; split; intros; try done;
      by apply lookup_insert_proximo.
  - pose proof (deletar_epi_estados ctx db id) as H.
    destruct (epi db !! id) as [e0|]; [|by rewrite H].
    simpl in H. rewrite H.
    destruct (falha ctx 0%nat); [done|].
    destruct (falha ctx 1%nat);
      [simpl; split; intros; try done; by apply lookup_insert_proximo|].
    destruct (falha ctx 2%nat); simpl; split; intros k x Hx; intros;
      try (by apply lookup_insert_proximo).
    apply map_lookup_filter_Some. split; [by apply lookup_insert_proximo|].
    simpl. congruence.
  - destruct (entregar_epi_casos ctx db form)
      as [H|(fid & eid & q & f & e & vd & Hfid & Hid & Hq & Hf & He & Hs & H0 & Hn & Hv & Hc)];
      [by rewrite H|].
    erewrite entregar_epi_passos by done. rewrite Hc.
    destruct (falha ctx 1%nat); [done|].
    destruct (falha ctx 2%nat); simpl; split; intros; try done;
      by apply lookup_insert_proximo.
  - destruct (devolucao_sem_registro ctx db id q) as (-> & -> & _). done.
  - destruct (devolucao_sem_registro ctx db id q) as (_ & _ & -> & ->). done.
  - pose proof (definir_senha_funcionario_estados ctx db id s) as H.
    destruct (funcionario db !! id) as [func|]; [|by rewrite H].
    simpl in H. rewrite H.
    destruct (falha ctx 0%nat); [done|].
    destruct (falha ctx 1%nat); simpl; split; intros; try done;
      by apply lookup_insert_proximo.
  - destruct (funcionario db !! id) as [func|] eqn:Hf.
    + erewrite deletar_funcionario_passos by done.
      destruct (falha ctx 0%nat); [done|].
      destruct (falha ctx 1%nat); simpl; split; intros; try done;
        by apply lookup_insert_proximo.
    + by erewrite deletar_funcionario_404.
Qed.

(** X16. Through any sequence of requests, whichever commits fail, a row
    of the activity log stays under its key unchanged, and so does a
    history row as long as no request deletes the item it belongs to: the
    routes only ever add to the two, the cascade of an item's deletion
    apart. *)
Theorem X16_registros_permanentes ops db :
  (∀ k l, log db !! k = Some l → log (executar ops db) !! k = Some l)
  ∧ (∀ k h, historico_epi db !! k = Some h →
            Forall (λ co, co.2 ≠ OpDeletar (HistoricoEpi.epi_id h)) ops →
            historico_epi (executar ops db) !! k = Some h).
Proof.
  revert db. induction ops as [|[ctx op] ops IH]; intros db; simpl; [done|].
  destruct (rota_registros ctx op db) as [Hlog Hhist].
  destruct (IH (servir (rota ctx op) db).2) as [IHlog IHhist].
  split.
  - intros k l Hl. by apply IHlog, Hlog.
  - intros k h Hh Hops. apply Forall_cons in Hops as [Hop Hops].
    apply IHhist; [|done]. by apply Hhist.
Qed.

Lemma X16_registros_permanentes_witness :
  let ops := [(admin, OpEntregar (form_entrega 1 1 5 (Some "s3nha")));
              (admin, OpEditar 1 (form_capacete 3));
              (admin, OpDeletarFuncionario 1)] in
  HistoricoEpi.acao <$> historico_epi (executar ops db_capacete) !! 1 = Some "Cadastro"
  ∧ Log.acao <$> log (executar ops db_capacete) !! 1 = Some "Cadastrou novo EPI: Helmet".
Proof.
  pose proof (X16_registros_permanentes
                [(admin, OpEntregar (form_entrega 1 1 5 (Some "s3nha")));
                 (admin, OpEditar 1 (form_capacete 3));
                 (admin, OpDeletarFuncionario 1)] db_capacete) as [Hlog Hhist].
  split.
  - rewrite (Hhist 1 (linha_historico admin 1 "Cadastro" 20)); [reflexivity|reflexivity|].
    repeat constructor; discriminate.
  - rewrite (Hlog 1 (linha_log admin "Cadastrou novo EPI: Helmet")); reflexivity.
Defined.

(** ** X17, X18: the checks of [/entregar_epi] *)

(** X17. The refusals of a delivery other than the wrong secret and the
    short stock, none of which stores anything: an unknown employee or
    item is reported as such whatever the secret; with the secret right, a
    quantity that is zero, negative or absent asks for a valid quantity;
    with every check passed, an expiry date that is not a year-month-day
    date ends in the generic failure message, as does any identifier or
    quantity [int] cannot read. *)
Theorem X17_entregar_epi_recusas ctx db form :
  ((valor_ou (fe_funcionario_id form) 0 = None
    ∨ valor_ou (fe_epi_id form) 0 = None
    ∨ valor_ou (fe_quantidade form) 0 = None) →
   servir (entregar_epi ctx form) db = (Redireciona ErroEntrega, db))
  ∧ ∀ fid eid q,
      valor_ou (fe_funcionario_id form) 0 = Some fid →
      valor_ou (fe_epi_id form) 0 = Some eid →
      valor_ou (fe_quantidade form) 0 = Some q →
      ((funcionario db !! fid = None ∨ epi db !! eid = None) →
       servir (entregar_epi ctx form) db = (Redireciona FuncionarioOuEpiInvalido, db))
      ∧ ∀ f e,
          funcionario db !! fid = Some f →
          epi db !! eid = Some e →
          ou (Funcionario.senha_validacao f) "" = ou (fe_senha_validacao form) "" →
          (q ≤ 0 →
           servir (entregar_epi ctx form) db = (Redireciona InformeQuantidade, db))
          ∧ (0 < q → q ≤ Epi.quantidade e →
             validade_data (fe_validade_entrega form) = None →
             servir (entregar_epi ctx form) db = (Redireciona ErroEntrega, db)).
Proof.
  split.
  - intros H. unfold entregar_epi. desmonta.
    destruct (valor_ou (fe_funcionario_id form) 0); simpl; [|by destruct db].
    destruct (valor_ou (fe_epi_id form) 0); simpl; [|by destruct db].
    destruct (valor_ou (fe_quantidade form) 0); simpl; [|by destruct db].
    by destruct H as [?|[?|?]].
  - intros fid eid q Hfid Hid Hq. split.
    + intros H. unfold entregar_epi. desmonta. rewrite Hfid, Hid, Hq. simpl.
      destruct H as [-> | ->]; [done|]. by destruct (funcionario db !! fid).
    + intros f e Hf He Hs. split.
      * intros H0. unfold entregar_epi. desmonta. rewrite Hfid, Hid, Hq. simpl.
        rewrite Hf, He. simpl.
        rewrite bool_decide_eq_false_2 by (intros H; apply H; exact Hs).
        by destruct (Z.leb_spec q 0); [|lia].
      * intros H0 Hn Hv. unfold entregar_epi. desmonta.
        rewrite Hfid, Hid, Hq. simpl. rewrite Hf, He. simpl.
        rewrite bool_decide_eq_false_2 by (intros H; apply H; exact Hs).
        destruct (Z.leb_spec q 0); [lia|].
        destruct (Z.ltb_spec (Epi.quantidade e) q); [lia|].
        rewrite Hv. simpl. by destruct db.
Qed.

Lemma X17_entregar_epi_recusas_witness :
  servir (entregar_epi admin (form_entrega 9 1 5 (Some "errada"))) db_capacete
  = (Redireciona FuncionarioOuEpiInvalido, db_capacete)
  ∧ servir (entregar_epi admin (form_entrega 1 1 0 (Some "s3nha"))) db_capacete
    = (Redireciona InformeQuantidade, db_capacete)
  ∧ servir (entregar_epi admin
              (MkFormEntrega (Inteiro 1) (Inteiro 1) (Inteiro 5) (Some "31/12/2030")
                             (Some "s3nha") None)) db_capacete
    = (Redireciona ErroEntrega, db_capacete).
Proof.
  split; [|split].
  - destruct (proj2 (X17_entregar_epi_recusas admin db_capacete
                       (form_entrega 9 1 5 (Some "errada"))) 9 1 5
                eq_refl eq_refl eq_refl) as [H _].
    apply H. left. reflexivity.
  - destruct (proj2 (X17_entregar_epi_recusas admin db_capacete
                       (form_entrega 1 1 0 (Some "s3nha"))) 1 1 0
                eq_refl eq_refl eq_refl) as [_ H].
    destruct (H ana (Epi.Novo "Helmet" "12345" "31/12/2030" 20 "H-01" "")
                eq_refl eq_refl eq_refl) as [H0 _].
    apply H0. lia.
  - destruct (proj2 (X17_entregar_epi_recusas admin db_capacete
                       (MkFormEntrega (Inteiro 1) (Inteiro 1) (Inteiro 5)
                                      (Some "31/12/2030") (Some "s3nha") None)) 1 1 5
                eq_refl eq_refl eq_refl) as [_ H].
    destruct (H ana (Epi.Novo "Helmet" "12345" "31/12/2030" 20 "H-01" "")
                eq_refl eq_refl eq_refl) as [_ Hv].
    apply Hv; [lia | simpl; lia | reflexivity].
Defined.

(** X18. Once a secret is set for an employee through
    [/definir_senha_funcionario] (the commit going through), it is stored
    as typed, and a delivery to that employee gets the wrong-secret message
    exactly when the secret supplied with it differs; setting an empty
    secret makes the empty secret the accepted one. *)
Theorem X18_definir_senha_e_entregar ctx ctx' db id func senha form eid q e :
  falha ctx 0%nat = false →
  funcionario db !! id = Some func →
  epi db !! eid = Some e →
  valor_ou (fe_funcionario_id form) 0 = Some id →
  valor_ou (fe_epi_id form) 0 = Some eid →
  valor_ou (fe_quantidade form) 0 = Some q →
  let db1 := (servir (definir_senha_funcionario ctx id senha) db).2 in
  Funcionario.senha_validacao <$> funcionario db1 !! id = Some (Some (ou senha ""))
  ∧ ((servir (entregar_epi ctx' form) db1).1 = Redireciona SenhaIncorreta
     ↔ ou (fe_senha_validacao form) "" ≠ ou senha "").
Proof.
  intros Hc Hf He Hfid Hid Hq db1. subst db1.
  pose proof (definir_senha_funcionario_estados ctx db id senha) as H.
  rewrite Hf in H. simpl in H. rewrite H, Hc. clear H.
  set (f' := Funcionario.com_senha_validacao func (Some (ou senha ""))).
  assert (funcionario (if falha ctx 1%nat
                       then (Erro500, com_funcionario db id f')
                       else (Redireciona SenhaCadastrada,
                             com_log (com_funcionario db id f')
                               (linha_log ctx ("Definiu senha de validação para "
                                               +:+ Funcionario.nome func)))).2 !! id
          = Some f') as Hf'.
  { destruct (falha ctx 1%nat); simpl; by rewrite lookup_insert_eq. }
  assert (epi (if falha ctx 1%nat
               then (Erro500, com_funcionario db id f')
               else (Redireciona SenhaCadastrada,
                     com_log (com_funcionario db id f')
                       (linha_log ctx ("Definiu senha de validação para "
                                       +:+ Funcionario.nome func)))).2 !! eid
          = Some e) as He'.
  { by destruct (falha ctx 1%nat). }
  split.
  - by rewrite Hf'.
  - rewrite (entregar_epi_senha ctx' _ form id eid q f' e Hfid Hid Hq Hf' He').
    assert (ou (Funcionario.senha_validacao f') "" = ou senha "") as ->.
    { unfold f', ou. simpl. destruct senha as [s|]; [|done]. by destruct s. }
    split; intros H1 H2; by apply H1.
Qed.

Lemma X18_definir_senha_e_entregar_witness :
  let db1 := (servir (definir_senha_funcionario admin 2 (Some "abc")) db_capacete).2 in
  (servir (entregar_epi admin (form_entrega 2 1 1 None)) db1).1
  = Redireciona SenhaIncorreta.
Proof.
  pose proof (X18_definir_senha_e_entregar admin admin db_capacete 2 bia (Some "abc")
                (form_entrega 2 1 1 None) 1 1
                (Epi.Novo "Helmet" "12345" "31/12/2030" 20 "H-01" "")) as H.
  destruct H as [_ H];
    [reflexivity | reflexivity | reflexivity | reflexivity | reflexivity | reflexivity |].
  apply H. discriminate.
Defined.

(** ** X19, X20: [/cadastro_funcionarios] *)

Lemma matricula_em_uso_true db m k f :
  funcionario db !! k = Some f →
  Funcionario.matricula f = m →
  matricula_em_uso db m = true.
Proof.
  intros Hk Hm. unfold matricula_em_uso.
  rewrite bool_decide_eq_false_2; [done|].
  intros Hall. by apply (Hall k f Hk).
Qed.

Lemma matricula_em_uso_false db m :
  (∀ k f, funcionario db !! k = Some f → Funcionario.matricula f ≠ m) →
  matricula_em_uso db m = false.
Proof.
  intros H. unfold matricula_em_uso. by rewrite bool_decide_eq_true_2.
Qed.

(** X19. A registration of an employee stores nothing when the user is
    neither admin nor supervisor (whatever the form), when the name, the
    registration number or the department is empty once stripped or the
    admission date is missing, when the date is not a year-month-day date
    (the 500 page), and when a stored employee already holds the
    registration number (the 500 page again, from the unique constraint). *)
Theorem X19_cadastro_funcionarios_recusas ctx db form :
  (sem_acesso ctx = true →
   correr (cadastro_funcionarios ctx form) db = (Retorna AcessoRestrito, db))
  ∧ (sem_acesso ctx = false →
     (strip (ou (ff_nome form) "") = ""
      ∨ strip (ou (ff_matricula form) "") = ""
      ∨ strip (ou (ff_setor form) "") = ""
      ∨ ou (ff_data_admissao form) "" = "" →
      correr (cadastro_funcionarios ctx form) db = (Retorna PreenchaObrigatorios, db))
     ∧ (strip (ou (ff_nome form) "") ≠ "" →
        strip (ou (ff_matricula form) "") ≠ "" →
        strip (ou (ff_setor form) "") ≠ "" →
        ou (ff_data_admissao form) "" ≠ "" →
        (strptime fmt_Ymd (ou (ff_data_admissao form) "") = None
         ∨ (∃ k f, funcionario db !! k = Some f
                   ∧ Funcionario.matricula f = strip (ou (ff_matricula form) ""))) →
        correr (cadastro_funcionarios ctx form) db = (Levanta Erro, db))).
Proof.
  split; [|intros Hacc; split].
  - intros Hacc. unfold cadastro_funcionarios, correr. by rewrite Hacc.
  - intros H. unfold cadastro_funcionarios, correr. rewrite Hacc.
    destruct H as [-> |[-> |[-> | ->]]]; simpl; rewrite ?orb_true_r; done.
  - intros Hn Hm Hs Hd H. unfold cadastro_funcionarios, correr. rewrite Hacc.
    destruct (strip (ou (ff_nome form) "")) eqn:En; [done|].
    destruct (strip (ou (ff_matricula form) "")) eqn:Em; [done|].
    destruct (strip (ou (ff_setor form) "")) eqn:Es; [done|].
    destruct (ou (ff_data_admissao form) "") eqn:Ed; [done|]. simpl.
    destruct (strptime fmt_Ymd (String a2 s2)) as [d|] eqn:Hp; [|done].
    destruct H as [?|(k & f & Hk & Hf)]; [done|].
    unfold add_funcionario, commit_matricula_unica. desmonta.
    by rewrite (matricula_em_uso_true db _ k f Hk Hf).
Qed.

Lemma X19_cadastro_funcionarios_recusas_witness :
  correr (cadastro_funcionarios (MkContexto "joao" "user" 0 0 (λ _, false)) form_caio)
         db_inicial
  = (Retorna AcessoRestrito, db_inicial)
  ∧ correr (cadastro_funcionarios admin
              (MkFormFuncionario (Some "Dora") (Some "M-001") (Some "Obras")
                                 (Some "2024-03-01"))) db_inicial
    = (Levanta Erro, db_inicial)
  ∧ correr (cadastro_funcionarios admin
              (MkFormFuncionario (Some "Dora") (Some "M-009") (Some "Obras")
                                 (Some "01/03/2024"))) db_inicial
    = (Levanta Erro, db_inicial).
Proof.
  split; [|split].
  - apply (proj1 (X19_cadastro_funcionarios_recusas
                    (MkContexto "joao" "user" 0 0 (λ _, false)) db_inicial form_caio)).
    reflexivity.
  - apply (proj2 (proj2 (X19_cadastro_funcionarios_recusas admin db_inicial
                    (MkFormFuncionario (Some "Dora") (Some "M-001") (Some "Obras")
                                       (Some "2024-03-01"))) eq_refl));
      [discriminate | discriminate | discriminate | discriminate |].
    right. exists 1, ana. split; reflexivity.
  - apply (proj2 (proj2 (X19_cadastro_funcionarios_recusas admin db_inicial
                    (MkFormFuncionario (Some "Dora") (Some "M-009") (Some "Obras")
                                       (Some "01/03/2024"))) eq_refl));
      [discriminate | discriminate | discriminate | discriminate |].
    left. reflexivity.
Defined.

(** X20. A registration that passes the checks and whose commits go
    through stores the employee at a fresh key with the texts stripped and
    no validation secret; until a secret is set, a delivery to that
    employee gets the wrong-secret message exactly when a non-empty secret
    is supplied with it, so the empty secret authorizes it. *)
Theorem X20_cadastro_e_entrega ctx ctx' db form d fe eid q e :
  sem_acesso ctx = false →
  (∀ n, falha ctx n = false) →
  strip (ou (ff_nome form) "") ≠ "" →
  strip (ou (ff_matricula form) "") ≠ "" →
  strip (ou (ff_setor form) "") ≠ "" →
  strptime fmt_Ymd (ou (ff_data_admissao form) "") = Some d →
  (∀ k f, funcionario db !! k = Some f →
          Funcionario.matricula f ≠ strip (ou (ff_matricula form) "")) →
  epi db !! eid = Some e →
  let k := proximo_id (funcionario db) in
  valor_ou (fe_funcionario_id fe) 0 = Some k →
  valor_ou (fe_epi_id fe) 0 = Some eid →
  valor_ou (fe_quantidade fe) 0 = Some q →
  let r := correr (cadastro_funcionarios ctx form) db in
  r.1 = Retorna FuncionarioCadastrado
  ∧ funcionario db !! k = None
  ∧ funcionario r.2 = <[k := funcionario_do_form form d]> (funcionario db)
  ∧ epi r.2 = epi db ∧ entrega_epi r.2 = entrega_epi db
  ∧ ((servir (entregar_epi ctx' fe) r.2).1 = Redireciona SenhaIncorreta
     ↔ ou (fe_senha_validacao fe) "" ≠ "").
Proof.
  intros Hacc Hc Hn Hm Hs Hd Hlivre He k Hfid Hid Hq r. subst r.
  assert (correr (cadastro_funcionarios ctx form) db
          = (Retorna FuncionarioCadastrado,
             com_log (com_funcionario db k (funcionario_do_form form d))
               (linha_log ctx ("Cadastrou funcionário: "
                               +:+ strip (ou (ff_nome form) ""))))) as Hrun.
  { unfold cadastro_funcionarios, correr. rewrite Hacc.
    destruct (strip (ou (ff_nome form) "")) eqn:En; [done|].
    destruct (strip (ou (ff_matricula form) "")) eqn:Em; [done|].
    destruct (strip (ou (ff_setor form) "")) eqn:Es; [done|].
    destruct (ou (ff_data_admissao form) "") eqn:Ed; [done|]. simpl.
    rewrite Hd. unfold add_funcionario, commit_matricula_unica. desmonta.
    rewrite (matricula_em_uso_false db _ Hlivre). simpl.
    rewrite !Hc. simpl. unfold funcionario_do_form. by rewrite En, Em, Es. }
  rewrite Hrun. cbn [fst snd].
  split; [done|]. split; [apply proximo_id_livre|].
  split; [done|]. split; [done|]. split; [done|].
  set (db1 := com_log _ _).
  assert (funcionario db1 !! k = Some (funcionario_do_form form d)) as Hf1
      by apply lookup_insert_eq.
  assert (epi db1 !! eid = Some e) as He1 by done.
  rewrite (entregar_epi_senha ctx' db1 fe k eid q (funcionario_do_form form d) e
             Hfid Hid Hq Hf1 He1).
  simpl. split; intros H1 H2; by apply H1.
Qed.

Lemma X20_cadastro_e_entrega_witness :
  let r := correr (cadastro_funcionarios admin form_caio) db_capacete in
  r.1 = Retorna FuncionarioCadastrado
  ∧ funcionario r.2 !! 3
    = Some (Funcionario.Novo "Caio" "M-003" "Pintura" (Some (Data 2024 3 1)) None)
  ∧ (servir (entregar_epi admin (form_entrega 3 1 2 None)) r.2).1
    ≠ Redireciona SenhaIncorreta.
Proof.
  pose proof (X20_cadastro_e_entrega admin admin db_capacete form_caio (Data 2024 3 1)
                (form_entrega 3 1 2 None) 1 2
                (Epi.Novo "Helmet" "12345" "31/12/2030" 20 "H-01" "")) as H.
  destruct H as (Hr & _ & Hf & _ & _ & Hs);
    [reflexivity | reflexivity | discriminate | discriminate | discriminate
    | reflexivity | | reflexivity | reflexivity | reflexivity | reflexivity |].
  - intros k f Hk.
    assert (funcionario db_capacete = {[1 := ana; 2 := bia]}) as Heq by reflexivity.
    rewrite Heq in Hk.
    destruct (decide (k = 1)) as [->|H1].
    + rewrite lookup_insert_eq in Hk. injection Hk as <-. discriminate.
    + rewrite lookup_insert_ne in Hk by done.
      apply lookup_singleton_Some in Hk as [_ <-]. discriminate.
  - split; [exact Hr|]. split; [rewrite Hf; reflexivity|].
    intros Hx. apply Hs in Hx. apply Hx. reflexivity.
Defined.

(** ** X21 to X23: the dashboard *)

Example ordinal_2024_03_01 : ordinal (Data 2024 3 1) = 738946.
Proof. reflexivity. Qed.

Example ordinal_0001_01_01 : ordinal (Data 1 1 1) = 1.
Proof. reflexivity. Qed.

(** X21. Whatever the date filter, the "pendências" card of the dashboard
    shows the same number as the "total de entregas" card after any
    sequence of requests: its extra condition, a positive quantity, holds
    for every delivery row the routes leave. *)
Theorem X21_pendencias_igual_total ops db f :
  quantidades_positivas db →
  pendencias f (executar ops db) = total_entregas f (executar ops db).
Proof.
  intros Hinv.
  assert (quantidades_positivas (executar ops db)) as Hinv'.
  { revert Hinv. apply (executar_preserva quantidades_positivas).
    intros ctx op db0. apply transicao_quantidades_positivas, rota_transicao. }
  unfold pendencias, total_entregas. f_equal.
  apply map_filter_id. intros k d Hd. simpl.
  apply map_lookup_filter_Some in Hd as [Hd _]. by eapply Hinv'.
Qed.

Lemma X21_pendencias_igual_total_witness :
  let db := executar [(admin, OpDevolver 1 (Inteiro 2))] db_entregue in
  pendencias None db = total_entregas None db.
Proof.
  apply (X21_pendencias_igual_total [(admin, OpDevolver 1 (Inteiro 2))] db_entregue None).
  intros k d Hd. rewrite db_entregue_entregas in Hd.
  apply lookup_singleton_Some in Hd as [_ <-]. simpl. lia.
Defined.

(** [primeiro] fails when the continuation fails on every alternative. *)
Lemma parse_data_meia_noite s t :
  parse_data s = Some t → t = Datetime (dt_data t) 0 0 0 0.
Proof.
  unfold parse_data, strptime_datetime.
  destruct (vazia s); [done|].
  destruct (strptime fmt_Ymd s); simpl; [by intros [= <-]|].
  destruct (strptime fmt_dmY s); simpl; [by intros [= <-]|done].
Qed.

(** [parse_data] reads a calendar date written in either form. *)
Lemma parse_data_texto d s :
  data_valida d →
  s = texto_Ymd d ∨ s = texto_dmY d ∨ s = texto_dmY_curto d →
  parse_data s = Some (Datetime d 0 0 0 0).
Proof.
  intros Hd Hs.
  assert (strptime fmt_Ymd s = Some d
          ∨ strptime fmt_Ymd s = None ∧ strptime fmt_dmY s = Some d) as Hl.
  { destruct Hs as [-> | Hs]; [left; by apply strptime_texto_Ymd|]. right.
    assert (strptime fmt_dmY s = Some d) as Hbr.
    { destruct Hs as [-> | ->];
        [by apply strptime_texto_dmY | by apply strptime_texto_dmY_curto]. }
    split; [|done].
    destruct (strptime fmt_Ymd s) as [d'|] eqn:Hiso; [|done].
    rewrite formatos_disjuntos in Hbr by (by eexists). done. }
  assert (vazia s = false) as Hv.
  { destruct s; [|done]. by destruct Hl as [Hl|[_ Hl]]; vm_compute in Hl. }
  unfold parse_data, strptime_datetime. rewrite Hv.
  destruct Hl as [-> | [-> ->]]; done.
Qed.

Lemma corta_algarismo n r : 0 ≤ n ≤ 9 → corta (String (algarismo n) r) = None.
Proof.
  intros Hn.
  assert (n = 0 ∨ n = 1 ∨ n = 2 ∨ n = 3 ∨ n = 4 ∨ n = 5 ∨ n = 6 ∨ n = 7
          ∨ n = 8 ∨ n = 9) as H by lia.
  repeat destruct H as [->|H]; try subst n; reflexivity.
Qed.

Lemma rstrip_cabeca c r :
  corta (String c r) = None → rstrip (String c r) = String c (rstrip r).
Proof.
  intros Hc. rewrite rstrip_cons, (lstrip_fixo _ Hc). done.
Qed.

(** A date written YYYY-MM-DD has no white space to strip. *)
Lemma strip_texto_Ymd d : data_valida d → strip (texto_Ymd d) = texto_Ymd d.
Proof.
  destruct d as [y m d]. intros (Hy & Hm & Hd). simpl in *.
  pose proof (dias_no_mes_31 y m).
  assert (0 ≤ y / 1000 ≤ 9) by (Z.div_mod_to_equations; lia).
  assert (0 ≤ y / 100 mod 10 ≤ 9) by (Z.div_mod_to_equations; lia).
  assert (0 ≤ y / 10 mod 10 ≤ 9) by (Z.div_mod_to_equations; lia).
  assert (0 ≤ y mod 10 ≤ 9) by (Z.div_mod_to_equations; lia).
  assert (0 ≤ m / 10 ≤ 9) by (Z.div_mod_to_equations; lia).
  assert (0 ≤ m mod 10 ≤ 9) by (Z.div_mod_to_equations; lia).
  assert (0 ≤ d / 10 ≤ 9) by (Z.div_mod_to_equations; lia).
  assert (0 ≤ d mod 10 ≤ 9) by (Z.div_mod_to_equations; lia).
  unfold strip, texto_Ymd, quatro_algarismos, dois_algarismos.
  simpl ano; simpl mes; simpl dia.
  repeat first
    [ progress change (String ?c ?a +:+ ?r) with (String c (a +:+ r))
    | progress change ("" +:+ ?r) with r ].
  rewrite lstrip_fixo by (by apply corta_algarismo).
  repeat (rewrite rstrip_cabeca
            by (by apply corta_algarismo || reflexivity); f_equal).
Qed.

(** X22. No text is read by both formats of [parse_data]: a text the
    year-month-day format accepts is refused by the day/month/year format,
    so the order in which [parse_data] tries them never decides the
    answer, and its answer is the date either format reads, at midnight.
    A calendar date written YYYY-MM-DD, DD/MM/YYYY or D/M/YYYY is read as
    that date. *)
Theorem X22_parse_data_formatos s :
  (is_Some (strptime fmt_Ymd s) → strptime fmt_dmY s = None)
  ∧ (∀ t, parse_data s = Some t
          ↔ (strptime fmt_Ymd s = Some (dt_data t)
             ∨ strptime fmt_dmY s = Some (dt_data t))
            ∧ t = Datetime (dt_data t) 0 0 0 0)
  ∧ (∀ d, data_valida d →
          s = texto_Ymd d ∨ s = texto_dmY d ∨ s = texto_dmY_curto d →
          parse_data s = Some (Datetime d 0 0 0 0)).
Proof.
  pose proof (formatos_disjuntos s) as Hdisj.
  split; [exact Hdisj|]. split.
  - intros t. unfold parse_data, strptime_datetime.
    destruct s as [|c s]; simpl vazia; cbv iota.
    { split; [done|]. intros [[H|H] _]; by vm_compute in H. }
    destruct (strptime fmt_Ymd (String c s)) as [d|] eqn:Hiso; simpl.
    + rewrite (Hdisj ltac:(by eexists)). split.
      * intros [= <-]. split; [by left|done].
      * intros [[[= ->]|?] ->]; done.
    + destruct (strptime fmt_dmY (String c s)) as [d|] eqn:Hbr; simpl.
      * split.
        -- intros [= <-]. split; [by right|done].
        -- intros [[?|[= ->]] ->]; done.
      * split; [done|]. intros [[?|?] _]; done.
  - intros d Hd Hs. by apply parse_data_texto.
Qed.

Lemma X22_parse_data_formatos_witness :
  parse_data "2024-03-05" = Some (Datetime (Data 2024 3 5) 0 0 0 0)
  ∧ parse_data "05/03/2024" = Some (Datetime (Data 2024 3 5) 0 0 0 0)
  ∧ strptime fmt_dmY "2024-03-05" = None
  ∧ parse_data "２０２４-03-05" = Some (Datetime (Data 2024 3 5) 0 0 0 0)
  ∧ parse_data (texto_dmY (Data 2024 2 29))
    = Some (Datetime (Data 2024 2 29) 0 0 0 0).
Proof.
  split; [|split; [|split; [|split]]].
  - apply (proj1 (proj2 (X22_parse_data_formatos "2024-03-05"))).
    split; [left; reflexivity | reflexivity].
  - apply (proj1 (proj2 (X22_parse_data_formatos "05/03/2024"))).
    split; [right; reflexivity | reflexivity].
  - apply (proj1 (X22_parse_data_formatos "2024-03-05")). eexists. reflexivity.
  - apply (proj1 (proj2 (X22_parse_data_formatos "２０２４-03-05"))).
    split; [left; reflexivity | reflexivity].
  - apply (proj2 (proj2 (X22_parse_data_formatos (texto_dmY (Data 2024 2 29))))
             (Data 2024 2 29)); [|right; left; reflexivity].
    split; [|split]; simpl; vm_compute; split; discriminate.
Defined.

(** X23. The date filter of the dashboard is on exactly when both dates
    are given and both parse; otherwise the counters ignore the dates.
    When it is on, the period begins at 00:00:00 of the start date and ends
    at 23:59:59.000000 of the end date, so that two calendar dates written
    YYYY-MM-DD give the period from the first midnight to the last second
    of the second date, and a delivery still "entregue" stamped in that
    last second is counted when its microseconds are zero and left out when
    they are not. *)
Theorem X23_filtro_datas a b :
  (parse_data (strip (default "" a)) = None
   ∨ parse_data (strip (default "" b)) = None →
   filtro_datas a b = None)
  ∧ (∀ i tf,
       parse_data (strip (default "" a)) = Some i →
       parse_data (strip (default "" b)) = Some tf →
       filtro_datas a b = Some (i, Datetime (dt_data tf) 23 59 59 0))
  ∧ (∀ di df,
       data_valida di → data_valida df →
       a = Some (texto_Ymd di) → b = Some (texto_Ymd df) →
       filtro_datas a b
       = Some (Datetime di 0 0 0 0, Datetime df 23 59 59 0))
  ∧ ∀ i f,
      filtro_datas a b = Some (i, f) →
      parse_data (strip (default "" a)) = Some i
      ∧ parse_data (strip (default "" b)) = Some (Datetime (dt_data f) 0 0 0 0)
      ∧ f = Datetime (dt_data f) 23 59 59 0
      ∧ ∀ db k x us,
          entrega_epi db !! k = Some x →
          EntregaEpi.status x = "entregue" →
          instante i ≤ EntregaEpi.data_entrega x →
          EntregaEpi.data_entrega x = instante (Datetime (dt_data f) 23 59 59 us) →
          (base_entregas (Some (i, f)) db !! k = Some x ↔ us ≤ 0).
Proof.
  assert (∀ i tf,
            parse_data (strip (default "" a)) = Some i →
            parse_data (strip (default "" b)) = Some tf →
            filtro_datas a b = Some (i, Datetime (dt_data tf) 23 59 59 0))
    as Hligado.
  { intros i tf Hi Hf. unfold filtro_datas.
    destruct (strip (default "" a)) as [|ca sa] eqn:Ha; [done|].
    destruct (strip (default "" b)) as [|cb sb] eqn:Hb; [done|].
    simpl orb. cbv iota. rewrite Hi, Hf.
    apply parse_data_meia_noite in Hf. rewrite Hf. done. }
  split; [|split; [exact Hligado|split]].
  - intros H. unfold filtro_datas.
    destruct (vazia _ || vazia _); [done|].
    destruct H as [-> | ->]; [done|].
    by destruct (parse_data (strip (default "" a))).
  - intros di df Hdi Hdf -> ->. apply (Hligado _ (Datetime df 0 0 0 0)).
    + simpl default. rewrite strip_texto_Ymd by done.
      apply parse_data_texto; [done|by left].
    + simpl default. rewrite strip_texto_Ymd by done.
      apply parse_data_texto; [done|by left].
  - intros i f. unfold filtro_datas.
    destruct (vazia _ || vazia _); [done|].
    destruct (parse_data (strip (default "" a))) as [ti|] eqn:Hi; [|done].
    destruct (parse_data (strip (default "" b))) as [tf|] eqn:Hf; [|done].
    intros [= <- <-].
    apply parse_data_meia_noite in Hf.
    destruct tf as [d h m sg u]. simpl in Hf. injection Hf as -> -> -> ->.
    split; [done|]. split; [done|]. split; [done|].
    intros db k x us Hx Hst Hini Hdata.
    unfold base_entregas. rewrite map_lookup_filter_Some. simpl.
    rewrite Hst. rewrite bool_decide_eq_true_2 by done. simpl.
    destruct (Z.leb_spec (instante ti) (EntregaEpi.data_entrega x)) as [_|Hlt];
      [|lia]. simpl.
    rewrite Hdata. unfold instante. simpl. split.
    + intros [_ Hle]. apply Is_true_true, Z.leb_le in Hle. lia.
    + intros Hus. split; [exact Hx|]. apply Is_true_true, Z.leb_le. lia.
Qed.

Lemma X23_filtro_datas_witness :
  filtro_datas (Some "2024-03-01") (Some "31-03-2024") = None
  ∧ filtro_datas (Some " 2024-03-01") (Some "31/03/2024 ")
    = Some (Datetime (Data 2024 3 1) 0 0 0 0, Datetime (Data 2024 3 31) 23 59 59 0)
  ∧ filtro_datas (Some (texto_Ymd (Data 2024 3 1))) (Some (texto_Ymd (Data 2024 3 31)))
    = Some (Datetime (Data 2024 3 1) 0 0 0 0, Datetime (Data 2024 3 31) 23 59 59 0).
Proof.
  split; [|split].
  - apply (proj1 (X23_filtro_datas (Some "2024-03-01") (Some "31-03-2024"))).
    right. reflexivity.
  - apply (proj1 (proj2 (X23_filtro_datas (Some " 2024-03-01") (Some "31/03/2024 ")))
             (Datetime (Data 2024 3 1) 0 0 0 0)
             (Datetime (Data 2024 3 31) 0 0 0 0)); reflexivity.
  - apply (proj1 (proj2 (proj2 (X23_filtro_datas
                                  (Some (texto_Ymd (Data 2024 3 1)))
                                  (Some (texto_Ymd (Data 2024 3 31))))))
             (Data 2024 3 1) (Data 2024 3 31));
      try reflexivity;
      (split; [|split]); simpl; vm_compute; split; discriminate.
Defined.

(** ** X24: [_sqlite_path_from_uri] *)

Example replace_ok : replace "a-b--c" "-" "+" = "a+b++c".
Proof. reflexivity. Qed.

Example replace_sem_sobreposicao : replace "aaaa" "aa" "b" = "bb".
Proof. reflexivity. Qed.

Lemma prefix_app a b s :
  String.prefix (a +:+ b) s = true → String.prefix a s = true.
Proof.
  revert s. induction a as [|c a IH]; intros s; destruct s as [|c' s]; simpl;
    try done.
  destruct (ascii_dec c c'); [apply IH|done].
Qed.

Lemma substitui_sem_ocorrencia old new s :
  contem old s = false → substitui old new 0 s = s.
Proof.
  induction s as [|c r IH]; [done|].
  intros H. cbn [contem] in H. apply orb_false_elim in H as [Hp Hc].
  cbn [substitui]. rewrite Hp. by rewrite IH.
Qed.

Lemma prefix_proprio old r : String.prefix old (old +:+ r) = true.
Proof.
  induction old as [|c old IH].
  - change ("" +:+ r) with r. by destruct r.
  - change (String c old +:+ r) with (String c (old +:+ r)). simpl.
    by destruct (ascii_dec c c).
Qed.

Lemma substitui_pula old new a r :
  substitui old new (String.length a) (a +:+ r) = substitui old new 0 r.
Proof.
  induction a as [|c a IH]; [done|].
  change (String c a +:+ r) with (String c (a +:+ r)). simpl. exact IH.
Qed.

(** An occurrence at the head is replaced and the scan goes on after it. *)
Lemma replace_cabeca c old new r :
  replace (String c old +:+ r) (String c old) new
  = new +:+ replace r (String c old) new.
Proof.
  unfold replace.
  change (String c old +:+ r) with (String c (old +:+ r)).
  cbn [substitui].
  change (String c (old +:+ r)) with (String c old +:+ r).
  rewrite prefix_proprio.
  change (String.length (String c old) - 1)%nat with (String.length old - 0)%nat.
  rewrite Nat.sub_0_r. by rewrite substitui_pula.
Qed.

(** X24. For a URI that starts with three slashes after "sqlite:" the
    function returns what follows them, provided the marker does not occur
    again in it: a relative path as it is, and an absolute one with its
    leading slash, since the fourth slash is part of the path. The branch
    for four slashes is never taken, a URI with four slashes having three;
    any other URI gives the empty text. *)
Theorem X24_sqlite_path_from_uri :
  (∀ p, contem "sqlite:///" p = false →
        _sqlite_path_from_uri ("sqlite:///" +:+ p) = p)
  ∧ (∀ uri, String.prefix "sqlite:////" uri = true →
            String.prefix "sqlite:///" uri = true
            ∧ _sqlite_path_from_uri uri = replace uri "sqlite:///" "")
  ∧ (∀ uri, String.prefix "sqlite:///" uri = false →
            _sqlite_path_from_uri uri = "").
Proof.
  split; [|split].
  - intros p Hp. unfold _sqlite_path_from_uri.
    rewrite prefix_proprio, replace_cabeca.
    change ("" +:+ replace p "sqlite:///" "") with (replace p "sqlite:///" "").
    by apply substitui_sem_ocorrencia.
  - intros uri H4.
    assert (String.prefix "sqlite:///" uri = true) as H3
        by (apply (prefix_app "sqlite:///" "/"); exact H4).
    split; [done|]. unfold _sqlite_path_from_uri. by rewrite H3.
  - intros uri H3. unfold _sqlite_path_from_uri. rewrite H3.
    destruct (String.prefix "sqlite:////" uri) eqn:H4; [|done].
    apply (prefix_app "sqlite:///" "/") in H4. congruence.
Qed.

Lemma X24_sqlite_path_from_uri_witness :
  _sqlite_path_from_uri "sqlite:///instance/epi.db" = "instance/epi.db"
  ∧ _sqlite_path_from_uri "sqlite:////var/lib/epi.db" = "/var/lib/epi.db"
  ∧ _sqlite_path_from_uri "postgresql://u@h/epi" = "".
Proof.
  destruct X24_sqlite_path_from_uri as (Hrel & _ & Hout).
  split; [|split].
  - apply (Hrel "instance/epi.db"). reflexivity.
  - apply (Hrel "/var/lib/epi.db"). reflexivity.
  - apply Hout. reflexivity.
Defined.

(** ** X25 to X28: the user table *)

Ltac desmonta_u :=
  unfold correr_u, registrar_log_u, get_or_404_u, put_user, add_user,
    commit_login_unico, le_u, muda_u, commit_u, levanta_u, bind_u, ret_u; simpl.

Lemma login_em_uso_false t l :
  login_em_uso t l = false ↔ ∀ j b, t !! j = Some b → User.login b ≠ l.
Proof.
  unfold login_em_uso. rewrite negb_false_iff, bool_decide_eq_true. done.
Qed.

(** What [/editar_usuario] leaves of the user table. *)
Lemma editar_usuario_estados ctx bd id form :
  user (correr_u (editar_usuario ctx id form) bd).2 = user bd
  ∨ ∃ u, user bd !! id = Some u
         ∧ nao_admin ctx = false
         ∧ falha ctx 0%nat = false
         ∧ login_de_outro (user bd) id (strip (ou (fu_login form) (User.login u))) = false
         ∧ user (correr_u (editar_usuario ctx id form) bd).2
           = <[id := User.Novo (User.nome u)
                               (strip (ou (fu_login form) (User.login u)))
                               (User.senha u)
                               (ou (fu_role form) (User.role u))]> (user bd).
Proof.
  unfold editar_usuario.
  destruct (nao_admin ctx) eqn:Hadm; [by left|]. desmonta_u.
  destruct (user bd !! id) as [u|] eqn:Hu; simpl; [|by left].
  destruct (login_de_outro (user bd) id _) eqn:Huso; simpl; [by left|].
  destruct (falha ctx 0%nat) eqn:Hc; simpl; [by left|].
  right. exists u. repeat split; try done.
  by destruct (falha ctx 1%nat).
Qed.

(** What [/deletar_usuario] leaves of the user table. *)
Lemma deletar_usuario_estados ctx bd id :
  match user bd !! id with
  | Some u =>
      if nao_admin ctx then correr_u (deletar_usuario ctx id) bd = (Retorna Restrito, bd)
      else if bool_decide (User.login u = "admin")
      then correr_u (deletar_usuario ctx id) bd = (Retorna AdminPadrao, bd)
      else if falha ctx 0%nat
      then correr_u (deletar_usuario ctx id) bd = (Levanta Erro, bd)
      else user (correr_u (deletar_usuario ctx id) bd).2 = delete id (user bd)
  | None => (correr_u (deletar_usuario ctx id) bd).2 = bd
  end.
Proof.
  unfold deletar_usuario.
  destruct (user bd !! id) as [u|] eqn:Hu.
  - destruct (nao_admin ctx); [done|]. desmonta_u. rewrite Hu. simpl.
    case_bool_decide; [done|]. desmonta_u.
    destruct (falha ctx 0%nat); simpl; [done|].
    by destruct (falha ctx 1%nat).
  - destruct (nao_admin ctx); [done|]. desmonta_u. by rewrite Hu.
Qed.

(** X25. The route that deletes users refuses the account whose login
    is "admin", but the guard reads the login only: once an administrator
    has edited that account's login to a free one other than "admin", the
    same deletion goes through and the account is gone. *)
Theorem X25_guarda_do_admin ctx1 ctx2 bd id u form l :
  nao_admin ctx1 = false → nao_admin ctx2 = false →
  falha ctx1 0%nat = false → falha ctx2 0%nat = false →
  user bd !! id = Some u →
  User.login u = "admin" →
  strip (ou (fu_login form) "admin") = l →
  l ≠ "admin" →
  login_de_outro (user bd) id l = false →
  correr_u (deletar_usuario ctx2 id) bd = (Retorna AdminPadrao, bd)
  ∧ let bd1 := (correr_u (editar_usuario ctx1 id form) bd).2 in
    User.login <$> user bd1 !! id = Some l
    ∧ user (correr_u (deletar_usuario ctx2 id) bd1).2 = delete id (user bd).
Proof.
  intros Ha1 Ha2 Hc1 Hc2 Hu Hlogin Hl Hne Hlivre. split.
  - pose proof (deletar_usuario_estados ctx2 bd id) as H.
    rewrite Hu, Ha2, Hlogin in H. done.
  - intros bd1.
    assert (user bd1
            = <[id := User.Novo (User.nome u) l (User.senha u)
                                (ou (fu_role form) (User.role u))]> (user bd)) as Hbd1.
    { unfold bd1, editar_usuario. rewrite Ha1. desmonta_u. rewrite Hu. simpl.
      rewrite Hlogin, Hl, Hlivre. simpl. rewrite Hc1. simpl.
      by destruct (falha ctx1 1%nat). }
    split; [by rewrite Hbd1, lookup_insert_eq|].
    pose proof (deletar_usuario_estados ctx2 bd1 id) as H.
    rewrite Hbd1, lookup_insert_eq, Ha2 in H. simpl in H.
    rewrite bool_decide_eq_false_2 in H by done. rewrite Hc2 in H.
    rewrite H. apply delete_insert_eq.
Qed.

Lemma X25_guarda_do_admin_witness :
  correr_u (deletar_usuario admin 1) bd_admin = (Retorna AdminPadrao, bd_admin)
  ∧ let bd1 := (correr_u (editar_usuario admin 1
                            (MkFormUsuario None (Some "raiz") None None)) bd_admin).2 in
    user (correr_u (deletar_usuario admin 1) bd1).2 !! 1 = None.
Proof.
  pose proof (X25_guarda_do_admin admin admin bd_admin 1
                (User.Novo "Administrador" "admin" "1234" "admin")
                (MkFormUsuario None (Some "raiz") None None) "raiz") as H.
  destruct H as [Hdel [_ Hgone]];
    [reflexivity | reflexivity | reflexivity | reflexivity | reflexivity
    | reflexivity | reflexivity | discriminate | reflexivity |].
  split; [exact Hdel|]. simpl. simpl in Hgone. rewrite Hgone. reflexivity.
Defined.

Lemma logins_unicos_insert t k u :
  logins_unicos t →
  (∀ j b, delete k t !! j = Some b → User.login b ≠ User.login u) →
  logins_unicos (<[k := u]> t).
Proof.
  intros Hinv Hlivre i j a b Ha Hb Heq.
  destruct (decide (i = k)) as [Hi|Hi], (decide (j = k)) as [Hj|Hj].
  - congruence.
  - subst i. rewrite lookup_insert_eq in Ha. rewrite lookup_insert_ne in Hb by done.
    injection Ha as <-. exfalso.
    apply (Hlivre j b); [by rewrite lookup_delete_ne|done].
  - subst j. rewrite lookup_insert_eq in Hb. rewrite lookup_insert_ne in Ha by done.
    injection Hb as <-. exfalso.
    apply (Hlivre i a); [by rewrite lookup_delete_ne|done].
  - rewrite lookup_insert_ne in Ha, Hb by done. by eapply Hinv.
Qed.

Lemma logins_unicos_delete t k :
  logins_unicos t → logins_unicos (delete k t).
Proof.
  intros Hinv i j a b Ha Hb.
  apply lookup_delete_Some in Ha as [_ Ha].
  apply lookup_delete_Some in Hb as [_ Hb]. by eapply Hinv.
Qed.

(** X26. No two users ever share a login: each of the four operations on
    the user table keeps the logins distinct, whatever the form and
    whichever commits fail. A registration with a taken login is turned
    down by the route's own lookup; an edit to a taken login is stopped by
    the unique index and stores nothing. *)
Theorem X26_logins_unicos ctx op bd :
  logins_unicos (user bd) →
  logins_unicos (user (rota_usuario ctx op bd)).
Proof.
  intros Hinv. destruct op as [form|id form|id|]; simpl.
  - unfold usuarios. destruct (nao_admin ctx); [done|].
    destruct (vazia _ || vazia _ || vazia _); [done|]. desmonta_u.
    destruct (login_em_uso (user bd) _) eqn:Huso; simpl; [done|].
    destruct (falha ctx 0%nat); simpl; [done|].
    assert (logins_unicos
              (<[proximo_id (user bd) :=
                   User.Novo (strip (ou (fu_nome form) ""))
                             (strip (ou (fu_login form) ""))
                             (ou (fu_senha form) "") (ou (fu_role form) "user")]>
                 (user bd))) as Hnovo.
    { apply logins_unicos_insert; [done|].
      intros j b [_ Hb]%lookup_delete_Some. simpl.
      by apply (proj1 (login_em_uso_false _ _) Huso j b). }
    by destruct (falha ctx 1%nat).
  - destruct (editar_usuario_estados ctx bd id form)
      as [->|(u & Hu & _ & _ & Hlivre & ->)]; [done|].
    apply logins_unicos_insert; [done|].
    intros j b Hb. simpl.
    by apply (proj1 (login_em_uso_false _ _) Hlivre j b).
  - pose proof (deletar_usuario_estados ctx bd id) as H.
    destruct (user bd !! id) as [u|]; [|by rewrite H].
    destruct (nao_admin ctx); [by rewrite H|].
    destruct (bool_decide (User.login u = "admin")); [by rewrite H|].
    destruct (falha ctx 0%nat); [by rewrite H|].
    rewrite H. by apply logins_unicos_delete.
  - unfold criar_admin_padrao. desmonta_u.
    case_bool_decide as Hn; simpl; [|done].
    destruct (falha ctx 0%nat); simpl; [done|].
    apply map_size_empty_iff in Hn. rewrite Hn.
    intros i j a b Ha Hb _.
    destruct (decide (proximo_id (∅ : gmap Z User.t) = i)) as [<-|Hi];
      [|by rewrite lookup_insert_ne, lookup_empty in Ha].
    destruct (decide (proximo_id (∅ : gmap Z User.t) = j)) as [<-|Hj]; [done|].
    by rewrite lookup_insert_ne, lookup_empty in Hb.
Qed.

Lemma bd_admin_logins_unicos : logins_unicos (user bd_admin).
Proof.
  intros i j a b Ha Hb Heq. simpl in Ha, Hb.
  destruct (decide (i = 1)) as [->|Hi1], (decide (j = 1)) as [->|Hj1]; try done.
  - rewrite lookup_insert_eq in Ha. rewrite lookup_insert_ne in Hb by done.
    apply lookup_singleton_Some in Hb as [_ <-]. injection Ha as <-. done.
  - rewrite lookup_insert_eq in Hb. rewrite lookup_insert_ne in Ha by done.
    apply lookup_singleton_Some in Ha as [_ <-]. injection Hb as <-. done.
  - rewrite lookup_insert_ne in Ha, Hb by done.
    apply lookup_singleton_Some in Ha as [<- _].
    by apply lookup_singleton_Some in Hb as [<- _].
Qed.

Lemma X26_logins_unicos_witness :
  logins_unicos
    (user (rota_usuario admin
             (OpEditarUsuario 2 (MkFormUsuario None (Some "admin") None None))
             bd_admin))
  ∧ user (rota_usuario admin
            (OpEditarUsuario 2 (MkFormUsuario None (Some "admin") None None))
            bd_admin) = user bd_admin.
Proof.
  split; [|reflexivity].
  apply X26_logins_unicos, bd_admin_logins_unicos.
Defined.

(** X27. At start-up the default administrator (login "admin", password
    "1234") is created only when the user table is empty: on a table with
    any user the function stores nothing, on an empty one it stores that
    single account under key 1, and once it has run with its commit going
    through, running it again changes nothing. *)
Theorem X27_criar_admin_padrao ctx bd :
  (user bd ≠ ∅ → correr_u (criar_admin_padrao ctx) bd = (Retorna tt, bd))
  ∧ (user bd = ∅ → falha ctx 0%nat = false →
     (correr_u (criar_admin_padrao ctx) bd).2
     = MkBD {[1 := User.Novo "Administrador" "admin" "1234" "admin"]} (dados bd))
  ∧ (falha ctx 0%nat = false →
     ∀ ctx', rota_usuario ctx' OpCriarAdmin (rota_usuario ctx OpCriarAdmin bd)
             = rota_usuario ctx OpCriarAdmin bd).
Proof.
  assert (∀ c b, user b ≠ ∅ → correr_u (criar_admin_padrao c) b = (Retorna tt, b)) as Hcheio.
  { intros c b Hne. unfold criar_admin_padrao. desmonta_u.
    rewrite bool_decide_eq_false_2; [done|].
    intros Hn. by apply map_size_empty_iff in Hn. }
  assert (∀ b, user b = ∅ → falha ctx 0%nat = false →
            (correr_u (criar_admin_padrao ctx) b).2
            = MkBD {[1 := User.Novo "Administrador" "admin" "1234" "admin"]} (dados b))
    as Hvazio.
  { intros b He Hc. unfold criar_admin_padrao. desmonta_u.
    rewrite bool_decide_eq_true_2 by (by apply map_size_empty_iff).
    simpl. rewrite Hc. simpl. rewrite He. reflexivity. }
  split; [apply Hcheio|]. split; [apply Hvazio|].
  intros Hc ctx'. simpl.
  destruct (decide (user bd = ∅)) as [He|Hne].
  - rewrite (Hvazio bd He Hc). rewrite Hcheio; [done|]. simpl.
    intros H. apply (f_equal (λ m, m !! 1)) in H.
    by rewrite lookup_singleton_eq, lookup_empty in H.
  - rewrite (Hcheio ctx bd Hne). simpl. by rewrite (Hcheio ctx' bd Hne).
Qed.

Lemma X27_criar_admin_padrao_witness :
  correr_u (criar_admin_padrao admin) bd_admin = (Retorna tt, bd_admin)
  ∧ (correr_u (criar_admin_padrao admin) (MkBD ∅ db_inicial)).2
    = MkBD {[1 := User.Novo "Administrador" "admin" "1234" "admin"]} db_inicial.
Proof.
  destruct (X27_criar_admin_padrao admin bd_admin) as (Hcheio & _ & _).
  destruct (X27_criar_admin_padrao admin (MkBD ∅ db_inicial)) as (_ & Hvazio & _).
  split.
  - apply Hcheio. intros H. apply (f_equal (λ m, m !! 1)) in H.
    vm_compute in H. discriminate H.
  - apply Hvazio; reflexivity.
Defined.

(** X28. What the user routes refuse, storing nothing: every request of a
    user whose role is not "admin"; a registration with an empty name,
    login or password; a registration whose login is taken (the route's own
    message); an edit that would give a user the login of another (the 500
    page, from the unique index); an edit or a deletion of a key no user
    holds (the 404 page). *)
Theorem X28_usuarios_recusas ctx bd form id :
  (nao_admin ctx = true →
   correr_u (usuarios ctx form) bd = (Retorna RestritoAdministradores, bd)
   ∧ correr_u (editar_usuario ctx id form) bd = (Retorna Restrito, bd)
   ∧ correr_u (deletar_usuario ctx id) bd = (Retorna Restrito, bd))
  ∧ (nao_admin ctx = false →
     (strip (ou (fu_nome form) "") = "" ∨ strip (ou (fu_login form) "") = ""
      ∨ ou (fu_senha form) "" = "" →
      correr_u (usuarios ctx form) bd = (Retorna PreenchaTodos, bd))
     ∧ (strip (ou (fu_nome form) "") ≠ "" → strip (ou (fu_login form) "") ≠ "" →
        ou (fu_senha form) "" ≠ "" →
        (∃ j b, user bd !! j = Some b ∧ User.login b = strip (ou (fu_login form) "")) →
        correr_u (usuarios ctx form) bd = (Retorna LoginJaExiste, bd))
     ∧ (∀ u j b, user bd !! id = Some u → user bd !! j = Some b → j ≠ id →
                 User.login b = strip (ou (fu_login form) (User.login u)) →
                 correr_u (editar_usuario ctx id form) bd = (Levanta Erro, bd))
     ∧ (user bd !! id = None →
        correr_u (editar_usuario ctx id form) bd = (Levanta NotFound, bd)
        ∧ correr_u (deletar_usuario ctx id) bd = (Levanta NotFound, bd))).
Proof.
  split.
  - intros Ha. unfold usuarios, editar_usuario, deletar_usuario. by rewrite Ha.
  - intros Ha. split; [|split; [|split]].
    + intros H. unfold usuarios. rewrite Ha.
      destruct H as [-> |[-> | ->]]; simpl; rewrite ?orb_true_r; done.
    + intros Hn Hl Hs (j & b & Hj & Hb). unfold usuarios. rewrite Ha.
      destruct (strip (ou (fu_nome form) "")) eqn:En; [done|].
      destruct (strip (ou (fu_login form) "")) eqn:El; [done|].
      destruct (ou (fu_senha form) "") eqn:Es; [done|]. simpl. desmonta_u.
      assert (login_em_uso (user bd) (String a0 s0) = true) as ->; [|done].
      destruct (login_em_uso (user bd) (String a0 s0)) eqn:Huso; [done|].
      exfalso. by apply (proj1 (login_em_uso_false _ _) Huso j b).
    + intros u j b Hu Hj Hne Hb. unfold editar_usuario. rewrite Ha. desmonta_u.
      rewrite Hu. simpl.
      assert (login_de_outro (user bd) id
                (strip (ou (fu_login form) (User.login u))) = true) as ->; [|done].
      destruct (login_de_outro (user bd) id _) eqn:Huso; [done|].
      exfalso. apply (proj1 (login_em_uso_false _ _) Huso j b); [|done].
      by rewrite lookup_delete_ne.
    + intros Hnone. unfold editar_usuario, deletar_usuario. rewrite Ha. desmonta_u.
      by rewrite Hnone.
Qed.

Lemma X28_usuarios_recusas_witness :
  correr_u (deletar_usuario (MkContexto "rui" "supervisor" 0 0 (λ _, false)) 2) bd_admin
  = (Retorna Restrito, bd_admin)
  ∧ correr_u (usuarios admin (MkFormUsuario (Some "Rui II") (Some " rui ") (Some "x") None))
             bd_admin
    = (Retorna LoginJaExiste, bd_admin)
  ∧ correr_u (editar_usuario admin 2 (MkFormUsuario None (Some "admin") None None))
             bd_admin
    = (Levanta Erro, bd_admin)
  ∧ correr_u (usuarios admin
                (MkFormUsuario (Some (String "194" (String "160" "")))
                               (Some "rui") (Some "x") None))
             bd_admin
    = (Retorna PreenchaTodos, bd_admin).
Proof.
  split; [|split; [|split]].
  - destruct (proj1 (X28_usuarios_recusas
                       (MkContexto "rui" "supervisor" 0 0 (λ _, false)) bd_admin
                       (MkFormUsuario None None None None) 2) eq_refl) as (_ & _ & H).
    exact H.
  - destruct (proj2 (X28_usuarios_recusas admin bd_admin
                       (MkFormUsuario (Some "Rui II") (Some " rui ") (Some "x") None) 2)
                eq_refl) as (_ & H & _).
    apply H; [discriminate | discriminate | discriminate |].
    exists 2, (User.Novo "Rui" "rui" "abc" "user"). split; reflexivity.
  - destruct (proj2 (X28_usuarios_recusas admin bd_admin
                       (MkFormUsuario None (Some "admin") None None) 2)
                eq_refl) as (_ & _ & H & _).
    apply (H (User.Novo "Rui" "rui" "abc" "user") 1
             (User.Novo "Administrador" "admin" "1234" "admin"));
      [reflexivity | reflexivity | discriminate | reflexivity].
  - destruct (proj2 (X28_usuarios_recusas admin bd_admin
                       (MkFormUsuario (Some (String "194" (String "160" "")))
                                      (Some "rui") (Some "x") None) 2)
                eq_refl) as (H & _).
    apply H. left. reflexivity.
Defined.

(** ** X29: the role of the user *)

(** X29. None of the eight routes of the ledger reads the role of the
    logged-in user: the answer and the stored database are the same
    whatever the role. Setting the secret of an employee and deleting one
    are open to every user in particular, though registering one is not. *)
Theorem X29_rotas_sem_papel usuario papel papel' t1 t2 f op db :
  servir (rota (MkContexto usuario papel t1 t2 f) op) db
  = servir (rota (MkContexto usuario papel' t1 t2 f) op) db.
Proof. destruct op; reflexivity. Qed.
